(* ===== verification/_CoqProject ===== *)
-Q . S2P
Prelude.v
Types.v
GoStrings.v
Validation.v
Tables.v
Selection.v
Store.v
Prog.v
Repo.v
Fixtures.v
TeamService.v
UserService.v
PRService.v
Http.v
Concurrency.v
Engine.v
Main.v
Mocks.v
