(* ===== verification/Prelude.v ===== *)
(** * Review Manager: a verification development of the review-assignment service

    The program (Go, [src/microservice]) keeps teams, users and pull
    requests in PostgreSQL and assigns code reviewers to pull requests.
    Its layers, leaves first:

    - [internal/repository]: the data-access layer.  [types.go] declares
      the rows ([Team], [User], [PullRequest], ...) and the sentinel
      errors; [pr_repo.go], [user_repo.go], [team_repo.go] issue one SQL
      statement (or a loop of statements) per method through a
      [*pgxpool.Pool]; [tx.go] offers [WithinTx], which opens a
      transaction and stores it in the [context.Context] that the
      (never called) helper [currentDB] would read back.
    - [internal/service]: [PRService] ([Create], [Merge], [Reassign]: the
      review-assignment engine), [TeamService] ([TeamAdd], [TeamGet]) and
      [UserService] ([SetIsActive], [GetReviewPRs], [GetReviewerStats]).
      The services reach the store only through the repository
      interfaces [PrRepo], [UserRepo], [TeamRepo] and [TxManager].
    - [internal/validation] checks request fields; [internal/httpapi]
      decodes requests, checks the admin token, calls a service and maps
      its error to an HTTP status; [cmd/main.go] reads its configuration
      from the environment and wires everything on one pool.  A stale
      copy of [types.go] sits in [src/service], outside the module.

    How the library models it, one file per component, in the order of
    [_CoqProject]:

    - [Prelude] (this file): the [result] type, shared list lemmas, the
      hint database [rm] and the development's tactics.
    - [Types]: [types.go] and the DTOs of [internal/dto] and
      [internal/models/dto] as records with the Go field names; the
      sentinel and driver errors as one inductive type with [Error],
      their messages; [Types.OldRepository] is the stale copy.
    - [GoStrings]: the [strings] functions the handlers call
      ([TrimSpace] over bytes, with the Unicode spaces, [HasPrefix],
      [TrimPrefix]), with a reference trim of the ASCII spaces.
      [Validation]: the validators of [validation/*.go].
    - [Tables]: the database (teams, users, statuses, pull requests,
      reviewer rows, the team sequence); the schema is not in the
      repository and follows the queries.  [Selection]: the candidate
      query of [FindActiveInTeamExcept] ([ORDER BY random() LIMIT n]).
      [Store]: every other SQL statement the repositories issue, as an
      event type [sql] and its effect [exec_sql], with the unique and
      foreign-key violations, and the invariant [db_wf].
    - [Prog]: effectful Go code as a finite program tree [prog] over SQL
      statements, [time.Now], [rand.Intn] and [Begin]/[Commit]/[Rollback];
      [run] interprets it against a [World]: committed tables, the open
      transaction's redo log, a schedule of store failures, the random
      keys and draws, the clock.
    - [Repo]: the interfaces as records of operations and the Pg
      implementations, parameterised by where a statement goes: the pool
      ([pool_db], as written) or [currentDB ctx] ([ctx_db]).  Classes
      [PrRepoOk], [UserRepoOk], [TeamRepoOk] state each method's effect
      on the tables; instances prove the pool-routed repositories meet
      them.  [WithinTx] and the [PgTxManager].
    - [Fixtures]: the tables and requests of the unit tests
      ([tests/unit/*_test.go]) as databases of the model.
    - [TeamService], [UserService], [PRService]: the services, written
      against the interfaces in the order the Go code calls them, with
      every guard and early return.  [Http]: every handler, the admin
      check and the router.
    - [Concurrency]: [net/http] serves each request on a goroutine of its
      own over the shared pool.  [step_on] performs one effect of a
      goroutine on the shared [World] with the goroutine's own
      transaction; [interleave] follows a schedule of two goroutines and
      [run2] lets both finish.  A generic lemma turns an invariant kept by
      every step into one that holds after every schedule; [sends_only]
      and [must_pass] are footprints of a program tree (which statements
      it may send, which answer every success must pass), [intn_pos] (every
      [rand.Intn] argument is positive) and [within n] (at most [n]
      effects before returning, whatever they answer).
    - [Engine]: the spec's review engine as an abstract state (users
      with team and flag; PRs with author, status, merge time, reviewers),
      a transition relation [astep] for its four mutations and its
      invariant [ainv]; [abs] reads the abstract state off the tables and
      [serve_all] serves a list of requests through the wired services.
    - [Main]: [main] of [cmd/main.go] as a function of the environment
      and of the pool's creation, ending in the configured [http.Server]
      or the [log.Fatal] it stops with; [Lifecycle]: the process after
      it as a state machine [lstep] in which [main] (its wait for the
      signal, [Shutdown], each deferred call, the exit), the serving
      goroutine ([ListenAndServe] step by step as [net/http] writes it,
      and its [log.Fatalf]) and the operating system take turns.
    - [Mocks]: the in-memory repositories of [tests/unit]
      ([MockTeamRepo], [MockUserRepo] over Go maps, with the iteration
      order of [range] as an argument), [MockTxManager], an
      implementation of the [TxManager] interface, and the [MockPrRepo]
      of [tests/unittests].

    Theorems, by group (the claims are numbered C1.. in the doc comment
    above each):
    - the engine against the repository contracts: [Create] assigns
      distinct active teammates of the author, never the author, and
      stores exactly what it reports; [Reassign] replaces exactly the old
      reviewer by an active teammate who was not reviewing; [Merge]
      marks the PR merged and is idempotent (merged_at never changes);
      every error branch with the state it leaves; every candidate can be
      drawn, the PR's author included when a teammate of the replaced
      reviewer;
    - refinement: every sequence of requests served by the code is an
      execution of the abstract engine (failures leave the abstract
      state unchanged and no step was possible), so the engine invariant
      holds, a merged PR is frozen and an existing PR keeps its number
      of reviewers (the spec's cardinality invariant);
    - the store invariant: every program, with failures injected
      anywhere, preserves [db_wf];
    - the candidate query: what it returns for every draw, and that it
      is not biased;
    - teams and users: what [TeamAdd] writes, its duplicate-name error,
      that [TeamGet] always fails; a deactivated user is never a
      candidate again; [GetReviewPRs] lists the user's PRs newest first;
    - HTTP: the exact condition under which the admin token is accepted,
      that [UserSetActive] rejects before reading the body, that every
      handler writes a well-formed reply (JSON with 200/201, or an error
      body with an error status and a declared code, a 500 showing only
      the generic message), and the statuses of the divergent cases;
    - concurrency: every interleaving of two programs preserves
      [db_wf]; two concurrent [Reassign]s of the same reviewer never both
      succeed, for every schedule and every failure (the row-count check
      of [ReplaceReviewer]); two concurrent reassignments of two reviewers
      of one PR can pick the same candidate and the second is answered
      500; a [Reassign] racing with a deactivation assigns the
      deactivated user;
    - bounds and termination: [Reassign] returns within eight effects
      and never calls [rand.Intn] with a non-positive argument;
    - strings and configuration: on ASCII input [TrimSpace] is the
      reference trim and a field is blank exactly when it is all spaces;
      a started server never accepts a blank admin token;
    - the process: every reachable state has its phase's shape (exit
      status 0 only after the three deferred calls, 1 only from
      [log.Fatalf] with the server's error logged), a live process can
      always exit with 0, a goroutine that returned [ErrServerClosed]
      can no longer cause status 1, but a [net.Listen] failure after
      [Shutdown] began still exits with 1, even after the deferred calls;
    - the test mocks against the repositories: the mock query is
      [LIMIT n] for [n >= 1] (for [n <= 0] it returns every eligible
      user); the mock team ids count distinct names; upsert and list
      round-trip; the mock PR repository reads back what [Create] stores
      and replaces a reviewer in place, and its [SetMerged] keeps the
      first merge time but not the status name;
    - divergences from the spec, proved as theorems on concrete worlds
      or in general: a duplicate PR id is [ErrTeamExists] and answers
      500; [Create] and [TeamAdd] are not atomic as written; [Reassign]
      can choose the author;
      [TeamGet] and [GET /team/get] never succeed; an unknown user's
      review list is 200 with no PR; a padded token is accepted.

    Row order: the reviewer rows are a list kept in insertion order,
    and [reviewers_of] reads a PR's rows in that order, as the
    [SELECT ... FROM pr_reviewers WHERE pr_id = $1] without [ORDER BY]
    of [GetWithReviewers] does on a heap that was only appended to;
    PostgreSQL promises no order there.  The theorems that equate
    reviewer lists ([Create]'s reported and stored lists, [Reassign]'s
    list with the old reviewer swapped in place) state the order the
    model reads; what they say of the content (membership, distinctness,
    length, which user replaced which) holds for every order.  The map
    iteration of the Go mocks is an argument instead, and their
    theorems hold for every order.

    Bounds and fuel: none is needed.  [prog] is inductive and [run] is a
    structural [Fixpoint], so every modelled handler terminates (and so
    does [run2]: a schedule is a finite list and each goroutine then runs
    structurally to its end); the
    loops ([AddReviewers], [UpsertTeamMembers], the candidate filter, the
    validators) are structural over lists and strings.  Randomness is an
    input ([w_rand] for [ORDER BY random()], [w_intn] for [rand.Intn]) so
    the theorems hold for every draw and a witness chooses one.  Times
    are integers ([Z]); no arithmetic on them overflows in the code.
    The effects of [Reassign] are bounded by eight, the
    longest path of its code: the two queries of [GetWithReviewers],
    [GetByID], [FindActiveInTeamExcept], the [rand.Intn] draw, the
    update of [ReplaceReviewer] and the two queries of the final
    [GetWithReviewers].

    Not modelled: JSON encoding and decoding (standard library; a
    handler receives the decoded body or its failure), the pool's
    creation (an input of [Main.main]), the inside of [Shutdown]
    (closing idle connections and waiting for active ones: its outcome,
    success or the timeout's error, is an event of [Lifecycle];
    [ListenAndServe]'s own steps are modelled, after [net/http]), the
    pgx driver beyond the
    semantics of its statements (a rolled-back transaction also rolls
    back the team sequence here, unlike PostgreSQL; the code never runs
    [TeamRepo.Create] in a transaction), the repository methods the
    services call but no file declares ([ListByTeam],
    [GetReviewerStats]: parameters of the functions that call them), the
    end-to-end tests (HTTP against a live server and database), and the
    test functions themselves (their tables are the fixtures).
    Concurrency is modelled for two requests at a time, each statement
    atomic; more requests at once, and PostgreSQL's
    row locks and isolation inside concurrent transactions (a
    transaction here applies its redo log at commit), are not. *)

From stdpp Require Import base list gmap strings sorting.
From Stdlib Require Import ZArith.

(** ** Results *)

(** Go returns [(value, error)]; a [result A E] is the value or the error. *)
Inductive result (A E : Type) : Type :=
| Ok (a : A)
| Err (e : E).
Arguments Ok {A E} a.
Arguments Err {A E} e.

Definition is_ok {A E} (r : result A E) : bool :=
  match r with Ok _ => true | Err _ => false end.

Definition result_map {A B E} (f : A -> B) (r : result A E) : result B E :=
  match r with Ok a => Ok (f a) | Err e => Err e end.

Lemma Ok_inj {A E} (a b : A) : @Ok A E a = Ok b -> a = b.
Proof. by inversion 1. Qed.

(** ** Shared list lemmas *)

Create HintDb rm.
Create Rewrite HintDb rm_run.

Section lists.
Context {A : Type}.
Implicit Types (l : list A) (x : A).

Lemma elem_of_take_weaken n l x : x ∈ take n l -> x ∈ l.
Proof.
  rewrite elem_of_take. intros (i & Hi & _).
  by apply list_elem_of_lookup_2 with i.
Qed.

Lemma NoDup_take_of n l : NoDup l -> NoDup (take n l).
Proof.
  intros Hnd. rewrite <-(take_drop n l), NoDup_app in Hnd. by destruct Hnd as [? _].
Qed.

Lemma filter_none (P : A -> Prop) `{!∀ x, Decision (P x)} l :
  (∀ x, x ∈ l -> ¬ P x) -> filter P l = [].
Proof.
  induction l as [|y l IH]; intros Hno; [done|]. rewrite filter_cons.
  rewrite decide_False by (apply Hno; left). apply IH. intros x Hx. apply Hno. by right.
Qed.

Lemma Forall_take_of (P : A -> Prop) n l : Forall P l -> Forall P (take n l).
Proof. rewrite !Forall_forall. eauto using elem_of_take_weaken. Qed.
(** [l[rand.Intn(len(l))]] is an element of [l]. *)
Lemma nth_mod_elem_of l (i : nat) (dflt : A) : l ≠ [] -> nth (i mod length l) l dflt ∈ l.
Proof.
  intros Hl. apply list_elem_of_In, nth_In, Nat.mod_upper_bound.
  by destruct l.
Qed.
End lists.

(** A sorted list stays sorted under a map that respects the order on
    the elements satisfying [P]. *)
Lemma StronglySorted_fmap_weaken {A B} (R : relation A) (R' : relation B) (P : A -> Prop)
    (f : A -> B) (l : list A) :
  Forall P l -> (∀ a b, P a -> P b -> R a b -> R' (f a) (f b)) ->
  StronglySorted R l -> StronglySorted R' (f <$> l).
Proof.
  intros HP HR Hs. induction Hs as [|a l Hs IH Hall]; simpl; constructor.
  - apply IH. by inversion HP.
  - inversion HP as [|? ? Ha Hl]; subst. rewrite Forall_fmap, Forall_forall.
    rewrite Forall_forall in Hall, Hl. intros b Hb. apply HR; auto.
Qed.

#[export] Hint Resolve NoDup_take_of Forall_take_of elem_of_take_weaken : rm.

(** ** Tactics *)

(** Name the equation of every [match] on a lookup or a test. *)
Ltac destruct_lookups :=
  repeat match goal with
  | |- context [match ?m !! ?k with _ => _ end] =>
      let E := fresh "E" in destruct (m !! k) eqn:E
  | |- context [match decide ?P with _ => _ end] =>
      let E := fresh "D" in destruct (decide P) as [E|E]
  end.
