(* ===== verification/Types.v ===== *)
(** * Types: the rows, constants and errors of [repository/types.go]

    Each Go struct is a [Record] in a [Module] of its name, so that the
    Go field access [u.TeamID] reads [User.TeamID u].  Go [int] columns
    (serial ids, counts, status ids) are [Z]; [time.Time] is a [Z]
    timestamp and [*time.Time] is [option Z].  The error values of
    [types.go] are the first constructors of [error]; the remaining ones
    are the errors the pgx driver hands back unchanged ([pgx.ErrNoRows],
    a [*pgconn.PgError] with its SQLSTATE, a failed connection or a
    cancelled context, a closed transaction).  The request and response
    structs of [internal/dto/pull_request.go] follow, and the module
    [OldRepository] models the stale copy of [types.go] under
    [src/service], with the messages that set it apart. *)

From stdpp Require Import base list gmap strings.
From Stdlib Require Import ZArith.
From S2P Require Import Prelude.

(** ** Constants *)

Definition uniqueViolationErr : string := "23505".
Definition StatusOpen : Z := 1.
Definition StatusMerged : Z := 2.

(** SQLSTATE codes the store raises besides [uniqueViolationErr]. *)
Definition foreignKeyViolationErr : string := "23503".
Definition undefinedColumnErr : string := "42703".
Definition invalidLimitErr : string := "2201W".

(** ** Errors *)

(** The sentinel errors are compared by identity ([errors.Is]): the
    three "resource not found" values are distinct errors although they
    carry the same message. *)
Inductive error : Type :=
| ErrTeamExists
| ErrTeamNotFound
| ErrUserNotFound
| ErrPRNotFound
| ErrNoCandidate
| ErrReviewerNotSet
| ErrPRMerged
| ErrPRExists
(* errors produced by the driver and passed through by the repositories *)
| ErrNoRows
| ErrPg (sqlstate : string)
| ErrConn
| ErrTxClosed.

#[export] Instance error_eq_dec : EqDecision error.
Proof. solve_decision. Defined.

(** [err.Error()]: the messages of the sentinel errors.  Three of them
    share the text "resource not found" but are distinct values, so
    [errors.Is] tells them apart.  The driver's errors keep pgx's texts;
    a [*pgconn.PgError] is shown by its SQLSTATE only. *)
Definition Error (e : error) : string :=
  match e with
  | ErrTeamExists => "team_name already exists"
  | ErrTeamNotFound | ErrUserNotFound | ErrPRNotFound => "resource not found"
  | ErrNoCandidate => "no active candidate in team"
  | ErrReviewerNotSet => "reviewer is not assigned to this PR"
  | ErrPRMerged => "cannot reassign on merged PR"
  | ErrPRExists => "PR id already exists"
  | ErrNoRows => "no rows in result set"
  | ErrPg code => "SQLSTATE " ++ code
  | ErrConn => "conn closed"
  | ErrTxClosed => "tx is closed"
  end.

Abbreviation res A := (result A error).

(** ** Rows *)

Module Team.
Record t := mk { ID : Z; Name : string }.
End Team.

Module User.
Record t := mk {
  ID : string;
  Username : string;
  TeamID : Z;
  TeamName : string;
  IsActive : bool
}.
End User.

Module TeamWithMembers.
Record t := mk { Team : Team.t; Members : list User.t }.
End TeamWithMembers.

Module PullRequest.
Record t := mk {
  ID : string;
  Name : string;
  AuthorID : string;
  StatusID : Z;
  StatusName : string;
  CreatedAt : Z;
  MergedAt : option Z
}.
End PullRequest.

Module PullRequestShort.
Record t := mk {
  ID : string;
  Name : string;
  AuthorID : string;
  StatusName : string
}.
End PullRequestShort.

Module ReviewerStatRow.
Record t := mk { UserID : string; Username : string; ReviewsCount : Z }.
End ReviewerStatRow.

#[export] Instance team_eq_dec : EqDecision Team.t.
Proof. solve_decision. Defined.
#[export] Instance user_eq_dec : EqDecision User.t.
Proof. solve_decision. Defined.
#[export] Instance pull_request_eq_dec : EqDecision PullRequest.t.
Proof. solve_decision. Defined.

(** ** DTOs of [internal/dto/pull_request.go] *)

Module dto.
Definition PullRequestStatus := string.
Definition PrStatusOpen : PullRequestStatus := "OPEN".
Definition PrStatusMerged : PullRequestStatus := "MERGED".

Module PullRequest.
Record t := mk {
  PullRequestID : string;
  PullRequestName : string;
  AuthorID : string;
  Status : PullRequestStatus;
  AssignedReviewers : list string;
  CreatedAt : option Z;
  MergedAt : option Z
}.
End PullRequest.

Module CreatePrRequest.
Record t := mk {
  PullRequestID : string;
  PullRequestName : string;
  AuthorID : string
}.
End CreatePrRequest.

Module CreatePrResponse.
Record t := mk { PR : PullRequest.t }.
End CreatePrResponse.

Module MergePrRequest.
Record t := mk { PullRequestID : string }.
End MergePrRequest.

Module MergePullRequestResponse.
Record t := mk { PR : PullRequest.t }.
End MergePullRequestResponse.

Module ReassignPrRequest.
Record t := mk { PullRequestID : string; OldUserID : string }.
End ReassignPrRequest.

Module ReassignPrResponse.
Record t := mk { PR : PullRequest.t; ReplacedBy : string }.
End ReassignPrResponse.

Module PullRequestShort.
Record t := mk {
  PullRequestID : string;
  PullRequestName : string;
  AuthorID : string;
  Status : PullRequestStatus
}.
End PullRequestShort.

(** The team DTOs [team_service.go], [handlers_team.go] and
    [validation/team.go] use ([dto.TeamMember], [dto.Team],
    [dto.TeamAddRequest], [dto.TeamAddResponse]) are declared nowhere in
    the repository; their fields are those the code reads and the spec's
    [/team/add] and [/team/get] bodies list. *)
Module TeamMember.
Record t := mk { UserID : string; Username : string; IsActive : bool }.
End TeamMember.

Module Team.
Record t := mk { TeamName : string; Members : list TeamMember.t }.
End Team.

Module TeamAddRequest.
Record t := mk { TeamName : string; Members : list TeamMember.t }.
End TeamAddRequest.

Module TeamAddResponse.
Record t := mk { Team : Team.t }.
End TeamAddResponse.

(** [internal/models/dto/user.go] and [stats.go]. *)
Module User.
Record t := mk { UserID : string; Username : string; TeamName : string; IsActive : bool }.
End User.

Module SetUserIsActiveRequest.
Record t := mk { UserID : string; IsActive : bool }.
End SetUserIsActiveRequest.

Module SetUserIsActiveResponse.
Record t := mk { User : User.t }.
End SetUserIsActiveResponse.

Module UserGetReviewResponse.
Record t := mk { UserID : string; PullRequests : list PullRequestShort.t }.
End UserGetReviewResponse.

Module ReviewerStat.
Record t := mk { Username : string; ReviewsCount : Z }.
End ReviewerStat.

Module ReviewerStatsResponse.
Record t := mk { Stats : list ReviewerStat.t }.
End ReviewerStatsResponse.

(** [internal/models/dto/error.go]: the error body and its codes. *)
Module ErrorBody.
Record t := mk { Code : string; Message : string }.
End ErrorBody.

Module ErrorResponse.
Record t := mk { Error : ErrorBody.t }.
End ErrorResponse.

Definition ErrorCodeTeamExists := "TEAM_EXISTS".
Definition ErrorCodePRExists := "PR_EXISTS".
Definition ErrorCodePRMerged := "PR_MERGED".
Definition ErrorCodeNotAssigned := "NOT_ASSIGNED".
Definition ErrorCodeNoCandidate := "NO_CANDIDATE".
Definition ErrorCodeNotFound := "NOT_FOUND".
End dto.

(** ** The older copy [src/service/internal/repository/types.go]

    A second [types.go] sits outside the Go module; nothing imports it.
    It names the unique-violation code [UNIQUE_VIOLATION], has neither
    the status constants nor [ErrPRExists] nor [ReviewerStatRow], and
    gives its errors other messages.  Its structs have the fields of the
    module's copy. *)
Module OldRepository.

Definition UNIQUE_VIOLATION : string := "23505".

Inductive error : Type :=
| ErrTeamExists
| ErrTeamNotFound
| ErrUserNotFound
| ErrPRNotFound
| ErrNoCandidate
| ErrReviewerNotSet
| ErrPRMerged.

#[export] Instance error_eq_dec : EqDecision error.
Proof. solve_decision. Defined.

Definition Error (e : error) : string :=
  match e with
  | ErrTeamExists => "team already exists"
  | ErrTeamNotFound => "team not found"
  | ErrUserNotFound => "user not found"
  | ErrPRNotFound => "pull request not found"
  | ErrNoCandidate => "no active candidate in team"
  | ErrReviewerNotSet => "reviewer is not assigned to this PR"
  | ErrPRMerged => "pull request already merged"
  end.

Module Team.
Record t := mk { ID : Z; Name : string }.
End Team.

Module User.
Record t := mk {
  ID : string;
  Username : string;
  TeamID : Z;
  TeamName : string;
  IsActive : bool
}.
End User.

Module TeamWithMembers.
Record t := mk { Team : Team.t; Members : list User.t }.
End TeamWithMembers.

Module PullRequest.
Record t := mk {
  ID : string;
  Name : string;
  AuthorID : string;
  StatusID : Z;
  StatusName : string;
  CreatedAt : Z;
  MergedAt : option Z
}.
End PullRequest.

Module PullRequestShort.
Record t := mk {
  ID : string;
  Name : string;
  AuthorID : string;
  StatusName : string
}.
End PullRequestShort.

(** The sentinel of the module's copy with the same Go name. *)
Definition current (e : error) : Types.error :=
  match e with
  | ErrTeamExists => Types.ErrTeamExists
  | ErrTeamNotFound => Types.ErrTeamNotFound
  | ErrUserNotFound => Types.ErrUserNotFound
  | ErrPRNotFound => Types.ErrPRNotFound
  | ErrNoCandidate => Types.ErrNoCandidate
  | ErrReviewerNotSet => Types.ErrReviewerNotSet
  | ErrPRMerged => Types.ErrPRMerged
  end.

End OldRepository.

(** The older copy's messages name the missing resource, one text per
    error; the module's copy shows the three "not found" errors with one
    text.  Of the seven errors both copies declare, only [ErrNoCandidate]
    and [ErrReviewerNotSet] kept their message. *)
Theorem OldRepository_messages :
  (∀ e1 e2, OldRepository.Error e1 = OldRepository.Error e2 -> e1 = e2) ∧
  Error ErrTeamNotFound = Error ErrUserNotFound ∧ Error ErrUserNotFound = Error ErrPRNotFound ∧
  (∀ e, Error (OldRepository.current e) = OldRepository.Error e <->
        e = OldRepository.ErrNoCandidate ∨ e = OldRepository.ErrReviewerNotSet).
Proof.
  split_and!; [|done|done|].
  - intros [] []; vm_compute; congruence.
  - intros []; vm_compute; split; intros H;
      first [done | by left | by right | discriminate H | destruct H as [H|H]; discriminate H].
Qed.
