(* ===== verification/GoStrings.v ===== *)
(** * GoStrings: the functions of Go's [strings] package the handlers call

    A Go string is a sequence of bytes, here a [string] of [ascii]
    characters read as bytes.  [strings.TrimSpace] removes the leading
    and trailing runes for which [unicode.IsSpace] holds: the six ASCII
    spaces ['\t' '\n' '\v' '\f' '\r' ' '], U+0085 and U+00A0 (two bytes
    in UTF-8) and the eleven three-byte spaces U+1680, U+2000 to U+200A,
    U+2028, U+2029, U+202F, U+205F and U+3000.  [TrimLeft] reads runes
    from the front, [TrimRight] from the back (on the reversed bytes);
    an ill-formed sequence is not a space, as for Go's decoder.
    [HasPrefix] and [TrimPrefix] are the byte-wise functions, and [itoa]
    renders a [nat] in decimal.  [trim_ascii] is the reference trim of
    the ASCII spaces at both ends, which [TrimSpace] equals on ASCII
    strings. *)

From stdpp Require Import base list strings pretty.
From Stdlib Require Import Ascii String ZArith.
From S2P Require Import Prelude.

Open Scope string_scope.
Open Scope char_scope.

(** ** Space runes *)

Definition is_ascii_space (c : ascii) : bool :=
  bool_decide (c = "009" ∨ c = "010" ∨ c = "011" ∨ c = "012" ∨ c = "013" ∨ c = " ").

(** U+0085 and U+00A0. *)
Definition is_space2 (c1 c2 : ascii) : bool :=
  bool_decide (c1 = "194" ∧ (c2 = "133" ∨ c2 = "160")).

(** U+1680, U+2000..U+200A, U+2028, U+2029, U+202F, U+205F, U+3000. *)
Definition is_space3 (c1 c2 c3 : ascii) : bool :=
  bool_decide ((c1 = "225" ∧ c2 = "154" ∧ c3 = "128") ∨
               (c1 = "226" ∧ c2 = "128" ∧
                  ((128 ≤ nat_of_ascii c3 ≤ 138)%nat ∨ c3 = "168" ∨ c3 = "169" ∨ c3 = "175")) ∨
               (c1 = "226" ∧ c2 = "129" ∧ c3 = "159") ∨
               (c1 = "227" ∧ c2 = "128" ∧ c3 = "128")).

(** ** [strings.TrimSpace] *)

(** [strings.TrimLeftFunc(s, unicode.IsSpace)] *)
Fixpoint TrimLeft (s : string) : string :=
  match s with
  | EmptyString => EmptyString
  | String c s1 =>
      if is_ascii_space c then TrimLeft s1 else
      match s1 with
      | String c2 s2 =>
          if is_space2 c c2 then TrimLeft s2 else
          match s2 with
          | String c3 s3 => if is_space3 c c2 c3 then TrimLeft s3 else s
          | EmptyString => s
          end
      | EmptyString => s
      end
  end.

(** The same on the reversed bytes: a rune is matched from its last byte. *)
Fixpoint trim_rev (l : list ascii) : list ascii :=
  match l with
  | [] => []
  | c :: l1 =>
      if is_ascii_space c then trim_rev l1 else
      match l1 with
      | c2 :: l2 =>
          if is_space2 c2 c then trim_rev l2 else
          match l2 with
          | c3 :: l3 => if is_space3 c3 c2 c then trim_rev l3 else l
          | [] => l
          end
      | [] => l
      end
  end.

(** [strings.TrimRightFunc(s, unicode.IsSpace)] *)
Definition TrimRight (s : string) : string :=
  string_of_list_ascii (rev (trim_rev (rev (list_ascii_of_string s)))).

(** [strings.TrimSpace(s)] is [TrimFunc(s, unicode.IsSpace)]. *)
Definition TrimSpace (s : string) : string := TrimRight (TrimLeft s).

(** ** Prefixes and numbers *)

(** [strings.HasPrefix(s, prefix)] *)
Fixpoint HasPrefix (s prefix : string) : bool :=
  match prefix, s with
  | EmptyString, _ => true
  | String p prefix', String c s' => bool_decide (c = p) && HasPrefix s' prefix'
  | String _ _, EmptyString => false
  end.

(** [strings.TrimPrefix(s, prefix)] *)
Definition TrimPrefix (s prefix : string) : string :=
  if HasPrefix s prefix then substring (length prefix) (length s - length prefix) s else s.

(** [itoa(i)] of [validation/team.go], which the package calls but does
    not declare: the decimal rendering of [strconv.Itoa]. *)
Definition itoa (i : nat) : string := pretty i.

(** An ASCII byte that is not a space: it is a rune of its own, and no
    multi-byte space starts or ends with it. *)
Definition plain (c : ascii) : bool :=
  bool_decide (nat_of_ascii c < 128)%nat && negb (is_ascii_space c).

(** A string of ASCII spaces. *)
Definition ascii_spaces (s : string) : Prop := Forall (λ c, is_ascii_space c = true) (list_ascii_of_string s).

(** ** Lemmas *)

Lemma HasPrefix_app p t : HasPrefix (p ++ t) p = true.
Proof. induction p as [|c p IH]; [by destruct t|]. simpl. by rewrite bool_decide_true. Qed.

Lemma HasPrefix_spec s p : HasPrefix s p = true <-> ∃ t, s = p ++ t.
Proof.
  split; [|intros [t ->]; apply HasPrefix_app].
  revert s. induction p as [|c p IH]; intros s; [by exists s|].
  destruct s as [|c' s]; simpl; [done|].
  intros [->%bool_decide_eq_true Hp]%andb_prop. destruct (IH s Hp) as [t ->]. by exists t.
Qed.

Lemma substring_app p t : substring (length p) (length t) (p ++ t) = t.
Proof.
  induction p as [|c p IH]; simpl; [|done].
  induction t as [|c t IH]; simpl; [done|]. by f_equal.
Qed.

Lemma length_append_str p t : length (p ++ t) = (length p + length t)%nat.
Proof. induction p as [|c p IH]; simpl; [done|]. by f_equal. Qed.

Lemma TrimPrefix_app p t : TrimPrefix (p ++ t) p = t.
Proof.
  unfold TrimPrefix. rewrite HasPrefix_app, length_append_str.
  replace (length p + length t - length p)%nat with (length t) by lia. apply substring_app.
Qed.

Lemma list_ascii_of_string_app s t :
  list_ascii_of_string (s ++ t) = (list_ascii_of_string s ++ list_ascii_of_string t)%list.
Proof. induction s as [|c s IH]; simpl; [done|]. by f_equal. Qed.

Lemma TrimLeft_spaces ws s : ascii_spaces ws -> TrimLeft (ws ++ s) = TrimLeft s.
Proof.
  unfold ascii_spaces. induction ws as [|c ws IH]; intros Hws; [done|].
  simpl in Hws. apply Forall_cons in Hws as [Hc Hws]. simpl. rewrite Hc. by apply IH.
Qed.

Lemma is_space2_fst c c2 : (nat_of_ascii c < 128)%nat -> is_space2 c c2 = false.
Proof. intros H. apply bool_decide_false. intros [-> _]. vm_compute in H. lia. Qed.

Lemma is_space2_snd c c2 : (nat_of_ascii c2 < 128)%nat -> is_space2 c c2 = false.
Proof. intros H. apply bool_decide_false. intros [_ [->| ->]]; vm_compute in H; lia. Qed.

Lemma is_space3_fst c c2 c3 : (nat_of_ascii c < 128)%nat -> is_space3 c c2 c3 = false.
Proof.
  intros H. apply bool_decide_false.
  intros [[-> _]|[[-> _]|[[-> _]|[-> _]]]]; vm_compute in H; lia.
Qed.

Lemma is_space3_thd c c2 c3 : (nat_of_ascii c3 < 128)%nat -> is_space3 c c2 c3 = false.
Proof.
  intros H. apply bool_decide_false.
  intros [(_ & _ & ->)|[(_ & _ & [Hr|[->|[->| ->]]])|[(_ & _ & ->)|(_ & _ & ->)]]];
    first [lia | vm_compute in H; lia].
Qed.

Lemma TrimLeft_plain c s : plain c = true -> TrimLeft (String c s) = String c s.
Proof.
  unfold plain. intros [Hlt%bool_decide_eq_true Hns%negb_true_iff]%andb_prop.
  cbn [TrimLeft]. rewrite Hns.
  destruct s as [|c2 [|c3 s]]; [done|by rewrite is_space2_fst|].
  by rewrite is_space2_fst, is_space3_fst.
Qed.

Lemma trim_rev_spaces w l :
  Forall (λ c, is_ascii_space c = true) w -> trim_rev (w ++ l)%list = trim_rev l.
Proof.
  induction w as [|c w IH]; intros Hw; [done|].
  apply Forall_cons in Hw as [Hc Hw]. simpl. rewrite Hc. by apply IH.
Qed.

Lemma trim_rev_plain c l : plain c = true -> trim_rev (c :: l) = c :: l.
Proof.
  unfold plain. intros [Hlt%bool_decide_eq_true Hns%negb_true_iff]%andb_prop.
  cbn [trim_rev]. rewrite Hns.
  destruct l as [|c2 [|c3 l]]; [done|by rewrite is_space2_snd|].
  by rewrite is_space2_snd, is_space3_thd.
Qed.

(** A token that begins and ends with a plain byte, padded with ASCII
    spaces on both sides, trims to itself. *)
Lemma TrimSpace_padded ws1 c tok c' ws2 :
  ascii_spaces ws1 -> ascii_spaces ws2 -> plain c = true -> plain c' = true ->
  TrimSpace (ws1 ++ String c (tok ++ String c' EmptyString) ++ ws2) =
    String c (tok ++ String c' EmptyString).
Proof.
  intros H1 H2 Hc Hc'. unfold TrimSpace. rewrite TrimLeft_spaces by done.
  change (String c (tok ++ String c' EmptyString) ++ ws2)
    with (String c ((tok ++ String c' EmptyString) ++ ws2)).
  rewrite TrimLeft_plain by done. unfold TrimRight.
  assert (Hl : list_ascii_of_string (String c (tok ++ String c' EmptyString)) =
               (c :: list_ascii_of_string tok ++ [c'])%list).
  { cbn [list_ascii_of_string]. by rewrite list_ascii_of_string_app. }
  change (String c ((tok ++ String c' EmptyString) ++ ws2))
    with (String c (tok ++ String c' EmptyString) ++ ws2).
  rewrite list_ascii_of_string_app, Hl, rev_app_distr, trim_rev_spaces by (by apply Forall_rev).
  rewrite app_comm_cons, rev_app_distr.
  change (rev [c'] ++ rev (c :: list_ascii_of_string tok))%list
    with (c' :: rev (c :: list_ascii_of_string tok)).
  rewrite trim_rev_plain by done.
  change (rev (c' :: rev (c :: list_ascii_of_string tok)))
    with (rev (rev (c :: list_ascii_of_string tok)) ++ [c'])%list.
  rewrite rev_involutive, <-app_comm_cons, <-Hl.
  apply string_of_list_ascii_of_string.
Qed.

Lemma append_empty_r s : s ++ EmptyString = s.
Proof. induction s as [|c s IH]; [done|]. change (String c (s ++ EmptyString) = String c s). by rewrite IH. Qed.

Lemma TrimSpace_spaces ws : ascii_spaces ws -> TrimSpace ws = EmptyString.
Proof.
  intros Hws. unfold TrimSpace. rewrite <-(append_empty_r ws) at 1.
  rewrite TrimLeft_spaces by done. reflexivity.
Qed.

(** ** [TrimSpace] on ASCII strings *)

(** The reference: drop the ASCII spaces from the front, then from the back. *)
Fixpoint drop_spaces (l : list ascii) : list ascii :=
  match l with
  | [] => []
  | c :: l' => if is_ascii_space c then drop_spaces l' else l
  end.

Definition trim_ascii (s : string) : string :=
  string_of_list_ascii (rev (drop_spaces (rev (drop_spaces (list_ascii_of_string s))))).

(** Every byte is below 128: the string is ASCII. *)
Definition is_ascii (s : string) : Prop :=
  Forall (λ c, (nat_of_ascii c < 128)%nat) (list_ascii_of_string s).

#[export] Instance is_ascii_dec s : Decision (is_ascii s).
Proof. unfold is_ascii. apply _. Defined.

Lemma drop_spaces_suffix l : ∃ k, l = app k (drop_spaces l).
Proof.
  induction l as [|c l [k Hk]]; simpl; [by exists []|].
  destruct (is_ascii_space c); [exists (c :: k); by rewrite Hk at 1|by exists []].
Qed.

Lemma Forall_drop_spaces (P : ascii -> Prop) l : Forall P l -> Forall P (drop_spaces l).
Proof. destruct (drop_spaces_suffix l) as [k Hk]. rewrite Hk at 1. rewrite Forall_app. tauto. Qed.

Lemma TrimLeft_ascii s :
  is_ascii s -> TrimLeft s = string_of_list_ascii (drop_spaces (list_ascii_of_string s)).
Proof.
  unfold is_ascii. induction s as [|c s IH]; intros Hs; [done|].
  apply Forall_cons in Hs as [Hc Hs]. cbn [list_ascii_of_string drop_spaces].
  destruct (is_ascii_space c) eqn:Hsp; [cbn [TrimLeft]; rewrite Hsp; by apply IH|].
  rewrite TrimLeft_plain; [simpl; by rewrite string_of_list_ascii_of_string|].
  unfold plain. by rewrite bool_decide_eq_true_2, Hsp.
Qed.

Lemma trim_rev_ascii l :
  Forall (λ c, (nat_of_ascii c < 128)%nat) l -> trim_rev l = drop_spaces l.
Proof.
  induction l as [|c l IH]; intros Hl; [done|].
  apply Forall_cons in Hl as [Hc Hl]. cbn [drop_spaces].
  destruct (is_ascii_space c) eqn:Hsp; [cbn [trim_rev]; rewrite Hsp; by apply IH|].
  apply trim_rev_plain. unfold plain. by rewrite bool_decide_eq_true_2, Hsp.
Qed.

(** On an ASCII string the rune-decoding [TrimSpace] is the reference
    trim: the multi-byte look-ahead of [TrimLeft] and the look-behind of
    [TrimRight] never fire on bytes below 128. *)
Lemma TrimSpace_ascii s : is_ascii s -> TrimSpace s = trim_ascii s.
Proof.
  intros Hs. unfold TrimSpace, TrimRight, trim_ascii.
  rewrite TrimLeft_ascii, list_ascii_of_string_of_list_ascii by done.
  rewrite trim_rev_ascii; [done|].
  apply Forall_rev, Forall_drop_spaces, Hs.
Qed.

(** [drop_spaces] stops at a byte that is not a space. *)
Lemma drop_spaces_head l :
  drop_spaces l = [] ∨ ∃ c l', drop_spaces l = c :: l' ∧ is_ascii_space c = false.
Proof.
  induction l as [|c l IH]; simpl; [by left|].
  destruct (is_ascii_space c) eqn:Hc; [done|right; by exists c, l].
Qed.

Lemma drop_spaces_nil l :
  drop_spaces l = [] <-> Forall (λ c, is_ascii_space c = true) l.
Proof.
  induction l as [|c l IH]; simpl; [split; intros; [constructor|done]|].
  destruct (is_ascii_space c) eqn:Hc; rewrite Forall_cons, <-IH; [tauto|].
  split; [done|]. intros [? ?]; congruence.
Qed.

Lemma trim_ascii_empty s : trim_ascii s = ""%string <-> ascii_spaces s.
Proof.
  unfold trim_ascii, ascii_spaces. rewrite <-drop_spaces_nil.
  set (x := drop_spaces (list_ascii_of_string s)).
  assert (Hx : x = [] ∨ ∃ c l', x = c :: l' ∧ is_ascii_space c = false) by apply drop_spaces_head.
  split; [|intros ->; done].
  intros Hrev. assert (Hd : drop_spaces (rev x) = []).
  { apply (f_equal list_ascii_of_string) in Hrev.
    rewrite list_ascii_of_string_of_list_ascii in Hrev.
    apply (f_equal (@rev ascii)) in Hrev. by rewrite rev_involutive in Hrev. }
  apply drop_spaces_nil, Forall_rev in Hd. rewrite rev_involutive in Hd.
  destruct Hx as [|(c & l' & Hcl & Hc)]; [done|]. rewrite Hcl in Hd.
  apply Forall_cons in Hd as [Hd _]. congruence.
Qed.
