(* ===== verification/Validation.v ===== *)
(** * Validation: [internal/validation/*.go]

    Each validator returns [nil] or [errors.New(msg)]; here [None] or
    [Some msg].  A field is missing when [strings.TrimSpace] of it is
    empty.  The validators check the fields in the order the Go code
    does, so the message is the one of the first missing field.  On
    ASCII input a field is blank exactly when it is made of spaces. *)

From stdpp Require Import base list strings.
From Stdlib Require Import String ZArith.
From S2P Require Import Prelude Types GoStrings.

Open Scope string_scope.

(** [strings.TrimSpace(s) == ""] *)
Definition blank (s : string) : bool := bool_decide (TrimSpace s = "").

(** [validation/pull_request.go] *)
Definition ValidateCreatePR (req : dto.CreatePrRequest.t) : option string :=
  if blank (dto.CreatePrRequest.PullRequestID req) then Some "pull_request_id is required"
  else if blank (dto.CreatePrRequest.PullRequestName req) then Some "pull_request_name is required"
  else if blank (dto.CreatePrRequest.AuthorID req) then Some "author_id is required"
  else None.

Definition ValidateMergePR (req : dto.MergePrRequest.t) : option string :=
  if blank (dto.MergePrRequest.PullRequestID req) then Some "pull_request_id is required"
  else None.

Definition ValidateReassignPR (req : dto.ReassignPrRequest.t) : option string :=
  if blank (dto.ReassignPrRequest.PullRequestID req) then Some "pull_request_id is required"
  else if blank (dto.ReassignPrRequest.OldUserID req) then Some "old_user_id is required"
  else None.

(** The loop [for i, m := range req.Members] of [validation/team.go]. *)
Fixpoint validate_members (i : nat) (ms : list dto.TeamMember.t) : option string :=
  match ms with
  | [] => None
  | m :: rest =>
      if blank (dto.TeamMember.UserID m) then Some ("members[" ++ itoa i ++ "].user_id is required")
      else if blank (dto.TeamMember.Username m) then Some ("members[" ++ itoa i ++ "].username is required")
      else validate_members (S i) rest
  end.

Definition ValidateTeamAdd (req : dto.TeamAddRequest.t) : option string :=
  if blank (dto.TeamAddRequest.TeamName req) then Some "team_name is required"
  else if decide (List.length (dto.TeamAddRequest.Members req) = 0%nat)
  then Some "team must have at least one member"
  else validate_members 0 (dto.TeamAddRequest.Members req).

(** [validation/user.go] *)
Definition ValidateUserSetActive (req : dto.SetUserIsActiveRequest.t) : option string :=
  if blank (dto.SetUserIsActiveRequest.UserID req) then Some "user_id is required" else None.

Definition ValidateUserID (userID : string) : option string :=
  if blank userID then Some "user_id is required" else None.

(** ** What a request that passes validation satisfies *)

Lemma validate_members_ok i ms :
  validate_members i ms = None <->
  Forall (λ m, blank (dto.TeamMember.UserID m) = false ∧ blank (dto.TeamMember.Username m) = false) ms.
Proof.
  revert i. induction ms as [|m ms IH]; intros i; simpl.
  - split; [constructor|done].
  - rewrite Forall_cons, <-(IH (S i)).
    destruct (blank (dto.TeamMember.UserID m)), (blank (dto.TeamMember.Username m)); intuition congruence.
Qed.

Lemma ValidateTeamAdd_ok req :
  ValidateTeamAdd req = None <->
  blank (dto.TeamAddRequest.TeamName req) = false ∧ dto.TeamAddRequest.Members req ≠ [] ∧
  Forall (λ m, blank (dto.TeamMember.UserID m) = false ∧ blank (dto.TeamMember.Username m) = false)
    (dto.TeamAddRequest.Members req).
Proof.
  unfold ValidateTeamAdd. rewrite <-(validate_members_ok 0).
  destruct (blank _); [intuition congruence|].
  destruct (dto.TeamAddRequest.Members req) as [|m ms]; simpl; intuition congruence.
Qed.

Lemma ValidateCreatePR_ok req :
  ValidateCreatePR req = None <->
  blank (dto.CreatePrRequest.PullRequestID req) = false ∧
  blank (dto.CreatePrRequest.PullRequestName req) = false ∧
  blank (dto.CreatePrRequest.AuthorID req) = false.
Proof.
  unfold ValidateCreatePR.
  destruct (blank _), (blank (dto.CreatePrRequest.PullRequestName req)),
    (blank (dto.CreatePrRequest.AuthorID req)); intuition congruence.
Qed.

Lemma ValidateReassignPR_ok req :
  ValidateReassignPR req = None <->
  blank (dto.ReassignPrRequest.PullRequestID req) = false ∧
  blank (dto.ReassignPrRequest.OldUserID req) = false.
Proof.
  unfold ValidateReassignPR.
  destruct (blank _), (blank (dto.ReassignPrRequest.OldUserID req)); intuition congruence.
Qed.

(** A blank field is never accepted: a field made only of ASCII spaces
    is rejected like an empty one. *)
Lemma blank_spaces ws : ascii_spaces ws -> blank ws = true.
Proof. intros Hws. unfold blank. by rewrite bool_decide_true by (by apply TrimSpace_spaces). Qed.

(** on an ASCII string, the rune-decoding [strings.TrimSpace] the
    validators call equals the reference trim (drop the ASCII spaces at
    both ends), and a field is [blank] exactly when it is made of ASCII
    spaces only: a field with any other ASCII byte passes the check. *)
Theorem blank_ascii s :
  is_ascii s -> TrimSpace s = trim_ascii s ∧ (blank s = true <-> ascii_spaces s).
Proof.
  intros Hs. pose proof (TrimSpace_ascii s Hs) as Htrim. split; [done|].
  unfold blank. rewrite bool_decide_eq_true, Htrim. apply trim_ascii_empty.
Qed.

Lemma blank_ascii_witness :
  is_ascii " 	 " ∧ TrimSpace " tok	" = trim_ascii " tok	" ∧ blank " 	 " = true.
Proof.
  assert (H1 : is_ascii " 	 ") by (vm_compute; repeat constructor; lia).
  assert (H2 : is_ascii " tok	") by (vm_compute; repeat constructor; lia).
  split_and!; [done|apply (blank_ascii _ H2)|].
  apply (blank_ascii _ H1). vm_compute. repeat constructor.
Defined.
