(* ===== verification/Tables.v ===== *)
(** * Tables: the rows of the PostgreSQL database the repositories query

    The schema is not in the repository (no migrations under [src/]); the
    tables are those the queries of [repository/*.go] name.  A user row
    carries its name, team and flag; a pull-request row its name, author,
    status, timestamps and the [need_more_reviewers] flag the insert
    writes.  [DB] is the database: the team sequence is part of it
    because PostgreSQL advances it even when an insert fails. *)

From stdpp Require Import base list gmap strings.
From Stdlib Require Import ZArith.
From S2P Require Import Prelude Types.

(** ** Tables *)

Record user_row := mk_user_row {
  u_username : string;
  u_team : Z;
  u_active : bool
}.

Record pr_row := mk_pr_row {
  p_name : string;
  p_author : string;
  p_status : Z;
  p_created : Z;
  p_merged : option Z;
  p_need_more : bool
}.

Record DB := mkDB {
  teams : gmap Z string;                (* teams(id serial, team_name unique) *)
  team_seq : Z;                         (* last value of the id sequence *)
  users : gmap string user_row;         (* users(user_id primary key, ...) *)
  pr_statuses : gmap Z string;          (* pr_statuses(id, name) *)
  prs : gmap string pr_row;             (* pull_requests(pull_request_id primary key, ...) *)
  reviewers : list (string * string)    (* pull_request_reviewers(pull_request_id, reviewer_id) *)
}.

Definition set_users (d : DB) (us : gmap string user_row) : DB :=
  mkDB d.(teams) d.(team_seq) us d.(pr_statuses) d.(prs) d.(reviewers).
Definition set_prs (d : DB) (ps : gmap string pr_row) : DB :=
  mkDB d.(teams) d.(team_seq) d.(users) d.(pr_statuses) ps d.(reviewers).
Definition set_reviewers (d : DB) (rs : list (string * string)) : DB :=
  mkDB d.(teams) d.(team_seq) d.(users) d.(pr_statuses) d.(prs) rs.

(** The two statuses the code refers to ([StatusOpen], [StatusMerged]). *)
Definition initial_statuses : gmap Z string :=
  <[StatusOpen := "OPEN"]> (<[StatusMerged := "MERGED"]> ∅).

Lemma initial_statuses_open : initial_statuses !! StatusOpen = Some "OPEN".
Proof. reflexivity. Qed.
Lemma initial_statuses_merged : initial_statuses !! StatusMerged = Some "MERGED".
Proof. reflexivity. Qed.
