(* ===== verification/Selection.v ===== *)
(** * Selection: the candidates of [FindActiveInTeamExcept]

    [user_repo.go] picks reviewers with [WHERE u.team_id = $1 AND
    u.is_active AND u.user_id <> $2 ORDER BY random() LIMIT $3].  This
    file defines the query as [find_active]: the [eligible] rows (users
    joined with their team, [join_user]), sorted by the random key [rk]
    of each row ([rank_le]), cut at [limit]; [Store] runs it as the
    statement [SqlUserFindActive].  It proves what a
    caller may rely on: every candidate is an active member of the team
    other than the excluded user, no candidate appears twice, the query
    returns [min limit (number of eligible users)] rows, and every
    eligible user comes first for some draw of the keys (the query is not
    biased towards the table's order). *)

From stdpp Require Import base list gmap strings sorting.
From Stdlib Require Import ZArith.
From S2P Require Import Prelude Types Tables.

(** ** The query *)

(** [ORDER BY random()]: [rk] is the random key of each row. *)
Definition rank_le (rk : string -> Z) (u v : User.t) : Prop := (rk (User.ID u) ≤ rk (User.ID v))%Z.

#[export] Instance rank_le_dec rk u v : Decision (rank_le rk u v).
Proof. unfold rank_le. apply _. Defined.

Section query.
Context (d : DB).

(** A user row joined with its team ([JOIN teams t ON t.id = u.team_id]). *)
Definition join_user (id : string) (ur : user_row) : option User.t :=
  tn ← d.(teams) !! u_team ur;
  Some (User.mk id (u_username ur) (u_team ur) tn (u_active ur)).

(** The rows of [SELECT ... FROM users u JOIN teams t ON t.id = u.team_id
     WHERE u.team_id = $1 AND u.is_active = TRUE AND u.user_id <> $2],
    before [ORDER BY] and [LIMIT]. *)
Definition eligible (teamID : Z) (excludeUserID : string) : list User.t :=
  omap (λ kv : string * user_row, join_user kv.1 kv.2)
    (filter (λ kv : string * user_row,
               u_team kv.2 = teamID ∧ u_active kv.2 = true ∧ kv.1 ≠ excludeUserID)
       (map_to_list d.(users))).

(** [... ORDER BY random() LIMIT $3]: [rk] is the random key of each row. *)
Definition find_active (rk : string -> Z) (teamID : Z) (excludeUserID : string)
    (limit : Z) : res (list User.t) :=
  if decide (limit < 0)%Z then Err (ErrPg invalidLimitErr)
  else Ok (take (Z.to_nat limit)
             (merge_sort (rank_le rk) (eligible teamID excludeUserID))).

End query.


(** ** Generic lemmas on [omap] *)

Section omap.
Context {A B C : Type} (f : A -> option B) (g : B -> C) (h : A -> C).
Hypothesis Hfg : ∀ a b, f a = Some b -> g b = h a.

Lemma elem_of_fmap_omap (l : list A) (x : C) : x ∈ g <$> omap f l -> x ∈ h <$> l.
Proof.
  rewrite !list_elem_of_fmap. intros (b & -> & (a & Ha & Hf)%list_elem_of_omap).
  exists a. split; [by apply Hfg|done].
Qed.

Lemma NoDup_fmap_omap (l : list A) : NoDup (h <$> l) -> NoDup (g <$> omap f l).
Proof.
  induction l as [|a l IH]; simpl; [constructor|].
  rewrite NoDup_cons. intros [Hnin Hnd].
  destruct (f a) as [b|] eqn:Hf; simpl; [|auto].
  constructor; [|auto]. rewrite (Hfg a b Hf). contradict Hnin.
  by apply elem_of_fmap_omap.
Qed.
End omap.

(** ** Rank relation *)

#[export] Instance rank_le_trans rk : Transitive (rank_le rk).
Proof. intros x y z. unfold rank_le. lia. Qed.

#[export] Instance rank_le_total rk : Total (rank_le rk).
Proof. intros x y. unfold rank_le. lia. Qed.

(** ** Eligible users *)

Section eligible.
Context (d : DB) (teamID : Z) (ex : string).

Lemma join_user_ID id ur u : join_user d id ur = Some u -> User.ID u = id.
Proof. unfold join_user. destruct (teams d !! u_team ur); naive_solver. Qed.

Lemma elem_of_eligible u :
  u ∈ eligible d teamID ex ->
  users d !! User.ID u = Some (mk_user_row (User.Username u) teamID true) ∧
  User.TeamID u = teamID ∧ User.IsActive u = true ∧ User.ID u ≠ ex ∧
  teams d !! teamID = Some (User.TeamName u).
Proof.
  unfold eligible. rewrite list_elem_of_omap.
  intros ([id ur] & (Hp & Hin)%list_elem_of_filter & Hj). simpl in *.
  rewrite elem_of_map_to_list in Hin. unfold join_user in Hj.
  destruct ur as [nm t a]; simpl in *. destruct Hp as (-> & -> & Hne).
  destruct (teams d !! teamID) eqn:Et; simplify_eq/=. done.
Qed.

Lemma eligible_of_users id nm tn :
  users d !! id = Some (mk_user_row nm teamID true) -> id ≠ ex ->
  teams d !! teamID = Some tn ->
  User.mk id nm teamID tn true ∈ eligible d teamID ex.
Proof.
  intros Hu Hne Ht. unfold eligible. apply list_elem_of_omap.
  exists (id, mk_user_row nm teamID true). rewrite list_elem_of_filter; simpl.
  rewrite elem_of_map_to_list. unfold join_user; simpl. rewrite Ht. done.
Qed.

Lemma NoDup_eligible_ids : NoDup (User.ID <$> eligible d teamID ex).
Proof.
  unfold eligible. apply (NoDup_fmap_omap _ _ fst).
  - intros [id ur] u. apply join_user_ID.
  - eapply sublist_NoDup; [apply (fin_maps.NoDup_fst_map_to_list (users d))|].
    apply fmap_sublist, sublist_filter.
Qed.

(** Two eligible users with the same id are the same user. *)
Lemma eligible_id_inj u v :
  u ∈ eligible d teamID ex -> v ∈ eligible d teamID ex -> User.ID u = User.ID v -> u = v.
Proof.
  intros [Hu (Htu & Hau & _ & Hnu)]%elem_of_eligible [Hv (Htv & Hav & _ & Hnv)]%elem_of_eligible Hid.
  rewrite Hid, Hv in Hu. rewrite Hnu in Hnv.
  destruct u, v; simplify_eq/=. done.
Qed.
(** The query's rows number the users of the team that are active and are
    not the excluded user, or none when the team has no row. *)
Lemma length_eligible :
  length (eligible d teamID ex) =
  if teams d !! teamID is Some _
  then size (filter (λ kv : string * user_row,
                       u_team kv.2 = teamID ∧ u_active kv.2 = true ∧ kv.1 ≠ ex) (users d))
  else 0.
Proof.
  assert (Hl : ∀ l : list (string * user_row),
    length (omap (λ kv : string * user_row, join_user d kv.1 kv.2)
              (filter (λ kv : string * user_row,
                         u_team kv.2 = teamID ∧ u_active kv.2 = true ∧ kv.1 ≠ ex) l)) =
    if teams d !! teamID is Some _
    then length (filter (λ kv : string * user_row,
                          u_team kv.2 = teamID ∧ u_active kv.2 = true ∧ kv.1 ≠ ex) l)
    else 0).
  { destruct (teams d !! teamID) as [tn|] eqn:Et;
      induction l as [|[id ur] l IH]; try done;
      rewrite filter_cons; case_decide as Hp; try done;
      destruct Hp as (Ht & _ & _); simpl in Ht |- *; unfold join_user at 1; simpl;
      rewrite Ht, Et; simpl; first [f_equal; exact IH | exact IH]. }
  unfold eligible. rewrite Hl. destruct (teams d !! teamID); [|done].
  rewrite map_filter_alt, map_size_list_to_map; [done|].
  eapply sublist_NoDup; [apply (fin_maps.NoDup_fst_map_to_list (users d))|].
  apply fmap_sublist, sublist_filter.
Qed.

End eligible.

(** ** What the query returns *)

Section find_active.
Context (d : DB) (rk : string -> Z) (teamID : Z) (ex : string) (limit : Z).

Lemma find_active_ok cs :
  find_active d rk teamID ex limit = Ok cs ->
  (0 ≤ limit)%Z ∧
  cs = take (Z.to_nat limit) (merge_sort (rank_le rk) (eligible d teamID ex)).
Proof. unfold find_active. case_decide; [done|]. intros [= <-]. split; [lia|done]. Qed.

(** Every candidate is eligible. *)
Lemma find_active_eligible cs :
  find_active d rk teamID ex limit = Ok cs ->
  ∀ c, c ∈ cs -> c ∈ eligible d teamID ex.
Proof.
  intros [_ ->]%find_active_ok c Hc%elem_of_take_weaken.
  by rewrite (merge_sort_Permutation (rank_le rk)) in Hc.
Qed.

Lemma find_active_nodup cs :
  find_active d rk teamID ex limit = Ok cs -> NoDup (User.ID <$> cs).
Proof.
  intros [_ ->]%find_active_ok. rewrite fmap_take. apply NoDup_take_of.
  rewrite (merge_sort_Permutation (rank_le rk)). apply NoDup_eligible_ids.
Qed.

Lemma find_active_length cs :
  find_active d rk teamID ex limit = Ok cs ->
  length cs = (Z.to_nat limit `min` length (eligible d teamID ex))%nat.
Proof.
  intros [_ ->]%find_active_ok. rewrite length_take.
  by rewrite (Permutation_length (merge_sort_Permutation (rank_le rk) _)).
Qed.
End find_active.

(** The key that draws [u] first. *)
Definition rank_first (u : User.t) : string -> Z :=
  λ id, if decide (id = User.ID u) then 0%Z else 1%Z.

Lemma sorted_rank_first_head u l :
  u ∈ l -> (∀ v, v ∈ l -> User.ID v = User.ID u -> v = u) ->
  ∃ l', merge_sort (rank_le (rank_first u)) l = u :: l'.
Proof.
  intros Hu Hinj.
  pose proof (StronglySorted_merge_sort (rank_le (rank_first u)) l) as Hs.
  pose proof (merge_sort_Permutation (rank_le (rank_first u)) l) as Hp.
  destruct (merge_sort (rank_le (rank_first u)) l) as [|x l'] eqn:E.
  { apply Permutation_nil_l in Hp. subst. by apply not_elem_of_nil in Hu. }
  exists l'. f_equal. apply Hinj; [rewrite <-Hp; left|].
  apply StronglySorted_cons in Hs as [Hall _].
  rewrite <-Hp in Hu. apply elem_of_cons in Hu as [->|Hu]; [done|].
  rewrite Forall_forall in Hall. specialize (Hall u Hu).
  unfold rank_le, rank_first in Hall. repeat case_decide; first [done | lia | congruence].
Qed.

(** Every eligible user is the first candidate for some draw of [random()]. *)
Theorem find_active_can_pick d teamID ex limit u :
  (1 ≤ limit)%Z -> u ∈ eligible d teamID ex ->
  ∃ cs, find_active d (rank_first u) teamID ex limit = Ok (u :: cs).
Proof.
  intros Hlim Hu. unfold find_active. case_decide; [lia|].
  destruct (sorted_rank_first_head u (eligible d teamID ex)) as [l' ->]; [done| |].
  - intros v Hv Hid. by apply (eligible_id_inj d teamID ex).
  - destruct (Z.to_nat limit) eqn:En; [lia|]. by eexists.
Qed.

(** C33: what [FindActiveInTeamExcept]'s query returns, for every draw of
    [random()]: a negative [LIMIT] is the error [2201W]; otherwise every
    candidate comes from a row of [users] of the given team whose
    [is_active] is true, is not the excluded user, and carries the name of
    its team's row; no user comes twice; and the rows number [min limit n],
    [n] the users of the team that are active and not excluded (none when
    the team has no row, which the [JOIN] drops). *)
Theorem find_active_spec d rk teamID ex limit :
  match find_active d rk teamID ex limit with
  | Err e => (limit < 0)%Z ∧ e = ErrPg invalidLimitErr
  | Ok cs =>
      (∀ c, c ∈ cs ->
         users d !! User.ID c = Some (mk_user_row (User.Username c) teamID true) ∧
         User.TeamID c = teamID ∧ User.IsActive c = true ∧ User.ID c ≠ ex ∧
         teams d !! teamID = Some (User.TeamName c)) ∧
      NoDup (User.ID <$> cs) ∧
      length cs = (Z.to_nat limit `min`
        (if teams d !! teamID is Some _
         then size (filter (λ kv : string * user_row,
                              u_team kv.2 = teamID ∧ u_active kv.2 = true ∧ kv.1 ≠ ex) (users d))
         else 0))%nat
  end.
Proof.
  destruct (find_active d rk teamID ex limit) as [cs|e] eqn:E.
  - split_and!.
    + intros c Hc. apply elem_of_eligible.
      by apply (find_active_eligible d rk teamID ex limit cs E).
    + by apply (find_active_nodup d rk teamID ex limit).
    + rewrite <-length_eligible. by apply (find_active_length d rk teamID ex limit).
  - unfold find_active in E. case_decide; [|done]. by simplify_eq.
Qed.

