(* ===== verification/Store.v ===== *)
(** * Store: the SQL statements of the repositories and their effect

    The tables are those of [Tables], with the constraints the queries
    rely on: primary keys on [teams.id],
    [users.user_id], [pull_requests.pull_request_id], unique
    [teams.team_name] and unique [(pull_request_id, reviewer_id)], and
    foreign keys from users to teams, from pull requests to users and to
    [pr_statuses], and from reviewer rows to pull requests and users.

    [sql R] is the type of the statements the repositories issue, indexed
    by what the Go code scans out of them; [exec_sql rk q d] runs one
    statement [q] on the tables [d], [rk] being the value [random()]
    gives each user row.  A statement that fails leaves the tables as they
    were, except the team sequence, which PostgreSQL never rolls back.
    [db_wf] is the invariant the constraints maintain; every statement
    preserves it ([exec_sql_wf]), and it is decidable ([db_wf_dec]) so
    that the witnesses check it on the fixtures by evaluation. *)

From stdpp Require Import base list gmap strings sorting.
From Stdlib Require Import ZArith.
From S2P Require Import Prelude Types Tables Selection.

(** ** Statements *)

Inductive sql : Type -> Type :=
| SqlPrExists (prID : string) : sql bool
| SqlPrInsert (pr : PullRequest.t) (needMore : bool) : sql unit
| SqlReviewerInsert (prID reviewerID : string) : sql unit
| SqlPrSelect (prID : string) : sql PullRequest.t
| SqlReviewersOf (prID : string) : sql (list string)
| SqlPrSetMerged (status mergedAt : Z) (prID : string) : sql PullRequest.t
| SqlStatusName (id : Z) : sql string
| SqlReplaceReviewer (prID oldID newID : string) : sql Z
| SqlUserGet (userID : string) : sql User.t
| SqlUserSetActive (isActive : bool) (userID : string) : sql User.t
| SqlUserReviewPrs (userID : string) : sql (list PullRequestShort.t)
| SqlUserFindActive (teamID : Z) (excludeUserID : string) (limit : Z) : sql (list User.t)
| SqlUserUpsert (userID username : string) (teamID : Z) (isActive : bool) : sql unit
| SqlTeamInsert (teamName : string) : sql Team.t
| SqlTeamGetByName (teamName : string) : sql Team.t.

(** ** Semantics of each statement *)

(** The order of [GetReviewPrs]'s query, as a decidable relation. *)
Definition created_desc (a b : Z * PullRequestShort.t) : Prop := (b.1 ≤ a.1)%Z.

#[export] Instance created_desc_dec a b : Decision (created_desc a b).
Proof. unfold created_desc. apply _. Defined.

Section statements.
Context (d : DB).

(** [SELECT EXISTS (SELECT 1 FROM pull_requests WHERE pull_request_id = $1)] *)
Definition pr_exists (prID : string) : bool :=
  bool_decide (is_Some (d.(prs) !! prID)).

(** [INSERT INTO pull_requests(...) VALUES ($1, ..., $7)] *)
Definition pr_insert (pr : PullRequest.t) (needMore : bool) : res unit * DB :=
  if pr_exists (PullRequest.ID pr) then (Err (ErrPg uniqueViolationErr), d)
  else if bool_decide (d.(users) !! PullRequest.AuthorID pr = None)
  then (Err (ErrPg foreignKeyViolationErr), d)
  else if bool_decide (d.(pr_statuses) !! PullRequest.StatusID pr = None)
  then (Err (ErrPg foreignKeyViolationErr), d)
  else (Ok tt, set_prs d (<[PullRequest.ID pr :=
          mk_pr_row (PullRequest.Name pr) (PullRequest.AuthorID pr)
            (PullRequest.StatusID pr) (PullRequest.CreatedAt pr)
            (PullRequest.MergedAt pr) needMore]> d.(prs))).

(** [INSERT INTO pull_request_reviewers ... ON CONFLICT DO NOTHING] *)
Definition reviewer_insert (prID rid : string) : res unit * DB :=
  if bool_decide ((prID, rid) ∈ d.(reviewers)) then (Ok tt, d)
  else if bool_decide (d.(prs) !! prID = None) then (Err (ErrPg foreignKeyViolationErr), d)
  else if bool_decide (d.(users) !! rid = None) then (Err (ErrPg foreignKeyViolationErr), d)
  else (Ok tt, set_reviewers d (d.(reviewers) ++ [(prID, rid)])).

(** [SELECT ... FROM pull_requests pr JOIN pr_statuses s ON s.id = pr.status_id
     WHERE pr.pull_request_id = $1] *)
Definition pr_select (prID : string) : res PullRequest.t :=
  match d.(prs) !! prID with
  | None => Err ErrNoRows
  | Some row =>
      match d.(pr_statuses) !! p_status row with
      | None => Err ErrNoRows
      | Some sname =>
          Ok (PullRequest.mk prID (p_name row) (p_author row) (p_status row)
                sname (p_created row) (p_merged row))
      end
  end.

(** [SELECT reviewer_id FROM pull_request_reviewers WHERE pull_request_id = $1],
    in the table's order (the query has no [ORDER BY]). *)
Definition reviewers_of (prID : string) : list string :=
  snd <$> filter (λ row, row.1 = prID) d.(reviewers).

(** [UPDATE pull_requests SET status_id = $1, merged_at = COALESCE(merged_at, $2)
     WHERE pull_request_id = $3 RETURNING ...]: the returned row has no
    status name (it is not in the [RETURNING] list). *)
Definition pr_set_merged (status t : Z) (prID : string) : res PullRequest.t * DB :=
  match d.(prs) !! prID with
  | None => (Err ErrNoRows, d)
  | Some row =>
      if bool_decide (d.(pr_statuses) !! status = None)
      then (Err (ErrPg foreignKeyViolationErr), d)
      else
        let merged := match p_merged row with Some m => Some m | None => Some t end in
        (Ok (PullRequest.mk prID (p_name row) (p_author row) status ""
               (p_created row) merged),
         set_prs d (<[prID := mk_pr_row (p_name row) (p_author row) status
                                (p_created row) merged (p_need_more row)]> d.(prs)))
  end.

(** [SELECT name FROM pr_statuses WHERE id = $1] *)
Definition status_name (id : Z) : res string :=
  match d.(pr_statuses) !! id with Some n => Ok n | None => Err ErrNoRows end.

(** [UPDATE pull_request_reviewers SET reviewer_id = $3
     WHERE pull_request_id = $1 AND reviewer_id = $2]: the result is the
    number of rows affected. *)
Definition replace_reviewer (prID oldID newID : string) : res Z * DB :=
  let hits := length (filter (λ row, row = (prID, oldID)) d.(reviewers)) in
  if decide (hits = 0%nat) then (Ok 0%Z, d)
  else if bool_decide (oldID ≠ newID ∧ (prID, newID) ∈ d.(reviewers))
  then (Err (ErrPg uniqueViolationErr), d)
  else if bool_decide (d.(users) !! newID = None)
  then (Err (ErrPg foreignKeyViolationErr), d)
  else (Ok (Z.of_nat hits),
        set_reviewers d ((λ row, if decide (row = (prID, oldID)) then (prID, newID) else row)
                         <$> d.(reviewers))).

(** [SELECT u.user_id, ... FROM users u JOIN teams t ... WHERE u.user_id = $1] *)
Definition user_get (userID : string) : res User.t :=
  match d.(users) !! userID ≫= join_user d userID with
  | Some u => Ok u
  | None => Err ErrNoRows
  end.

(** [UPDATE users u SET is_active = $1 FROM teams t
     WHERE u.user_id = $2 AND u.team_id = t.id RETURNING ...] *)
Definition user_set_active (isActive : bool) (userID : string) : res User.t * DB :=
  match d.(users) !! userID with
  | None => (Err ErrNoRows, d)
  | Some ur =>
      let ur' := mk_user_row (u_username ur) (u_team ur) isActive in
      match join_user d userID ur' with
      | None => (Err ErrNoRows, d)
      | Some u => (Ok u, set_users d (<[userID := ur']> d.(users)))
      end
  end.

(** [SELECT pr.pull_request_id, ... FROM pull_request_reviewers r JOIN
     pull_requests pr ... JOIN pr_statuses s ... WHERE r.reviewer_id = $1
     ORDER BY pr.created_at DESC] (a stable sort: rows with the same
    creation time keep the table's order). *)
Definition review_row (row : string * string) : option (Z * PullRequestShort.t) :=
  p ← d.(prs) !! row.1;
  sname ← d.(pr_statuses) !! p_status p;
  Some (p_created p, PullRequestShort.mk row.1 (p_name p) (p_author p) sname).

Definition user_review_prs (userID : string) : list PullRequestShort.t :=
  snd <$> merge_sort created_desc
            (omap review_row (filter (λ row, row.2 = userID) d.(reviewers))).

(** [INSERT INTO users(...) VALUES (...) ON CONFLICT (user_id) DO UPDATE SET ...] *)
Definition user_upsert (userID username : string) (teamID : Z) (isActive : bool)
    : res unit * DB :=
  if bool_decide (d.(teams) !! teamID = None) then (Err (ErrPg foreignKeyViolationErr), d)
  else (Ok tt, set_users d (<[userID := mk_user_row username teamID isActive]> d.(users))).

(** [INSERT INTO teams (team_name) VALUES ($1) RETURNING id, team_name]:
    the sequence advances even when the insert fails. *)
Definition team_insert (teamName : string) : res Team.t * DB :=
  let id := (d.(team_seq) + 1)%Z in
  let d1 := mkDB d.(teams) id d.(users) d.(pr_statuses) d.(prs) d.(reviewers) in
  if bool_decide (teamName ∈ (snd <$> map_to_list d.(teams)))
  then (Err (ErrPg uniqueViolationErr), d1)
  else (Ok (Team.mk id teamName),
        mkDB (<[id := teamName]> d.(teams)) id d.(users) d.(pr_statuses) d.(prs) d.(reviewers)).
End statements.

(** [SELECT id, team_name FROM teams WHERE name = "$1"]: in PostgreSQL a
    double-quoted ["$1"] is a column name, not the parameter, and the
    table has no such column: the statement fails whatever its argument. *)
Definition team_get_by_name (teamName : string) : res Team.t :=
  Err (ErrPg undefinedColumnErr).

(** One statement on the tables. *)
Definition exec_sql (rk : string -> Z) {R} (q : sql R) (d : DB) : res R * DB :=
  match q in sql R return res R * DB with
  | SqlPrExists id => (Ok (pr_exists d id), d)
  | SqlPrInsert pr nm => pr_insert d pr nm
  | SqlReviewerInsert p r => reviewer_insert d p r
  | SqlPrSelect id => (pr_select d id, d)
  | SqlReviewersOf id => (Ok (reviewers_of d id), d)
  | SqlPrSetMerged s t id => pr_set_merged d s t id
  | SqlStatusName id => (status_name d id, d)
  | SqlReplaceReviewer p o n => replace_reviewer d p o n
  | SqlUserGet id => (user_get d id, d)
  | SqlUserSetActive b id => user_set_active d b id
  | SqlUserReviewPrs id => (Ok (user_review_prs d id), d)
  | SqlUserFindActive t ex lim => (find_active d rk t ex lim, d)
  | SqlUserUpsert id n t a => user_upsert d id n t a
  | SqlTeamInsert n => team_insert d n
  | SqlTeamGetByName n => (team_get_by_name n, d)
  end.

(** ** Well-formed tables

    The constraints the schema enforces, as an invariant of the tables:
    no duplicate reviewer row, every foreign key resolved, team names
    unique, team ids issued by the sequence, and the status table as the
    migration fills it (no statement writes it). *)

Record db_wf (d : DB) : Prop := {
  wf_reviewers_nodup : NoDup d.(reviewers);
  wf_reviewer_pr p r : (p, r) ∈ d.(reviewers) -> is_Some (d.(prs) !! p);
  wf_reviewer_user p r : (p, r) ∈ d.(reviewers) -> is_Some (d.(users) !! r);
  wf_pr_author p row : d.(prs) !! p = Some row -> is_Some (d.(users) !! p_author row);
  wf_pr_status p row : d.(prs) !! p = Some row -> is_Some (d.(pr_statuses) !! p_status row);
  wf_user_team u row : d.(users) !! u = Some row -> is_Some (d.(teams) !! u_team row);
  wf_team_seq id n : d.(teams) !! id = Some n -> (id ≤ d.(team_seq))%Z;
  wf_team_names i j n : d.(teams) !! i = Some n -> d.(teams) !! j = Some n -> i = j;
  wf_statuses : d.(pr_statuses) = initial_statuses
}.

#[export] Hint Resolve wf_reviewers_nodup : rm.

Section preservation.
Context (d : DB) (Hwf : db_wf d).

Lemma pr_insert_wf pr nm : db_wf (pr_insert d pr nm).2.
Proof.
  unfold pr_insert, pr_exists. repeat case_bool_decide; simpl; try done.
  destruct Hwf; split; simpl; try done.
  - intros p r Hin. apply lookup_insert_is_Some'. eauto.
  - intros p row. rewrite lookup_insert. case_decide; intros Hrow; simplify_eq/=; eauto.
    by apply not_eq_None_Some.
  - intros p row. rewrite lookup_insert. case_decide; intros Hrow; simplify_eq/=; eauto.
    by apply not_eq_None_Some.
Qed.

Lemma reviewer_insert_wf p r : db_wf (reviewer_insert d p r).2.
Proof.
  unfold reviewer_insert. repeat case_bool_decide; simpl; try done.
  destruct Hwf; split; simpl; try done.
  - apply NoDup_app. split_and!; [done| |by apply NoDup_singleton].
    intros x Hx Hx'%list_elem_of_singleton. by subst.
  - intros p' r' [Hin|Hin%list_elem_of_singleton]%elem_of_app; simplify_eq; eauto.
    by apply not_eq_None_Some.
  - intros p' r' [Hin|Hin%list_elem_of_singleton]%elem_of_app; simplify_eq; eauto.
    by apply not_eq_None_Some.
Qed.

Lemma pr_set_merged_wf s t p : db_wf (pr_set_merged d s t p).2.
Proof.
  unfold pr_set_merged. destruct (prs d !! p) as [row|] eqn:E; simpl; [|done].
  case_bool_decide; simpl; [done|].
  destruct Hwf; split; simpl; try done.
  - intros p' r Hin. apply lookup_insert_is_Some'. eauto.
  - intros p' row'. rewrite lookup_insert. case_decide; intros Hrow; simplify_eq/=; eauto.
  - intros p' row'. rewrite lookup_insert. case_decide; intros Hrow; simplify_eq/=; eauto.
    by apply not_eq_None_Some.
Qed.

(** The row map of the [UPDATE] of [replace_reviewer]. *)
Lemma replace_rows_nodup p o n :
  ¬ (o ≠ n ∧ (p, n) ∈ d.(reviewers)) ->
  NoDup ((λ row, if decide (row = (p, o)) then (p, n) else row) <$> d.(reviewers)).
Proof.
  intros Hn. destruct (decide (o = n)) as [->|Hne].
  - erewrite list_fmap_ext; [by rewrite list_fmap_id; destruct Hwf|].
    intros ? row _. simpl. case_decide; congruence.
  - apply NoDup_fmap_2_strong; [|by destruct Hwf].
    intros x y Hx Hy. repeat case_decide; intros; simplify_eq; naive_solver.
Qed.

Lemma replace_reviewer_wf p o n : db_wf (replace_reviewer d p o n).2.
Proof.
  unfold replace_reviewer. case_decide; simpl; [done|].
  repeat case_bool_decide; simpl; try done.
  destruct Hwf; split; simpl; try done.
  - by apply replace_rows_nodup.
  - intros p' r' (row & Hrow & Hin)%list_elem_of_fmap.
    case_decide; simplify_eq; eauto.
  - intros p' r' (row & Hrow & Hin)%list_elem_of_fmap.
    case_decide; simplify_eq; eauto. by apply not_eq_None_Some.
Qed.

Lemma user_set_active_wf b u : db_wf (user_set_active d b u).2.
Proof.
  unfold user_set_active, join_user. destruct (users d !! u) as [ur|] eqn:E; simpl; [|done].
  destruct (teams d !! u_team ur) eqn:Et; simpl; [|done].
  destruct Hwf; split; simpl; try done.
  - intros p r Hin. apply lookup_insert_is_Some'. eauto.
  - intros p row Hp. apply lookup_insert_is_Some'. eauto.
  - intros u' row. rewrite lookup_insert. case_decide; intros Hrow; simplify_eq/=; eauto.
Qed.

Lemma user_upsert_wf u nm t a : db_wf (user_upsert d u nm t a).2.
Proof.
  unfold user_upsert. case_bool_decide; simpl; [done|].
  destruct Hwf; split; simpl; try done.
  - intros p r Hin. apply lookup_insert_is_Some'. eauto.
  - intros p row Hp. apply lookup_insert_is_Some'. eauto.
  - intros u' row. rewrite lookup_insert. case_decide; intros Hrow; simplify_eq/=; eauto.
    by apply not_eq_None_Some.
Qed.

Lemma team_insert_wf nm : db_wf (team_insert d nm).2.
Proof.
  unfold team_insert. case_bool_decide as Hnm; simpl;
    destruct Hwf; split; simpl; try done.
  - intros id n Hid. specialize (wf_team_seq0 id n Hid). lia.
  - intros u row Hu. destruct (wf_user_team0 u row Hu) as [x Hx].
    apply lookup_insert_is_Some'. eauto.
  - intros id n. rewrite lookup_insert. case_decide; intros Hid; simplify_eq/=; [lia|].
    specialize (wf_team_seq0 id n Hid). lia.
  - assert (Hfresh : teams d !! (team_seq d + 1)%Z = None).
    { apply eq_None_not_Some. intros [x Hx]. specialize (wf_team_seq0 _ _ Hx). lia. }
    intros i j n. rewrite !lookup_insert.
    repeat case_decide; intros Hi Hj; simplify_eq; eauto;
      exfalso; apply Hnm, list_elem_of_fmap;
      [exists (j, n) | exists (i, n)]; by rewrite elem_of_map_to_list.
Qed.
End preservation.

(** Every statement keeps the tables well formed. *)
Lemma exec_sql_wf rk {R} (q : sql R) d : db_wf d -> db_wf (exec_sql rk q d).2.
Proof.
  intros Hwf. destruct q; simpl; auto using pr_insert_wf, reviewer_insert_wf,
    pr_set_merged_wf, replace_reviewer_wf, user_set_active_wf, user_upsert_wf,
    team_insert_wf.
Qed.

(** ** Deciding well-formedness *)

(** [db_wf] with each quantifier bounded by a table, so that it can be
    decided on concrete tables. *)
Definition db_wf_bounded (d : DB) : Prop :=
  NoDup d.(reviewers) ∧
  Forall (λ row : string * string, is_Some (d.(prs) !! row.1) ∧ is_Some (d.(users) !! row.2))
    d.(reviewers) ∧
  map_Forall (λ _ row, is_Some (d.(users) !! p_author row) ∧
                       is_Some (d.(pr_statuses) !! p_status row)) d.(prs) ∧
  map_Forall (λ _ row, is_Some (d.(teams) !! u_team row)) d.(users) ∧
  map_Forall (λ id _, (id ≤ d.(team_seq))%Z) d.(teams) ∧
  map_Forall (λ i n, map_Forall (λ j n', n = n' -> i = j) d.(teams)) d.(teams) ∧
  d.(pr_statuses) = initial_statuses.

Lemma db_wf_bounded_iff d : db_wf d <-> db_wf_bounded d.
Proof.
  unfold db_wf_bounded. rewrite Forall_forall, !map_Forall_lookup. split.
  - intros []. split_and!; try done.
    + intros [p r] Hin. eauto.
    + intros i row Hrow. eauto.
    + intros i n Hi j n' Hj <-. eauto.
  - intros (Hnd & Hrev & Hpr & Hus & Hseq & Hnames & Hst). split; try done.
    + intros p r Hin. apply (Hrev (p, r) Hin).
    + intros p r Hin. apply (Hrev (p, r) Hin).
    + intros p row Hrow. apply (Hpr p row Hrow).
    + intros p row Hrow. apply (Hpr p row Hrow).
    + intros i j n Hi Hj. by apply (Hnames i n Hi j n Hj).
Qed.

#[export] Instance db_wf_dec d : Decision (db_wf d).
Proof.
  refine (cast_if (decide (db_wf_bounded d))); by rewrite db_wf_bounded_iff.
Defined.
