(* ===== verification/Prog.v ===== *)
(** * Prog: Go code that talks to the store, as a program tree, and its interpreter

    A [prog A] is a finite tree whose nodes are the effects the Go code
    performs and whose leaves return an [A]: an SQL statement sent to the
    pool or to the open transaction ([Exec]), [time.Now] ([Now]),
    [rand.Intn] ([Intn]) and the transaction calls of pgx ([Begin],
    [Commit], [Rollback]).  The continuation of a node receives the
    answer, error included, exactly as the Go code receives
    [(value, err)] and decides what to do with it.

    [run p w] interprets [p] in a [World]:
    - [w_db], the committed tables;
    - [w_tx], the transaction opened by [Begin] if any: the statements sent
      to it, replayed on the committed tables for its reads and applied to
      them by [Commit];
    - [w_faults], the fault schedule: the n-th store call ([Exec],
      [Begin] or [Commit]) fails with [ErrConn] when the n-th bit is
      [true] (a dropped connection or a cancelled context); an exhausted
      schedule never fails;
    - [w_rand], the [random()] keys of successive [ORDER BY random()]
      statements, and [w_intn], the successive draws of [math/rand]
      ([rand.Intn n] returns the draw modulo [n]);
    - [w_clock], the value [time.Now().UTC()] returns. *)

From stdpp Require Import base list gmap strings.
From Stdlib Require Import ZArith.
From S2P Require Import Prelude Types Tables Selection Store.

(** ** Contexts and connections *)

(** [context.Context] as far as the code inspects it: whether a value
    under [txKey{}] (the open transaction) has been attached. *)
Inductive Ctx : Type :=
| Background
| WithTxValue (parent : Ctx).

(** Where a statement is sent: the pool ([*pgxpool.Pool]) or the open
    transaction ([pgx.Tx]). *)
Inductive Target : Type := Pool | TxConn.

(** ** Programs *)

Inductive prog (A : Type) : Type :=
| Ret (a : A)
| Exec {R : Type} (t : Target) (q : sql R) (k : res R -> prog A)
| Now (k : Z -> prog A)
| Intn (n : nat) (k : nat -> prog A)
| Begin (k : res unit -> prog A)
| Commit (k : res unit -> prog A)
| Rollback (k : res unit -> prog A).
Arguments Ret {A} a.
Arguments Exec {A R} t q k.
Arguments Now {A} k.
Arguments Intn {A} n k.
Arguments Begin {A} k.
Arguments Commit {A} k.
Arguments Rollback {A} k.

Fixpoint bind {A B} (p : prog A) (f : A -> prog B) : prog B :=
  match p with
  | Ret a => f a
  | Exec t q k => Exec t q (λ r, bind (k r) f)
  | Now k => Now (λ c, bind (k c) f)
  | Intn n k => Intn n (λ x, bind (k x) f)
  | Begin k => Begin (λ r, bind (k r) f)
  | Commit k => Commit (λ r, bind (k r) f)
  | Rollback k => Rollback (λ r, bind (k r) f)
  end.

(** [if err != nil { return ..., err }] after each call. *)
Definition bindE {A B} (p : prog (res A)) (f : A -> prog (res B)) : prog (res B) :=
  bind p (λ r, match r with Ok a => f a | Err e => Ret (Err e) end).

Definition ret {A} (a : A) : prog (res A) := Ret (Ok a).
Definition fail {A} (e : error) : prog (res A) := Ret (Err e).

Declare Scope prog_scope.
Delimit Scope prog_scope with prog.
Notation "x <- p ;; k" := (bindE p (λ x, k))
  (at level 100, p at next level, right associativity) : prog_scope.
Open Scope prog_scope.

(** One statement whose answer is handed back as is. *)
Definition query {R} (t : Target) (q : sql R) : prog (res R) := Exec t q Ret.

(** [time.Now().UTC()] and [rand.Intn(n)] never fail. *)
Definition time_now : prog (res Z) := Now (λ c, Ret (Ok c)).
Definition rand_Intn (n : nat) : prog (res nat) := Intn n (λ x, Ret (Ok x)).

(** ** Worlds *)

Record tx_state := mk_tx {
  tx_log : list { R : Type & sql R };
  tx_aborted : bool
}.

Record World := mkWorld {
  w_db : DB;
  w_tx : option tx_state;
  w_faults : list bool;
  w_rand : list (string -> Z);
  w_intn : list nat;
  w_clock : Z
}.

Definition set_db (w : World) (d : DB) : World :=
  mkWorld d w.(w_tx) w.(w_faults) w.(w_rand) w.(w_intn) w.(w_clock).
Definition set_tx (w : World) (t : option tx_state) : World :=
  mkWorld w.(w_db) t w.(w_faults) w.(w_rand) w.(w_intn) w.(w_clock).
Definition set_clock (w : World) (c : Z) : World :=
  mkWorld w.(w_db) w.(w_tx) w.(w_faults) w.(w_rand) w.(w_intn) c.

(** The next store call: does it fail? *)
Definition pop_fault (w : World) : bool * World :=
  match w.(w_faults) with
  | b :: fs => (b, mkWorld w.(w_db) w.(w_tx) fs w.(w_rand) w.(w_intn) w.(w_clock))
  | [] => (false, w)
  end.

(** Only [ORDER BY random()] draws random keys. *)
Definition uses_random {R} (q : sql R) : bool :=
  match q with SqlUserFindActive _ _ _ => true | _ => false end.

Definition pop_rand (w : World) : (string -> Z) * World :=
  match w.(w_rand) with
  | rk :: rs => (rk, mkWorld w.(w_db) w.(w_tx) w.(w_faults) rs w.(w_intn) w.(w_clock))
  | [] => ((λ _, 0%Z), w)
  end.

Definition pop_intn (w : World) : nat * World :=
  match w.(w_intn) with
  | x :: xs => (x, mkWorld w.(w_db) w.(w_tx) w.(w_faults) w.(w_rand) xs w.(w_clock))
  | [] => (0%nat, w)
  end.

(** The tables as the open transaction sees them. *)
Fixpoint replay (log : list { R : Type & sql R }) (d : DB) : DB :=
  match log with
  | [] => d
  | existT _ q :: l => replay l (snd (exec_sql (λ _, 0%Z) q d))
  end.

(** SQLSTATE of a statement sent to a transaction after an error. *)
Definition inFailedTxErr : string := "25P02".

(** ** One store call *)

Definition exec_at {R} (t : Target) (q : sql R) (w : World) : res R * World :=
  let '(fault, w1) := pop_fault w in
  let '(rk, w2) := if uses_random q then pop_rand w1 else ((λ _, 0%Z), w1) in
  if fault then (Err ErrConn, w2) else
  match t with
  | Pool => let '(r, d') := exec_sql rk q w2.(w_db) in (r, set_db w2 d')
  | TxConn =>
      match w2.(w_tx) with
      | None => (Err ErrTxClosed, w2)
      | Some tx =>
          if tx_aborted tx then (Err (ErrPg inFailedTxErr), w2) else
          match fst (exec_sql rk q (replay (tx_log tx) w2.(w_db))) with
          | Ok v => (Ok v, set_tx w2 (Some (mk_tx (tx_log tx ++ [existT R q]) false)))
          | Err e => (Err e, set_tx w2 (Some (mk_tx (tx_log tx) true)))
          end
      end
  end.

(** [pool.Begin(ctx)]: opens a transaction with an empty log. *)
Definition begin_tx (w : World) : res unit * World :=
  let '(fault, w1) := pop_fault w in
  if fault then (Err ErrConn, w1) else (Ok tt, set_tx w1 (Some (mk_tx [] false))).

(** [tx.Commit(ctx)]: applies the log; an aborted transaction is rolled
    back instead and pgx reports [ErrTxCommitRollback]. *)
Definition commit_tx (w : World) : res unit * World :=
  let '(fault, w1) := pop_fault w in
  match w1.(w_tx) with
  | None => (Err ErrTxClosed, w1)
  | Some tx =>
      if fault then (Err ErrConn, set_tx w1 None)
      else if tx_aborted tx then (Err (ErrPg inFailedTxErr), set_tx w1 None)
      else (Ok tt, set_tx (set_db w1 (replay (tx_log tx) w1.(w_db))) None)
  end.

(** [tx.Rollback(ctx)]: discards the log; [ErrTxClosed] once the
    transaction has ended. *)
Definition rollback_tx (w : World) : res unit * World :=
  match w.(w_tx) with
  | None => (Err ErrTxClosed, w)
  | Some _ => (Ok tt, set_tx w None)
  end.

(** ** The interpreter *)

Fixpoint run {A} (p : prog A) (w : World) : A * World :=
  match p with
  | Ret a => (a, w)
  | Exec t q k => let '(r, w') := exec_at t q w in run (k r) w'
  | Now k => run (k w.(w_clock)) w
  | Intn n k => let '(x, w') := pop_intn w in run (k (x mod n)%nat) w'
  | Begin k => let '(r, w') := begin_tx w in run (k r) w'
  | Commit k => let '(r, w') := commit_tx w in run (k r) w'
  | Rollback k => let '(r, w') := rollback_tx w in run (k r) w'
  end.

(** ** Laws of the interpreter *)

Lemma run_bind {A B} (p : prog A) (f : A -> prog B) w :
  run (bind p f) w = let '(a, w') := run p w in run (f a) w'.
Proof.
  revert w. induction p; intros w; simpl; try done;
    try destruct (exec_at _ _ w); try destruct (pop_intn w); try destruct (begin_tx w);
    try destruct (commit_tx w); try destruct (rollback_tx w); auto.
Qed.

Lemma run_bindE {A B} (p : prog (res A)) (f : A -> prog (res B)) w :
  run (bindE p f) w =
  match run p w with
  | (Ok a, w') => run (f a) w'
  | (Err e, w') => (Err e, w')
  end.
Proof. unfold bindE. rewrite run_bind. by destruct (run p w) as [[a|e] w']. Qed.

Lemma run_ret {A} (a : A) w : run (ret a) w = (Ok a, w).
Proof. done. Qed.

Lemma run_fail {A} (e : error) w : run (@fail A e) w = (Err e, w).
Proof. done. Qed.

#[export] Hint Rewrite @run_bindE @run_ret @run_fail : rm_run.

(** ** Fault-free store calls *)

Lemma set_db_w_db w : set_db w (w_db w) = w.
Proof. by destruct w. Qed.

Lemma set_tx_w_tx w : set_tx w (w_tx w) = w.
Proof. by destruct w. Qed.

Lemma pop_fault_none w : w_faults w = [] -> pop_fault w = (false, w).
Proof. unfold pop_fault. by intros ->. Qed.

(** A statement sent to the pool in a world whose store does not fail. *)
Lemma exec_at_pool {R} (q : sql R) w :
  w_faults w = [] -> uses_random q = false ->
  exec_at Pool q w = (fst (exec_sql (λ _, 0%Z) q (w_db w)),
                      set_db w (snd (exec_sql (λ _, 0%Z) q (w_db w)))).
Proof.
  intros Hf Hr. unfold exec_at. rewrite pop_fault_none, Hr by done.
  by destruct (exec_sql _ q (w_db w)).
Qed.

Lemma exec_at_pool_random {R} (q : sql R) w rk rs :
  w_faults w = [] -> uses_random q = true -> w_rand w = rk :: rs ->
  exec_at Pool q w =
    (fst (exec_sql rk q (w_db w)),
     mkWorld (snd (exec_sql rk q (w_db w))) (w_tx w) [] rs (w_intn w) (w_clock w)).
Proof.
  intros Hf Hr Hrs. unfold exec_at. rewrite pop_fault_none, Hr by done.
  unfold pop_rand. rewrite Hrs. destruct w as [d tx fs rs' ds c]; simpl in *; subst.
  by destruct (exec_sql _ q d).
Qed.

(** Fault-free worlds stay fault-free. *)
Lemma exec_at_faults {R} t (q : sql R) w :
  w_faults w = [] -> w_faults (snd (exec_at t q w)) = [].
Proof.
  intros Hf. unfold exec_at, pop_rand. rewrite pop_fault_none by done.
  repeat case_match; simplify_eq/=; auto.
Qed.

Lemma run_faults {A} (p : prog A) w :
  w_faults w = [] -> w_faults (snd (run p w)) = [].
Proof.
  revert w. induction p as [a|R t q k IH|k IH|n k IH|k IH|k IH|k IH]; intros w Hf; simpl.
  - done.
  - pose proof (exec_at_faults t q w Hf). destruct (exec_at t q w). auto.
  - auto.
  - unfold pop_intn. destruct (w_intn w); simpl; apply IH; done.
  - unfold begin_tx. rewrite pop_fault_none by done. simpl. by apply IH.
  - unfold commit_tx. rewrite pop_fault_none by done.
    destruct (w_tx w) as [[? []]|]; simpl; by apply IH.
  - unfold rollback_tx. destruct (w_tx w); simpl; by apply IH.
Qed.

Lemma set_db_set_db w d d' : set_db (set_db w d) d' = set_db w d'.
Proof. done. Qed.

Lemma run_query_pool {R} (q : sql R) w :
  w_faults w = [] -> uses_random q = false ->
  run (query Pool q) w = (fst (exec_sql (λ _, 0%Z) q (w_db w)),
                          set_db w (snd (exec_sql (λ _, 0%Z) q (w_db w)))).
Proof. intros Hf Hr. unfold query. simpl. by rewrite exec_at_pool. Qed.

(** ** Every program keeps the committed tables well formed *)

(** ** Results at every leaf

    [ret_all P p]: every value [p] can return, whatever its effects
    answer, satisfies [P]. *)
Fixpoint ret_all {A} (P : A -> Prop) (p : prog A) : Prop :=
  match p with
  | Ret a => P a
  | Exec _ _ k => ∀ r, ret_all P (k r)
  | Now k => ∀ c, ret_all P (k c)
  | Intn _ k => ∀ x, ret_all P (k x)
  | Begin k | Commit k | Rollback k => ∀ r, ret_all P (k r)
  end.

Lemma ret_all_run {A} (P : A -> Prop) p w : ret_all P p -> P (run p w).1.
Proof.
  revert w. induction p; intros w Hp; simpl in *; try done;
    try destruct (exec_at _ _ w); try destruct (pop_intn w); try destruct (begin_tx w);
    try destruct (commit_tx w); try destruct (rollback_tx w); auto.
Qed.

Lemma ret_all_bind {A B} (Q : A -> Prop) (P : B -> Prop) p (f : A -> prog B) :
  ret_all Q p -> (∀ a, Q a -> ret_all P (f a)) -> ret_all P (bind p f).
Proof. induction p; simpl; intros Hp Hf; auto. Qed.

Lemma ret_all_True {A} (p : prog A) : ret_all (λ _, True) p.
Proof. induction p; simpl; auto. Qed.

(** A continuation that only returns: its results are those of [g]. *)
Lemma ret_all_bind_Ret {A B} (P : B -> Prop) p (g : A -> B) :
  (∀ a, P (g a)) -> ret_all P (bind p (λ a, Ret (g a))).
Proof. intros Hg. apply (ret_all_bind (λ _, True)); [apply ret_all_True|intros a _; exact (Hg a)]. Qed.

(** A property of the tables that every statement keeps is kept by every
    program: the committed tables change only by statements, applied one
    at a time to the pool or replayed at a commit. *)
Section preserved.
Context (P : DB -> Prop).
Hypothesis P_exec : ∀ rk R (q : sql R) d, P d -> P (exec_sql rk q d).2.

Lemma replay_pres log d : P d -> P (replay log d).
Proof. revert d. induction log as [|[R q] log IH]; intros d Hd; simpl; auto. Qed.

Lemma exec_at_pres {R} t (q : sql R) w : P (w_db w) -> P (w_db (snd (exec_at t q w))).
Proof.
  intros Hd. unfold exec_at, pop_fault, pop_rand.
  repeat case_match; simplify_eq/=; auto.
  all: match goal with H : exec_sql _ _ _ = _ |- _ =>
         eapply (f_equal snd) in H; simpl in H; subst; by apply P_exec end.
Qed.

Lemma run_pres {A} (p : prog A) w : P (w_db w) -> P (w_db (snd (run p w))).
Proof.
  revert w. induction p as [a|R t q k IH|k IH|n k IH|k IH|k IH|k IH]; intros w Hd; simpl.
  - done.
  - pose proof (exec_at_pres t q w Hd). destruct (exec_at t q w). auto.
  - auto.
  - unfold pop_intn. destruct (w_intn w); simpl; apply IH; done.
  - unfold begin_tx, pop_fault. repeat case_match; simplify_eq/=; auto.
  - unfold commit_tx, pop_fault. repeat case_match; simplify_eq/=; auto using replay_pres.
    all: apply IH; simpl; by apply replay_pres.
  - unfold rollback_tx. repeat case_match; simplify_eq/=; auto.
Qed.
End preserved.

Lemma replay_wf log d : db_wf d -> db_wf (replay log d).
Proof. apply replay_pres, exec_sql_wf. Qed.

Lemma exec_at_wf {R} t (q : sql R) w : db_wf (w_db w) -> db_wf (w_db (snd (exec_at t q w))).
Proof. apply exec_at_pres, exec_sql_wf. Qed.

(** every program over the store, whatever its statements,
    transactions and injected connection failures, preserves the
    referential and uniqueness invariant [db_wf] of the tables. *)
Theorem run_wf {A} (p : prog A) w : db_wf (w_db w) -> db_wf (w_db (snd (run p w))).
Proof. apply run_pres, exec_sql_wf. Qed.

