(* ===== verification/Repo.v ===== *)
(** * Repo: the repository interfaces and their PostgreSQL implementations

    Each Go interface of [internal/repository] ([PrRepo], [UserRepo],
    [TeamRepo], [TxManager]) is a record of operations in a module of its
    name; the services are written against these records only.  The Pg
    implementations are parameterised by a [PgConn], which says where a
    statement issued under a context goes.  As written, every method calls
    [r.db.Exec/Query/QueryRow] on the pool it was built with, so
    [pool_db] sends everything to the pool whatever the context;
    [ctx_db] is the routing [currentDB(ctx, pool)] of [tx.go] would give
    (the helper is declared there but never called).  Each method maps
    [pgx.ErrNoRows] and unique violations to the sentinel errors exactly
    where the Go code does and passes every other error through. *)

From stdpp Require Import base list gmap strings.
From Stdlib Require Import ZArith.
From S2P Require Import Prelude Types Tables Selection Store Prog.

(** ** Routing of statements *)

Record PgConn := mk_pg_conn { conn_of : Ctx -> Target }.

(** [r.db]: the pool the repository was constructed with. *)
Definition pool_db : PgConn := mk_pg_conn (λ _, Pool).

(** [currentDB]: the transaction stored in the context, else the pool. *)
Definition currentDB (ctx : Ctx) : Target :=
  match ctx with WithTxValue _ => TxConn | Background => Pool end.

Definition ctx_db : PgConn := mk_pg_conn currentDB.

(** ** Interfaces *)

Module PrRepo.
Record t := mk {
  Exists : Ctx -> string -> prog (res bool);
  Insert : Ctx -> PullRequest.t -> prog (res unit);
  AddReviewers : Ctx -> string -> list string -> prog (res unit);
  GetWithReviewers : Ctx -> string -> prog (res (PullRequest.t * list string));
  SetMerged : Ctx -> string -> Z -> prog (res PullRequest.t);
  ReplaceReviewer : Ctx -> string -> string -> string -> prog (res unit)
}.
End PrRepo.

Module UserRepo.
Record t := mk {
  GetByID : Ctx -> string -> prog (res User.t);
  SetActive : Ctx -> string -> bool -> prog (res User.t);
  GetReviewPrs : Ctx -> string -> prog (res (list PullRequestShort.t));
  FindActiveInTeamExcept : Ctx -> Z -> string -> Z -> prog (res (list User.t));
  UpsertTeamMembers : Ctx -> Z -> list User.t -> prog (res unit)
}.
End UserRepo.

Module TeamRepo.
Record t := mk {
  Create : Ctx -> string -> prog (res Team.t);
  GetByName : Ctx -> string -> prog (res Team.t)
}.
End TeamRepo.

(** [WithinTx(ctx, fn func(ctx) error) error].  A Go closure may also
    assign variables of the enclosing function ([TeamAdd] sets
    [teamRow] inside its body); the body's result [A] carries their
    final values, which the caller reads only when [WithinTx] succeeds.
    [PRService.Create]'s body assigns nothing ([A = unit]). *)
Module TxManager.
Record t := mk {
  WithinTx : ∀ A : Type, Ctx -> (Ctx -> prog (res A)) -> prog (res A)
}.
Arguments WithinTx _ {A}.
End TxManager.

(** ** [PgPrRepo] *)

Module PgPrRepo.
Section pg.
Context (r : PgConn).

Definition Exists (ctx : Ctx) (prID : string) : prog (res bool) :=
  query (conn_of r ctx) (SqlPrExists prID).

Definition Insert (ctx : Ctx) (pr : PullRequest.t) : prog (res unit) :=
  query (conn_of r ctx) (SqlPrInsert pr false).

(** [for _, rid := range reviewerIDs { if _, err := r.db.Exec(...); err != nil { return err } }] *)
Fixpoint insert_each (ctx : Ctx) (prID : string) (rids : list string) : prog (res unit) :=
  match rids with
  | [] => ret tt
  | rid :: rest =>
      _ <- query (conn_of r ctx) (SqlReviewerInsert prID rid) ;;
      insert_each ctx prID rest
  end.

Definition AddReviewers (ctx : Ctx) (prID : string) (reviewerIDs : list string)
    : prog (res unit) :=
  match reviewerIDs with
  | [] => ret tt
  | _ => insert_each ctx prID reviewerIDs
  end.

Definition GetWithReviewers (ctx : Ctx) (prID : string)
    : prog (res (PullRequest.t * list string)) :=
  Exec (conn_of r ctx) (SqlPrSelect prID) (λ res,
    match res with
    | Err ErrNoRows => fail ErrPRNotFound
    | Err e => fail e
    | Ok pr =>
        reviewers <- query (conn_of r ctx) (SqlReviewersOf prID) ;;
        ret (pr, reviewers)
    end).

Definition SetMerged (ctx : Ctx) (prID : string) (mergedAt : Z) : prog (res PullRequest.t) :=
  Exec (conn_of r ctx) (SqlPrSetMerged StatusMerged mergedAt prID) (λ res,
    match res with
    | Err ErrNoRows => fail ErrPRNotFound
    | Err e => fail e
    | Ok pr =>
        name <- query (conn_of r ctx) (SqlStatusName (PullRequest.StatusID pr)) ;;
        ret (PullRequest.mk (PullRequest.ID pr) (PullRequest.Name pr)
               (PullRequest.AuthorID pr) (PullRequest.StatusID pr) name
               (PullRequest.CreatedAt pr) (PullRequest.MergedAt pr))
    end).

Definition ReplaceReviewer (ctx : Ctx) (prID oldReviewerID newReviewerID : string)
    : prog (res unit) :=
  ct <- query (conn_of r ctx) (SqlReplaceReviewer prID oldReviewerID newReviewerID) ;;
  if decide (ct = 0%Z) then fail ErrReviewerNotSet else ret tt.

Definition repo : PrRepo.t :=
  PrRepo.mk Exists Insert AddReviewers GetWithReviewers SetMerged ReplaceReviewer.
End pg.
End PgPrRepo.

(** ** [PgUserRepo] *)

Module PgUserRepo.
Section pg.
Context (r : PgConn).

Definition GetByID (ctx : Ctx) (userID : string) : prog (res User.t) :=
  Exec (conn_of r ctx) (SqlUserGet userID) (λ res,
    match res with
    | Err ErrNoRows => fail ErrUserNotFound
    | Err e => fail e
    | Ok u => ret u
    end).

Definition SetActive (ctx : Ctx) (userID : string) (isActive : bool) : prog (res User.t) :=
  Exec (conn_of r ctx) (SqlUserSetActive isActive userID) (λ res,
    match res with
    | Err ErrNoRows => fail ErrUserNotFound
    | Err e => fail e
    | Ok u => ret u
    end).

Definition GetReviewPrs (ctx : Ctx) (userID : string) : prog (res (list PullRequestShort.t)) :=
  query (conn_of r ctx) (SqlUserReviewPrs userID).

Definition FindActiveInTeamExcept (ctx : Ctx) (teamID : Z) (excludeUserID : string)
    (limit : Z) : prog (res (list User.t)) :=
  query (conn_of r ctx) (SqlUserFindActive teamID excludeUserID limit).

Fixpoint UpsertTeamMembers (ctx : Ctx) (teamID : Z) (members : list User.t)
    : prog (res unit) :=
  match members with
  | [] => ret tt
  | m :: rest =>
      _ <- query (conn_of r ctx)
             (SqlUserUpsert (User.ID m) (User.Username m) teamID (User.IsActive m)) ;;
      UpsertTeamMembers ctx teamID rest
  end.

Definition repo : UserRepo.t :=
  UserRepo.mk GetByID SetActive GetReviewPrs FindActiveInTeamExcept UpsertTeamMembers.
End pg.
End PgUserRepo.

(** ** [PgTeamRepo] *)

Module PgTeamRepo.
Section pg.
Context (r : PgConn).

Definition Create (ctx : Ctx) (teamName : string) : prog (res Team.t) :=
  Exec (conn_of r ctx) (SqlTeamInsert teamName) (λ res,
    match res with
    | Err (ErrPg code) =>
        if decide (code = uniqueViolationErr) then fail ErrTeamExists
        else fail (ErrPg code)
    | Err e => fail e
    | Ok t => ret t
    end).

Definition GetByName (ctx : Ctx) (teamName : string) : prog (res Team.t) :=
  Exec (conn_of r ctx) (SqlTeamGetByName teamName) (λ res,
    match res with
    | Err ErrNoRows => fail ErrTeamNotFound
    | Err e => fail e
    | Ok t => ret t
    end).

Definition repo : TeamRepo.t := TeamRepo.mk Create GetByName.
End pg.
End PgTeamRepo.

(** ** [PgTxManager.WithinTx] *)

(** [Begin]; on failure return its error.  Otherwise run [fn] under the
    context carrying the transaction; on error return it (the deferred
    [Rollback] discards the transaction), else return what [Commit]
    returns (the deferred [Rollback] then fails with [ErrTxClosed], which
    is ignored). *)
Definition WithinTx {A} (ctx : Ctx) (fn : Ctx -> prog (res A)) : prog (res A) :=
  Begin (λ b,
    match b with
    | Err e => fail e
    | Ok _ =>
        let ctxWithTx := WithTxValue ctx in
        bind (fn ctxWithTx) (λ r,
          match r with
          | Err e => Rollback (λ _, fail e)
          | Ok a => Commit (λ c, Rollback (λ _, Ret (result_map (λ _, a) c)))
          end)
    end).

Definition PgTxManager : TxManager.t := TxManager.mk (@WithinTx).

(** ** Contracts of the repositories

    What each method promises, as a function of the committed tables:
    the comments on the interface methods in [pr_repo.go] and
    [user_repo.go] say it in words.  The classes below state that a
    repository meets them in a world whose store does not fail; the
    services' theorems are proved from these laws only, and the pool-routed
    Pg repositories discharge them. *)

Definition get_with_reviewers (d : DB) (prID : string) : res (PullRequest.t * list string) :=
  match pr_select d prID with
  | Ok pr => Ok (pr, reviewers_of d prID)
  | Err ErrNoRows => Err ErrPRNotFound
  | Err e => Err e
  end.

Fixpoint add_reviewer_rows (d : DB) (prID : string) (rids : list string) : res unit * DB :=
  match rids with
  | [] => (Ok tt, d)
  | rid :: rest =>
      match reviewer_insert d prID rid with
      | (Ok _, d') => add_reviewer_rows d' prID rest
      | (Err e, d') => (Err e, d')
      end
  end.

Definition set_merged (d : DB) (prID : string) (t : Z) : res PullRequest.t * DB :=
  match pr_set_merged d StatusMerged t prID with
  | (Ok pr, d') =>
      (result_map (λ name, PullRequest.mk (PullRequest.ID pr) (PullRequest.Name pr)
                     (PullRequest.AuthorID pr) (PullRequest.StatusID pr) name
                     (PullRequest.CreatedAt pr) (PullRequest.MergedAt pr))
                  (status_name d' (PullRequest.StatusID pr)), d')
  | (Err ErrNoRows, d') => (Err ErrPRNotFound, d')
  | (Err e, d') => (Err e, d')
  end.

Definition replace_reviewer_row (d : DB) (prID oldID newID : string) : res unit * DB :=
  match replace_reviewer d prID oldID newID with
  | (Ok ct, d') => (if decide (ct = 0%Z) then Err ErrReviewerNotSet else Ok tt, d')
  | (Err e, d') => (Err e, d')
  end.

Definition get_user (d : DB) (userID : string) : res User.t :=
  match user_get d userID with
  | Ok u => Ok u
  | Err ErrNoRows => Err ErrUserNotFound
  | Err e => Err e
  end.

Definition set_active (d : DB) (userID : string) (isActive : bool) : res User.t * DB :=
  match user_set_active d isActive userID with
  | (Ok u, d') => (Ok u, d')
  | (Err ErrNoRows, d') => (Err ErrUserNotFound, d')
  | (Err e, d') => (Err e, d')
  end.

Fixpoint upsert_members (d : DB) (teamID : Z) (members : list User.t) : res unit * DB :=
  match members with
  | [] => (Ok tt, d)
  | m :: rest =>
      match user_upsert d (User.ID m) (User.Username m) teamID (User.IsActive m) with
      | (Ok _, d') => upsert_members d' teamID rest
      | (Err e, d') => (Err e, d')
      end
  end.

Definition create_team (d : DB) (teamName : string) : res Team.t * DB :=
  match team_insert d teamName with
  | (Ok tm, d') => (Ok tm, d')
  | (Err (ErrPg code), d') =>
      (if decide (code = uniqueViolationErr) then Err ErrTeamExists else Err (ErrPg code), d')
  | (Err e, d') => (Err e, d')
  end.

Definition get_team_by_name (teamName : string) : res Team.t :=
  match team_get_by_name teamName with
  | Ok tm => Ok tm
  | Err ErrNoRows => Err ErrTeamNotFound
  | Err e => Err e
  end.

Class PrRepoOk (repo : PrRepo.t) := {
  Exists_ok ctx prID w : w_faults w = [] ->
    run (PrRepo.Exists repo ctx prID) w = (Ok (pr_exists (w_db w) prID), w);
  Insert_ok ctx pr w : w_faults w = [] ->
    run (PrRepo.Insert repo ctx pr) w =
      ((pr_insert (w_db w) pr false).1, set_db w (pr_insert (w_db w) pr false).2);
  AddReviewers_ok ctx prID rids w : w_faults w = [] ->
    run (PrRepo.AddReviewers repo ctx prID rids) w =
      ((add_reviewer_rows (w_db w) prID rids).1,
       set_db w (add_reviewer_rows (w_db w) prID rids).2);
  GetWithReviewers_ok ctx prID w : w_faults w = [] ->
    run (PrRepo.GetWithReviewers repo ctx prID) w = (get_with_reviewers (w_db w) prID, w);
  SetMerged_ok ctx prID t w : w_faults w = [] ->
    run (PrRepo.SetMerged repo ctx prID t) w =
      ((set_merged (w_db w) prID t).1, set_db w (set_merged (w_db w) prID t).2);
  ReplaceReviewer_ok ctx prID o n w : w_faults w = [] ->
    run (PrRepo.ReplaceReviewer repo ctx prID o n) w =
      ((replace_reviewer_row (w_db w) prID o n).1,
       set_db w (replace_reviewer_row (w_db w) prID o n).2)
}.

Class UserRepoOk (repo : UserRepo.t) := {
  GetByID_ok ctx userID w : w_faults w = [] ->
    run (UserRepo.GetByID repo ctx userID) w = (get_user (w_db w) userID, w);
  FindActiveInTeamExcept_ok ctx teamID ex limit w rk rs :
    w_faults w = [] -> w_rand w = rk :: rs ->
    run (UserRepo.FindActiveInTeamExcept repo ctx teamID ex limit) w =
      (find_active (w_db w) rk teamID ex limit,
       mkWorld (w_db w) (w_tx w) [] rs (w_intn w) (w_clock w));
  SetActive_ok ctx userID isActive w : w_faults w = [] ->
    run (UserRepo.SetActive repo ctx userID isActive) w =
      ((set_active (w_db w) userID isActive).1,
       set_db w (set_active (w_db w) userID isActive).2);
  GetReviewPrs_ok ctx userID w : w_faults w = [] ->
    run (UserRepo.GetReviewPrs repo ctx userID) w = (Ok (user_review_prs (w_db w) userID), w);
  UpsertTeamMembers_ok ctx teamID members w : w_faults w = [] ->
    run (UserRepo.UpsertTeamMembers repo ctx teamID members) w =
      ((upsert_members (w_db w) teamID members).1,
       set_db w (upsert_members (w_db w) teamID members).2)
}.

Class TeamRepoOk (repo : TeamRepo.t) := {
  TeamCreate_ok ctx teamName w : w_faults w = [] ->
    run (TeamRepo.Create repo ctx teamName) w =
      ((create_team (w_db w) teamName).1, set_db w (create_team (w_db w) teamName).2);
  GetByName_ok ctx teamName w : w_faults w = [] ->
    run (TeamRepo.GetByName repo ctx teamName) w = (get_team_by_name teamName, w)
}.

(** ** The pool-routed Pg repositories meet the contracts *)

Lemma insert_each_pool ctx prID rids w :
  w_faults w = [] ->
  run (PgPrRepo.insert_each pool_db ctx prID rids) w =
    ((add_reviewer_rows (w_db w) prID rids).1,
     set_db w (add_reviewer_rows (w_db w) prID rids).2).
Proof.
  revert w. induction rids as [|rid rest IH]; intros w Hf; simpl.
  - by rewrite set_db_w_db.
  - rewrite exec_at_pool by done. simpl.
    destruct (reviewer_insert (w_db w) prID rid) as [[]] eqn:E; simpl; [|done].
    by rewrite IH.
Qed.

#[export] Instance PgPrRepo_ok : PrRepoOk (PgPrRepo.repo pool_db).
Proof.
  split; intros; simpl.
  - rewrite exec_at_pool by done. simpl. by rewrite set_db_w_db.
  - by rewrite exec_at_pool.
  - destruct rids; [simpl; by rewrite set_db_w_db|]. by apply insert_each_pool.
  - unfold get_with_reviewers. rewrite exec_at_pool by done. simpl.
    destruct (pr_select (w_db w) prID) as [pr|[]]; simpl; rewrite ?set_db_w_db; try done.
    rewrite exec_at_pool by done. simpl. by rewrite set_db_w_db.
  - unfold set_merged. rewrite exec_at_pool by done. simpl.
    destruct (pr_set_merged (w_db w) StatusMerged t prID) as [[pr|[]] d'];
      simpl; try done.
    rewrite exec_at_pool by done. simpl.
    by destruct (status_name d' (PullRequest.StatusID pr)).
  - unfold replace_reviewer_row. rewrite exec_at_pool by done. simpl.
    destruct (replace_reviewer (w_db w) prID o n) as [[ct|e] d']; simpl; [|done].
    by case_decide.
Qed.

Lemma upsert_each_pool ctx teamID ms w :
  w_faults w = [] ->
  run (PgUserRepo.UpsertTeamMembers pool_db ctx teamID ms) w =
    ((upsert_members (w_db w) teamID ms).1, set_db w (upsert_members (w_db w) teamID ms).2).
Proof.
  revert w. induction ms as [|m rest IH]; intros w Hf; simpl.
  - by rewrite set_db_w_db.
  - rewrite exec_at_pool by done. simpl.
    destruct (user_upsert (w_db w) _ _ teamID _) as [[]] eqn:E; simpl; [|done].
    by rewrite IH.
Qed.

#[export] Instance PgUserRepo_ok : UserRepoOk (PgUserRepo.repo pool_db).
Proof.
  split; intros; simpl.
  - unfold get_user. rewrite exec_at_pool by done. simpl. rewrite set_db_w_db.
    by destruct (user_get (w_db w) userID) as [|[]].
  - by rewrite (exec_at_pool_random _ w rk rs).
  - unfold set_active. rewrite exec_at_pool by done. simpl.
    by destruct (user_set_active (w_db w) isActive userID) as [[u|[]] d'].
  - rewrite exec_at_pool by done. simpl. by rewrite set_db_w_db.
  - by apply upsert_each_pool.
Qed.

#[export] Instance PgTeamRepo_ok : TeamRepoOk (PgTeamRepo.repo pool_db).
Proof.
  split; intros; simpl.
  - unfold create_team. rewrite exec_at_pool by done. simpl.
    destruct (team_insert (w_db w) teamName) as [[tm|[]] d']; simpl; try done.
    by case_decide.
  - rewrite exec_at_pool by done. simpl. by rewrite set_db_w_db.
Qed.

(** ** [WithinTx] around a body that never uses the transaction

    When every statement of the body goes to the pool (as with
    [pool_db]), the transaction [WithinTx] opens stays empty: committing
    it changes nothing and rolling it back undoes nothing.  The body's
    writes are committed one statement at a time, whatever the body
    returns. *)
Lemma WithinTx_pool_body {A} ctx fn (F : DB -> res A * DB) w :
  w_faults w = [] -> w_tx w = None ->
  (∀ w', w_faults w' = [] ->
     run (fn (WithTxValue ctx)) w' = ((F (w_db w')).1, set_db w' (F (w_db w')).2)) ->
  run (WithinTx ctx fn) w = ((F (w_db w)).1, set_db w (F (w_db w)).2).
Proof.
  intros Hf Htx Hfn. unfold WithinTx. simpl. unfold begin_tx.
  rewrite pop_fault_none by done. simpl. rewrite run_bind, Hfn by done. simpl.
  destruct w as [d tx fs rs ds c]; simpl in *; subst.
  by destruct (F d) as [[a|e] d'].
Qed.

Lemma get_user_ok d id u :
  get_user d id = Ok u -> ∃ ur, users d !! id = Some ur ∧ User.ID u = id ∧
    users d !! id = Some (mk_user_row (User.Username u) (User.TeamID u) (User.IsActive u)).
Proof.
  unfold get_user, user_get, join_user.
  destruct (users d !! id) as [[nm t a]|] eqn:E; simpl; [|done].
  destruct (teams d !! t); simpl; intros; simplify_eq/=; eauto.
Qed.
