(* ===== verification/Fixtures.v ===== *)
(** * Fixtures: the tables the unit tests of [tests/unit/pr_service_test.go] set up

    Each test fills the in-memory mocks with users and pull requests
    before calling the service; here the same rows are tables of the
    PostgreSQL model.  The mocks enforce no foreign key, the schema does:
    where a test refers to a user it never creates, the fixture adds that
    user to the team the test implies.  The witnesses of the engine's
    theorems and the concrete counterexamples run on these tables. *)

From stdpp Require Import base list gmap strings.
From Stdlib Require Import ZArith.
From S2P Require Import Prelude Types Tables Selection Store Prog.

Open Scope string_scope.

(** The teams the tests use ([TeamID: 1] and [TeamID: 2]). *)
Definition fx_teams : gmap Z string := <[1%Z := "team-1"]> (<[2%Z := "team-2"]> ∅).

Definition fx_db (us : list (string * user_row)) (ps : list (string * pr_row))
    (rs : list (string * string)) : DB :=
  mkDB fx_teams 2 (list_to_map us) initial_statuses (list_to_map ps) rs.

Definition open_pr (name author : string) : pr_row :=
  mk_pr_row name author StatusOpen 0 None false.

(** [TestPRService_Create_AssignsReviewersFromAuthorsTeam]: u1 (author),
    u2, u3 in team 1, u4 in team 2, all active. *)
Definition fx_create : DB :=
  fx_db [("u1", mk_user_row "Serega" 1 true); ("u2", mk_user_row "Vova" 1 true);
         ("u3", mk_user_row "Boba" 1 true); ("u4", mk_user_row "David" 2 true)] [] [].

(** [TestPRService_Create_NoReviewersWhenNoCandidates]: the author alone. *)
Definition fx_lone : DB := fx_db [("u1", mk_user_row "Lisa" 1 true)] [] [].

(** [TestPRService_Reassign_Success]: pr-4 by u1 (team 2) reviewed by u2;
    u3 is u2's only active teammate. *)
Definition fx_reassign : DB :=
  fx_db [("u2", mk_user_row "Vitya" 1 true); ("u3", mk_user_row "Jeka" 1 true);
         ("u1", mk_user_row "Alice" 2 true)]
        [("pr-4", open_pr "Reassign me" "u1")] [("pr-4", "u2")].

(** [TestPRService_Merge_Idempotent]: pr-3 by u1, open. *)
Definition fx_idem : DB :=
  fx_db [("u1", mk_user_row "Alice" 1 true)] [("pr-3", open_pr "Feature" "u1")] [].

(** [TestPRService_Reassign_ReviewerNotAssigned]: pr-6 by [author],
    reviewed by u1 alone. *)
Definition fx_not_assigned : DB :=
  fx_db [("author", mk_user_row "author" 1 true); ("u1", mk_user_row "u1" 1 true)]
        [("pr-6", open_pr "Reassign error" "author")] [("pr-6", "u1")].

(** [TestPRService_Create_PRAlreadyExists]: pr-dup by u1, open. *)
Definition fx_dup : DB :=
  fx_db [("u1", mk_user_row "Author" 1 true)] [("pr-dup", open_pr "Old" "u1")] [].

(** [TestPRService_Reassign_MergedPR]: pr-5, merged, reviewed by u2. *)
Definition fx_merged : DB :=
  fx_db [("u1", mk_user_row "u1" 1 true); ("u2", mk_user_row "u2" 1 true)]
        [("pr-5", mk_pr_row "Already merged" "u1" StatusMerged 0 (Some 0%Z) false)]
        [("pr-5", "u2")].

(** [TestPRService_Reassign_NoCandidates]: u1 alone, author and reviewer of pr-solo. *)
Definition fx_solo : DB :=
  fx_db [("u1", mk_user_row "Solo" 1 true)] [("pr-solo", open_pr "Change" "u1")]
        [("pr-solo", "u1")].

(** The e2e scenario of the spec: u1 writes pr-a, u2 reviews it, and u1
    is u2's only active teammate. *)
Definition fx_author_pool : DB :=
  fx_db [("u1", mk_user_row "author" 1 true); ("u2", mk_user_row "reviewer" 1 true)]
        [("pr-a", open_pr "feature" "u1")] [("pr-a", "u2")].

(** A world on these tables whose store does not fail. *)
Definition fx_world (d : DB) (rk : string -> Z) (draw : nat) (clk : Z) : World :=
  mkWorld d None [] [rk] [draw] clk.

(** The requests of the tests. *)
Definition fx_create_req : dto.CreatePrRequest.t := dto.CreatePrRequest.mk "pr-1" "Add search" "u1".
Definition fx_lone_req : dto.CreatePrRequest.t := dto.CreatePrRequest.mk "pr-2" "Solo change" "u1".
Definition fx_dup_req : dto.CreatePrRequest.t := dto.CreatePrRequest.mk "pr-dup" "New name" "u1".
Definition fx_reassign_req : dto.ReassignPrRequest.t := dto.ReassignPrRequest.mk "pr-4" "u2".
Definition fx_merged_req : dto.ReassignPrRequest.t := dto.ReassignPrRequest.mk "pr-5" "u2".
Definition fx_solo_req : dto.ReassignPrRequest.t := dto.ReassignPrRequest.mk "pr-solo" "u1".
Definition fx_not_assigned_req : dto.ReassignPrRequest.t := dto.ReassignPrRequest.mk "pr-6" "u999".
Definition fx_merge_req : dto.MergePrRequest.t := dto.MergePrRequest.mk "pr-3".
Definition fx_unknown_merge_req : dto.MergePrRequest.t := dto.MergePrRequest.mk "unknown-pr".

(** [tests/unit/team_service_test.go].  [TestTeamService_TeamAdd_CreatesTeamAndMembers]:
    an empty database and the team [backend] with u1 (active) and u2
    (inactive). *)
Definition fx_empty : DB := mkDB ∅ 0 ∅ initial_statuses ∅ [].

Definition fx_backend_req : dto.TeamAddRequest.t :=
  dto.TeamAddRequest.mk "backend"
    [dto.TeamMember.mk "u1" "Misha" true; dto.TeamMember.mk "u2" "Dima" false].

(** [TestTeamService_TeamGet_ReturnsTeamWithMembers]: team 10 [payments]
    with u1 and u2, and u3 in team 99. *)
Definition fx_payments : DB :=
  mkDB (<[10%Z := "payments"]> (<[99%Z := "team-99"]> ∅)) 99
    (list_to_map [("u1", mk_user_row "Alina" 10 true); ("u2", mk_user_row "Roma" 10 false);
                  ("u3", mk_user_row "Gleb" 99 true)])
    initial_statuses ∅ [].

(** [tests/unit/user_service_test.go].  [TestUserService_SetIsActive_UpdatesFlag]:
    u1 (Petya) active in team 1 [backend]. *)
Definition fx_petya : DB :=
  mkDB (<[1%Z := "backend"]> ∅) 1 (<["u1" := mk_user_row "Petya" 1 true]> ∅) initial_statuses ∅ [].

(** [TestUserService_GetReviewPRs_MapsStatuses]: u1 reviews pr1 (open,
    by a1) and pr2 (merged, by a2); pr1 is the newer. *)
Definition fx_review : DB :=
  fx_db [("u1", mk_user_row "u1" 1 true); ("a1", mk_user_row "a1" 1 true);
         ("a2", mk_user_row "a2" 1 true)]
        [("pr1", mk_pr_row "Otkrytyj PR" "a1" StatusOpen 2 None false);
         ("pr2", mk_pr_row "Smerzhennyj PR" "a2" StatusMerged 1 (Some 1%Z) false)]
        [("pr1", "u1"); ("pr2", "u1")].
