(* ===== verification/TeamService.v ===== *)
(** * TeamService: [service/team_service.go]

    [TeamAdd] creates a team and upserts its members inside
    [Tx.WithinTx]; the closure assigns the enclosing [teamRow], which the
    body here returns (see [TxManager] in [Repo]).  [TeamGet] reads the
    team by name and lists its members with [Users.ListByTeam], a method
    the [UserRepo] interface does not declare: it is a parameter of
    [TeamGet] here, and no theorem depends on it, because
    [TeamRepo.GetByName] fails before it is reached.

    The theorems are proved against the repository contracts of [Repo]
    ([TeamRepoOk], [UserRepoOk]) with the [PgTxManager]: what [TeamAdd]
    writes, its duplicate-name error (the team sequence still advances),
    and that [TeamGet] fails on every input; a concrete world shows that
    a failing member upsert leaves the team committed, as in
    [PRService.Create]. *)

From stdpp Require Import base list gmap strings.
From Stdlib Require Import ZArith.
From S2P Require Import Prelude Types Tables Selection Store Prog Repo Fixtures.

Module TeamService.

Record t := mk {
  Teams : TeamRepo.t;
  Users : UserRepo.t;
  Tx : TxManager.t
}.

Definition NewTeamService (teams : TeamRepo.t) (users : UserRepo.t) (tx : TxManager.t) : t :=
  mk teams users tx.

(** The member rows of the request, all in team [teamID]. *)
Definition members_of (req : dto.TeamAddRequest.t) (teamID : Z) : list User.t :=
  (λ m, User.mk (dto.TeamMember.UserID m) (dto.TeamMember.Username m) teamID ""
                (dto.TeamMember.IsActive m)) <$> dto.TeamAddRequest.Members req.

(** The closure of [TeamAdd]: create the team, then upsert the members;
    its result is the final value of [teamRow]. *)
Definition team_add_body (s : t) (req : dto.TeamAddRequest.t) (ctx : Ctx) : prog (res Team.t) :=
  teamRow <- TeamRepo.Create (Teams s) ctx (dto.TeamAddRequest.TeamName req) ;;
  let members := members_of req (Team.ID teamRow) in
  _ <- UserRepo.UpsertTeamMembers (Users s) ctx (Team.ID teamRow) members ;;
  ret teamRow.

Definition TeamAdd (s : t) (ctx : Ctx) (req : dto.TeamAddRequest.t)
    : prog (res dto.TeamAddResponse.t) :=
  teamRow <- TxManager.WithinTx (Tx s) ctx (team_add_body s req) ;;
  let dtoTeam := dto.Team.mk (Team.Name teamRow) (dto.TeamAddRequest.Members req) in
  ret (dto.TeamAddResponse.mk dtoTeam).

Definition TeamGet (s : t) (ListByTeam : Ctx -> Z -> prog (res (list User.t)))
    (ctx : Ctx) (teamName : string) : prog (res dto.Team.t) :=
  teamRow <- TeamRepo.GetByName (Teams s) ctx teamName ;;
  users <- ListByTeam ctx (Team.ID teamRow) ;;
  let members := (λ u, dto.TeamMember.mk (User.ID u) (User.Username u) (User.IsActive u)) <$> users in
  ret (dto.Team.mk (Team.Name teamRow) members).

(** The service as [cmd/main.go] wires it. *)
Definition pg_service : t :=
  NewTeamService (PgTeamRepo.repo pool_db) (PgUserRepo.repo pool_db) PgTxManager.

End TeamService.

(** ** What [TeamAdd] writes *)

(** The users table after the members are upserted one after the other. *)
Definition upsert_rows (us : gmap string user_row) (teamID : Z) (ms : list User.t)
    : gmap string user_row :=
  foldl (λ us m, <[User.ID m := mk_user_row (User.Username m) teamID (User.IsActive m)]> us) us ms.

(** The effect of the closure of [TeamAdd] on the tables. *)
Definition team_add_rows (d : DB) (req : dto.TeamAddRequest.t) : res Team.t * DB :=
  match create_team d (dto.TeamAddRequest.TeamName req) with
  | (Ok tm, d1) =>
      match upsert_members d1 (Team.ID tm) (TeamService.members_of req (Team.ID tm)) with
      | (Ok _, d2) => (Ok tm, d2)
      | (Err e, d2) => (Err e, d2)
      end
  | (Err e, d1) => (Err e, d1)
  end.

Lemma set_users_users d : set_users d d.(users) = d.
Proof. by destruct d. Qed.

Lemma set_users_set_users d us us' : set_users (set_users d us) us' = set_users d us'.
Proof. reflexivity. Qed.

Lemma upsert_members_ok d teamID n ms :
  d.(teams) !! teamID = Some n ->
  upsert_members d teamID ms = (Ok tt, set_users d (upsert_rows d.(users) teamID ms)).
Proof.
  revert d. induction ms as [|m ms IH]; intros d Ht; simpl.
  - by rewrite set_users_users.
  - unfold user_upsert. rewrite bool_decide_false by congruence.
    rewrite IH by done. by rewrite set_users_set_users.
Qed.

Lemma lookup_upsert_rows_notin us teamID ms u :
  u ∉ User.ID <$> ms -> upsert_rows us teamID ms !! u = us !! u.
Proof.
  unfold upsert_rows. revert us. induction ms as [|m ms IH]; intros us Hu; simpl; [done|].
  rewrite fmap_cons, not_elem_of_cons in Hu. destruct Hu as [Hne Hu].
  rewrite IH by done. by rewrite lookup_insert_ne.
Qed.

Lemma lookup_upsert_rows_in us teamID ms u :
  u ∈ User.ID <$> ms -> ∃ nm a, upsert_rows us teamID ms !! u = Some (mk_user_row nm teamID a).
Proof.
  unfold upsert_rows. revert us. induction ms as [|m ms IH]; intros us Hu; simpl.
  { by apply not_elem_of_nil in Hu. }
  destruct (decide (u ∈ User.ID <$> ms)) as [Hin|Hnin]; [by apply IH|].
  rewrite fmap_cons in Hu. apply elem_of_cons in Hu as [->|Hu]; [|done].
  fold (upsert_rows (<[User.ID m := mk_user_row (User.Username m) teamID (User.IsActive m)]> us)
          teamID ms).
  rewrite lookup_upsert_rows_notin by done. rewrite lookup_insert_eq. eauto.
Qed.

Lemma lookup_upsert_rows_nodup us teamID ms m :
  NoDup (User.ID <$> ms) -> m ∈ ms ->
  upsert_rows us teamID ms !! User.ID m = Some (mk_user_row (User.Username m) teamID (User.IsActive m)).
Proof.
  unfold upsert_rows. revert us. induction ms as [|m' ms IH]; intros us Hnd Hm; simpl.
  { by apply not_elem_of_nil in Hm. }
  rewrite fmap_cons, NoDup_cons in Hnd. destruct Hnd as [Hnin Hnd].
  apply elem_of_cons in Hm as [->|Hm]; [|by apply IH].
  fold (upsert_rows (<[User.ID m' := mk_user_row (User.Username m') teamID (User.IsActive m')]> us)
          teamID ms).
  rewrite lookup_upsert_rows_notin by done. by rewrite lookup_insert_eq.
Qed.

Lemma members_of_ids req teamID :
  User.ID <$> TeamService.members_of req teamID = dto.TeamMember.UserID <$> dto.TeamAddRequest.Members req.
Proof. unfold TeamService.members_of. rewrite <-list_fmap_compose. done. Qed.

(** The team row [TeamRepo.Create] inserts when the name is new: the
    next value of the sequence, unused by the invariant. *)
Lemma create_team_fresh d teamName :
  (∀ i, d.(teams) !! i ≠ Some teamName) ->
  create_team d teamName =
    (Ok (Team.mk (d.(team_seq) + 1) teamName),
     mkDB (<[(d.(team_seq) + 1)%Z := teamName]> d.(teams)) (d.(team_seq) + 1)
       d.(users) d.(pr_statuses) d.(prs) d.(reviewers)).
Proof.
  intros Hfresh. unfold create_team, team_insert. rewrite bool_decide_false; [done|].
  intros ([i n] & Heq & Hin)%list_elem_of_fmap. simpl in Heq. subst n.
  rewrite elem_of_map_to_list in Hin. by apply (Hfresh i).
Qed.

Lemma create_team_taken d teamName i :
  d.(teams) !! i = Some teamName ->
  create_team d teamName =
    (Err ErrTeamExists,
     mkDB d.(teams) (d.(team_seq) + 1) d.(users) d.(pr_statuses) d.(prs) d.(reviewers)).
Proof.
  intros Hi. unfold create_team, team_insert. rewrite bool_decide_true; [done|].
  apply list_elem_of_fmap. exists (i, teamName). split; [done|]. by rewrite elem_of_map_to_list.
Qed.

(** ** [TeamAdd] and [TeamGet] against the repository contracts *)

Section engine.
Context (teamRepo : TeamRepo.t) `{!TeamRepoOk teamRepo} (userRepo : UserRepo.t) `{!UserRepoOk userRepo}.

Local Abbreviation svc := (TeamService.NewTeamService teamRepo userRepo PgTxManager).

Lemma team_add_body_run req c w :
  w_faults w = [] ->
  run (TeamService.team_add_body svc req c) w =
    ((team_add_rows (w_db w) req).1, set_db w (team_add_rows (w_db w) req).2).
Proof.
  intros Hf. unfold TeamService.team_add_body, team_add_rows. cbn [TeamService.Teams TeamService.Users TeamService.NewTeamService].
  rewrite run_bindE, TeamCreate_ok by done.
  destruct (create_team (w_db w) _) as [[tm|e] d1]; cbn [fst snd]; [|done].
  rewrite run_bindE, UpsertTeamMembers_ok by done. cbn [w_db set_db].
  destruct (upsert_members d1 _ _) as [[[]|e] d2]; cbn [fst snd]; [|done].
  rewrite run_ret. unfold set_db. by cbn.
Qed.

(** [TeamAdd] in a world whose store does not fail: the effect of its
    closure, committed statement by statement. *)
Lemma TeamAdd_run ctx req w :
  w_faults w = [] -> w_tx w = None ->
  run (TeamService.TeamAdd svc ctx req) w =
    match team_add_rows (w_db w) req with
    | (Ok tm, d') =>
        (Ok (dto.TeamAddResponse.mk (dto.Team.mk (Team.Name tm) (dto.TeamAddRequest.Members req))),
         set_db w d')
    | (Err e, d') => (Err e, set_db w d')
    end.
Proof.
  intros Hf Htx. unfold TeamService.TeamAdd. cbn [TeamService.Tx TeamService.NewTeamService
    TxManager.WithinTx PgTxManager].
  rewrite run_bindE, (WithinTx_pool_body _ _ (λ d, team_add_rows d req)) by
    (done || (intros; by apply team_add_body_run)).
  by destruct (team_add_rows (w_db w) req) as [[tm|e] d'].
Qed.

(** C17: [TeamAdd] with a new team name succeeds and echoes the request;
    the team gets the next id of the sequence, every member ends up in
    it (a user who belonged to another team is moved), with the name and
    flag of the request when the member ids are distinct; no other user,
    PR or reviewer row changes. *)
Theorem TeamAdd_creates_team ctx req d rs ds clk :
  db_wf d -> (∀ i, d.(teams) !! i ≠ Some (dto.TeamAddRequest.TeamName req)) ->
  ∃ w',
    run (TeamService.TeamAdd svc ctx req) (mkWorld d None [] rs ds clk) =
      (Ok (dto.TeamAddResponse.mk
             (dto.Team.mk (dto.TeamAddRequest.TeamName req) (dto.TeamAddRequest.Members req))), w') ∧
    let id := (d.(team_seq) + 1)%Z in
    let members := dto.TeamAddRequest.Members req in
    d.(teams) !! id = None ∧
    (w_db w').(teams) = <[id := dto.TeamAddRequest.TeamName req]> d.(teams) ∧
    (∀ m, m ∈ members -> ∃ nm a,
       (w_db w').(users) !! dto.TeamMember.UserID m = Some (mk_user_row nm id a)) ∧
    (NoDup (dto.TeamMember.UserID <$> members) -> ∀ m, m ∈ members ->
       (w_db w').(users) !! dto.TeamMember.UserID m =
         Some (mk_user_row (dto.TeamMember.Username m) id (dto.TeamMember.IsActive m))) ∧
    (∀ u, u ∉ dto.TeamMember.UserID <$> members -> (w_db w').(users) !! u = d.(users) !! u) ∧
    (w_db w').(prs) = d.(prs) ∧ (w_db w').(reviewers) = d.(reviewers).
Proof.
  intros Hwf Hfresh. rewrite TeamAdd_run by done. cbn [w_db]. unfold team_add_rows.
  rewrite create_team_fresh by done. cbn [Team.ID Team.Name].
  rewrite (upsert_members_ok _ _ (dto.TeamAddRequest.TeamName req)) by (cbn; by rewrite lookup_insert_eq).
  eexists. split; [done|]. cbn [set_db w_db set_users users teams prs reviewers]. split_and!.
  - destruct (teams d !! (team_seq d + 1)%Z) eqn:E; [|done].
    pose proof (wf_team_seq _ Hwf _ _ E). lia.
  - done.
  - intros m Hm. apply lookup_upsert_rows_in. rewrite members_of_ids.
    apply list_elem_of_fmap. by exists m.
  - intros Hnd m Hm.
    apply (lookup_upsert_rows_nodup _ _ _
      (User.mk (dto.TeamMember.UserID m) (dto.TeamMember.Username m) (team_seq d + 1) ""
         (dto.TeamMember.IsActive m))).
    + by rewrite members_of_ids.
    + apply list_elem_of_fmap. by exists m.
  - intros u Hu. apply lookup_upsert_rows_notin. by rewrite members_of_ids.
  - done.
  - done.
Qed.

(** C23: [TeamAdd] with a name already taken fails with [ErrTeamExists]
    and writes no row, but the team id sequence has advanced. *)
Theorem TeamAdd_duplicate ctx req d rs ds clk i :
  d.(teams) !! i = Some (dto.TeamAddRequest.TeamName req) ->
  run (TeamService.TeamAdd svc ctx req) (mkWorld d None [] rs ds clk) =
    (Err ErrTeamExists,
     mkWorld (mkDB d.(teams) (d.(team_seq) + 1) d.(users) d.(pr_statuses) d.(prs) d.(reviewers))
       None [] rs ds clk).
Proof.
  intros Hi. rewrite TeamAdd_run by done. cbn [w_db]. unfold team_add_rows.
  by rewrite (create_team_taken _ _ i).
Qed.

(** [TeamGet] fails on every team name, whatever [ListByTeam] does:
    the query of [GetByName] is rejected by PostgreSQL, so the error is
    never [ErrTeamNotFound] and no team is ever returned. *)
Theorem TeamGet_always_fails ListByTeam ctx teamName w :
  w_faults w = [] ->
  run (TeamService.TeamGet svc ListByTeam ctx teamName) w = (Err (ErrPg undefinedColumnErr), w).
Proof.
  intros Hf. unfold TeamService.TeamGet. cbn [TeamService.Teams TeamService.NewTeamService].
  rewrite run_bindE, GetByName_ok by done. done.
Qed.
End engine.

(** ** On the tables of [tests/unit/team_service_test.go] *)

Open Scope string_scope.

Lemma TeamAdd_creates_team_witness :
  ∃ w',
    run (TeamService.TeamAdd TeamService.pg_service Background fx_backend_req)
        (mkWorld fx_empty None [] [] [] 0) =
      (Ok (dto.TeamAddResponse.mk
             (dto.Team.mk "backend" (dto.TeamAddRequest.Members fx_backend_req))), w') ∧
    (w_db w').(teams) !! 1%Z = Some "backend" ∧
    (w_db w').(users) !! "u1" = Some (mk_user_row "Misha" 1 true) ∧
    (w_db w').(users) !! "u2" = Some (mk_user_row "Dima" 1 false).
Proof.
  destruct (TeamAdd_creates_team (PgTeamRepo.repo pool_db) (PgUserRepo.repo pool_db) Background
              fx_backend_req fx_empty [] [] 0) as (w' & Hrun & _ & Hteams & _ & Hnd & _);
    [by apply (bool_decide_unpack _); vm_compute | by intros i; vm_compute |].
  exists w'. split; [exact Hrun|]. split_and!.
  - rewrite Hteams. reflexivity.
  - apply (Hnd ltac:(by apply (bool_decide_unpack _); vm_compute) (dto.TeamMember.mk "u1" "Misha" true)).
    by left.
  - apply (Hnd ltac:(by apply (bool_decide_unpack _); vm_compute) (dto.TeamMember.mk "u2" "Dima" false)).
    by right; left.
Defined.

Lemma TeamAdd_duplicate_witness :
  run (TeamService.TeamAdd TeamService.pg_service Background
         (dto.TeamAddRequest.mk "payments" [dto.TeamMember.mk "u9" "New" true]))
      (mkWorld fx_payments None [] [] [] 0) =
    (Err ErrTeamExists,
     mkWorld (mkDB fx_payments.(teams) 100 fx_payments.(users) initial_statuses ∅ [])
       None [] [] [] 0).
Proof.
  rewrite (TeamAdd_duplicate (PgTeamRepo.repo pool_db) (PgUserRepo.repo pool_db) _ _ _ _ _ _ 10)
    by reflexivity.
  reflexivity.
Defined.

Lemma TeamGet_always_fails_witness :
  run (TeamService.TeamGet TeamService.pg_service (λ _ _, ret []) Background "payments")
      (mkWorld fx_payments None [] [] [] 0) =
    (Err (ErrPg undefinedColumnErr), mkWorld fx_payments None [] [] [] 0).
Proof. apply (TeamGet_always_fails (PgTeamRepo.repo pool_db) (PgUserRepo.repo pool_db)). reflexivity. Defined.

(** as written (every statement on the pool), a store failure on the
    second member's upsert makes [TeamAdd] fail, yet the team stays
    committed and the first member has already been moved into it. *)
Theorem TeamAdd_not_atomic :
  match run (TeamService.TeamAdd TeamService.pg_service Background
               (dto.TeamAddRequest.mk "backend"
                  [dto.TeamMember.mk "u1" "Misha" true; dto.TeamMember.mk "u2" "Dima" false]))
            (mkWorld fx_payments None [false; false; false; true] [] [] 0) with
  | (Err ErrConn, w') =>
      (w_db w').(teams) !! 100%Z = Some "backend" ∧
      (w_db w').(users) !! "u1" = Some (mk_user_row "Misha" 100 true) ∧
      (w_db w').(users) !! "u2" = Some (mk_user_row "Roma" 10 false)
  | _ => False
  end.
Proof. vm_compute. split_and!; reflexivity. Qed.
