(* ===== verification/UserService.v ===== *)
(** * UserService: [service/user_service.go]

    [SetIsActive] flips a user's flag and returns the user as a DTO;
    [GetReviewPRs] lists the PRs a user reviews, with the status names
    mapped to [dto.PullRequestStatus]; [GetReviewerStats] turns the rows
    of a statistics query into DTOs.  As written, the service calls
    [Users.SetIsActive] and [Users.GetReviewerStats], which [UserRepo]
    does not declare: [SetIsActive] is modelled with the method the
    interface has for it, [SetActive] (same arguments and results), and
    the statistics query is a parameter of [GetReviewerStats].

    The theorems: [SetIsActive] on a known and an unknown user; a user
    it deactivates is never again a candidate of
    [FindActiveInTeamExcept], hence never chosen by [Create] or
    [Reassign]; [GetReviewPRs] returns exactly the PRs the user is
    assigned to, newest first, and for an unknown user an empty list
    rather than an error. *)

From stdpp Require Import base list gmap strings sorting.
From Stdlib Require Import ZArith.
From S2P Require Import Prelude Types Tables Selection Store Prog Repo Fixtures.

Module UserService.

Record t := mk { Users : UserRepo.t }.

Definition NewUserService (users : UserRepo.t) : t := mk users.

Definition SetIsActive (s : t) (ctx : Ctx) (req : dto.SetUserIsActiveRequest.t)
    : prog (res dto.User.t) :=
  u <- UserRepo.SetActive (Users s) ctx (dto.SetUserIsActiveRequest.UserID req)
         (dto.SetUserIsActiveRequest.IsActive req) ;;
  ret (dto.User.mk (User.ID u) (User.Username u) (User.TeamName u) (User.IsActive u)).

(** [switch p.StatusName { case "OPEN": ...; case "MERGED": ...; default: ... }] *)
Definition status_of (name : string) : dto.PullRequestStatus :=
  if decide (name = "OPEN") then dto.PrStatusOpen
  else if decide (name = "MERGED") then dto.PrStatusMerged
  else name.

Definition short_of (p : PullRequestShort.t) : dto.PullRequestShort.t :=
  dto.PullRequestShort.mk (PullRequestShort.ID p) (PullRequestShort.Name p)
    (PullRequestShort.AuthorID p) (status_of (PullRequestShort.StatusName p)).

Definition GetReviewPRs (s : t) (ctx : Ctx) (userID : string)
    : prog (res dto.UserGetReviewResponse.t) :=
  prs <- UserRepo.GetReviewPrs (Users s) ctx userID ;;
  ret (dto.UserGetReviewResponse.mk userID (short_of <$> prs)).

Definition GetReviewerStats (s : t)
    (GetReviewerStatsQuery : Ctx -> prog (res (list ReviewerStatRow.t))) (ctx : Ctx)
    : prog (res dto.ReviewerStatsResponse.t) :=
  rows <- GetReviewerStatsQuery ctx ;;
  let stats := (λ r, dto.ReviewerStat.mk (ReviewerStatRow.Username r) (ReviewerStatRow.ReviewsCount r))
                 <$> rows in
  ret (dto.ReviewerStatsResponse.mk stats).

(** The service as [cmd/main.go] wires it. *)
Definition pg_service : t := NewUserService (PgUserRepo.repo pool_db).

End UserService.

(** The creation time of a PR, when it exists. *)
Definition created_of (d : DB) (prID : string) : option Z := p_created <$> d.(prs) !! prID.

(** ** The order of [GetReviewPrs]'s query *)

#[export] Instance created_desc_trans : Transitive created_desc.
Proof. intros x y z. unfold created_desc. lia. Qed.

#[export] Instance created_desc_total : Total created_desc.
Proof. intros x y. unfold created_desc. lia. Qed.

(** ** The rows of [GetReviewPrs]'s query *)

Lemma review_row_elem d row x :
  review_row d row = Some x ->
  ∃ p, d.(prs) !! row.1 = Some p ∧ x.1 = p_created p ∧ PullRequestShort.ID x.2 = row.1.
Proof.
  unfold review_row. destruct (prs d !! row.1) as [p|] eqn:Ep; simpl; [|done].
  destruct (pr_statuses d !! p_status p); simpl; [|done]. intros [= <-]. by exists p.
Qed.

Lemma review_rows_created d l :
  Forall (λ x, created_of d (PullRequestShort.ID x.2) = Some x.1) (omap (review_row d) l).
Proof.
  apply Forall_forall. intros x (row & _ & Hr)%list_elem_of_omap.
  destruct (review_row_elem _ _ _ Hr) as (p & Hp & -> & ->). unfold created_of. by rewrite Hp.
Qed.

(** Under the invariant every reviewer row joins its PR and status. *)
Lemma review_rows_ids d (l : list (string * string)) :
  db_wf d -> (∀ row, row ∈ l -> row ∈ d.(reviewers)) ->
  (PullRequestShort.ID ∘ snd) <$> omap (review_row d) l = fst <$> l.
Proof.
  intros Hwf. induction l as [|[p r] l IH]; intros Hl; [done|]. simpl.
  destruct (wf_reviewer_pr _ Hwf p r (Hl _ ltac:(by left))) as [row Hrow].
  destruct (wf_pr_status _ Hwf _ _ Hrow) as [sname Hs].
  unfold review_row at 1. simpl. rewrite Hrow. simpl. rewrite Hs. simpl. f_equal.
  apply IH. intros x Hx. apply Hl. by right.
Qed.

Lemma short_of_ids (l : list (Z * PullRequestShort.t)) :
  dto.PullRequestShort.PullRequestID <$> (UserService.short_of <$> (snd <$> l)) =
  (PullRequestShort.ID ∘ snd) <$> l.
Proof. by rewrite <-!list_fmap_compose. Qed.

Lemma set_active_present d userID isActive ur tn :
  d.(users) !! userID = Some ur -> d.(teams) !! u_team ur = Some tn ->
  set_active d userID isActive =
    (Ok (User.mk userID (u_username ur) (u_team ur) tn isActive),
     set_users d (<[userID := mk_user_row (u_username ur) (u_team ur) isActive]> d.(users))).
Proof.
  intros Hu Ht. unfold set_active, user_set_active, join_user. rewrite Hu. simpl. by rewrite Ht.
Qed.

(** A user who does not exist reviews nothing. *)
Lemma user_review_prs_unknown d userID :
  db_wf d -> d.(users) !! userID = None -> user_review_prs d userID = [].
Proof.
  intros Hwf Hu. unfold user_review_prs. rewrite filter_none; [done|].
  intros [p r] Hin Heq. simpl in Heq. subst r.
  destruct (wf_reviewer_user _ Hwf p userID Hin) as [? Hx]. congruence.
Qed.

(** ** The service against the repository contract *)

Section engine.
Context (userRepo : UserRepo.t) `{!UserRepoOk userRepo}.

Local Abbreviation svc := (UserService.NewUserService userRepo).

(** C13: [SetIsActive] of a known user stores the new flag and answers the
    user with its team's name and the new flag; nothing else changes. *)
Theorem SetIsActive_ok ctx userID isActive w ur :
  w_faults w = [] -> db_wf (w_db w) -> (w_db w).(users) !! userID = Some ur ->
  ∃ tn, (w_db w).(teams) !! u_team ur = Some tn ∧
    run (UserService.SetIsActive svc ctx (dto.SetUserIsActiveRequest.mk userID isActive)) w =
      (Ok (dto.User.mk userID (u_username ur) tn isActive),
       set_db w (set_users (w_db w)
         (<[userID := mk_user_row (u_username ur) (u_team ur) isActive]> (w_db w).(users)))).
Proof.
  intros Hf Hwf Hu. destruct (wf_user_team _ Hwf _ _ Hu) as [tn Ht]. exists tn. split; [done|].
  unfold UserService.SetIsActive. cbn [UserService.Users UserService.NewUserService
    dto.SetUserIsActiveRequest.UserID dto.SetUserIsActiveRequest.IsActive].
  rewrite run_bindE, SetActive_ok by done. by rewrite (set_active_present _ _ _ ur tn).
Qed.

(** C22: [SetIsActive] of an unknown user fails with [ErrUserNotFound] and
    changes nothing. *)
Theorem SetIsActive_unknown ctx req w :
  w_faults w = [] -> (w_db w).(users) !! dto.SetUserIsActiveRequest.UserID req = None ->
  run (UserService.SetIsActive svc ctx req) w = (Err ErrUserNotFound, w).
Proof.
  intros Hf Hu. unfold UserService.SetIsActive. cbn [UserService.Users UserService.NewUserService].
  rewrite run_bindE, SetActive_ok by done.
  unfold set_active, user_set_active. rewrite Hu. simpl. by rewrite set_db_w_db.
Qed.

(** C18: once [SetIsActive] has deactivated a user, no draw of the
    candidate query returns that user, for any team and any excluded
    user: [Create] and [Reassign] never choose them. *)
Theorem SetIsActive_deactivated_never_candidate ctx userID w resp w' :
  w_faults w = [] ->
  run (UserService.SetIsActive svc ctx (dto.SetUserIsActiveRequest.mk userID false)) w =
    (Ok resp, w') ->
  ∀ rk teamID ex limit cs, find_active (w_db w') rk teamID ex limit = Ok cs ->
  userID ∉ User.ID <$> cs.
Proof.
  intros Hf Hrun rk teamID ex limit cs Hcs (c & Hid & Hc)%list_elem_of_fmap.
  unfold UserService.SetIsActive in Hrun. cbn [UserService.Users UserService.NewUserService
    dto.SetUserIsActiveRequest.UserID dto.SetUserIsActiveRequest.IsActive] in Hrun.
  rewrite run_bindE, SetActive_ok in Hrun by done.
  unfold set_active, user_set_active, join_user in Hrun.
  destruct (users (w_db w) !! userID) as [ur|]; simpl in Hrun; [|done].
  destruct (teams (w_db w) !! u_team ur); simpl in Hrun; [|done].
  injection Hrun as _ <-. cbn [set_db w_db set_users users] in Hcs.
  destruct (elem_of_eligible _ _ _ c (find_active_eligible _ _ _ _ _ _ Hcs c Hc)) as [Hu _].
  cbn [set_db w_db set_users users] in Hu. rewrite <-Hid, lookup_insert_eq in Hu. by simplify_eq.
Qed.

(** C19: [GetReviewPRs] answers, for the user asked, exactly the PRs the
    user is assigned to review (each once per reviewer row), newest
    first, and leaves the tables unchanged. *)
Theorem GetReviewPRs_lists_assignments ctx userID w :
  w_faults w = [] -> db_wf (w_db w) ->
  ∃ resp, run (UserService.GetReviewPRs svc ctx userID) w = (Ok resp, w) ∧
    dto.UserGetReviewResponse.UserID resp = userID ∧
    let ids := dto.PullRequestShort.PullRequestID <$> dto.UserGetReviewResponse.PullRequests resp in
    ids ≡ₚ fst <$> filter (λ row, row.2 = userID) (w_db w).(reviewers) ∧
    StronglySorted (λ p q, ∀ cp cq, created_of (w_db w) p = Some cp ->
                                    created_of (w_db w) q = Some cq -> (cq ≤ cp)%Z) ids.
Proof.
  intros Hf Hwf. unfold UserService.GetReviewPRs. cbn [UserService.Users UserService.NewUserService].
  rewrite run_bindE, GetReviewPrs_ok by done. eexists. split; [done|]. split; [done|].
  cbn zeta. cbn [dto.UserGetReviewResponse.PullRequests]. unfold user_review_prs.
  rewrite short_of_ids. split.
  - rewrite (merge_sort_Permutation created_desc), review_rows_ids; [done|done|].
    intros row (_ & Hin)%list_elem_of_filter. done.
  - apply (StronglySorted_fmap_weaken created_desc _
             (λ x, created_of (w_db w) (PullRequestShort.ID x.2) = Some x.1)).
    + rewrite (merge_sort_Permutation created_desc). apply review_rows_created.
    + intros a b Ha Hb Hab cp cq. simpl. rewrite Ha, Hb. intros [= <-] [= <-]. exact Hab.
    + apply StronglySorted_merge_sort; apply _.
Qed.

(** [GetReviewPRs] of a user who does not exist answers an empty
    list, not [ErrUserNotFound]. *)
Theorem GetReviewPRs_unknown_user ctx userID w :
  w_faults w = [] -> db_wf (w_db w) -> (w_db w).(users) !! userID = None ->
  run (UserService.GetReviewPRs svc ctx userID) w = (Ok (dto.UserGetReviewResponse.mk userID []), w).
Proof.
  intros Hf Hwf Hu. unfold UserService.GetReviewPRs. cbn [UserService.Users UserService.NewUserService].
  rewrite run_bindE, GetReviewPrs_ok by done. by rewrite user_review_prs_unknown.
Qed.
End engine.

(** ** On the tables of [tests/unit/user_service_test.go] *)

Open Scope string_scope.

Lemma SetIsActive_ok_witness :
  ∃ tn, fx_petya.(teams) !! 1%Z = Some tn ∧
    run (UserService.SetIsActive UserService.pg_service Background
           (dto.SetUserIsActiveRequest.mk "u1" false)) (mkWorld fx_petya None [] [] [] 0) =
      (Ok (dto.User.mk "u1" "Petya" tn false),
       set_db (mkWorld fx_petya None [] [] [] 0)
         (set_users fx_petya (<["u1" := mk_user_row "Petya" 1 false]> fx_petya.(users)))).
Proof.
  apply (SetIsActive_ok (PgUserRepo.repo pool_db) Background "u1" false
           (mkWorld fx_petya None [] [] [] 0) (mk_user_row "Petya" 1 true));
    [reflexivity | by apply (bool_decide_unpack _); vm_compute | reflexivity].
Defined.

Lemma SetIsActive_unknown_witness :
  run (UserService.SetIsActive UserService.pg_service Background
         (dto.SetUserIsActiveRequest.mk "unknown" true)) (mkWorld fx_petya None [] [] [] 0) =
    (Err ErrUserNotFound, mkWorld fx_petya None [] [] [] 0).
Proof. apply (SetIsActive_unknown (PgUserRepo.repo pool_db)); reflexivity. Defined.

Lemma SetIsActive_deactivated_never_candidate_witness :
  find_active (w_db (snd (run (UserService.SetIsActive UserService.pg_service Background
                                 (dto.SetUserIsActiveRequest.mk "u2" false))
                              (fx_world fx_create (λ _, 0%Z) 0 7))))
    (λ _, 0%Z) 1 "u1" 20 = Ok [User.mk "u3" "Boba" 1 "team-1" true] ∧
  "u2" ∉ User.ID <$> [User.mk "u3" "Boba" 1 "team-1" true].
Proof.
  split; [vm_compute; reflexivity|].
  apply (SetIsActive_deactivated_never_candidate (PgUserRepo.repo pool_db) Background "u2"
           (fx_world fx_create (λ _, 0%Z) 0 7) (dto.User.mk "u2" "Vova" "team-1" false)
           _ ltac:(reflexivity) ltac:(vm_compute; reflexivity) (λ _, 0%Z) 1 "u1" 20).
  vm_compute. reflexivity.
Defined.

Lemma GetReviewPRs_lists_assignments_witness :
  ∃ resp, run (UserService.GetReviewPRs UserService.pg_service Background "u1")
              (mkWorld fx_review None [] [] [] 0) = (Ok resp, mkWorld fx_review None [] [] [] 0) ∧
    dto.UserGetReviewResponse.UserID resp = "u1" ∧
    let ids := dto.PullRequestShort.PullRequestID <$> dto.UserGetReviewResponse.PullRequests resp in
    ids ≡ₚ fst <$> filter (λ row, row.2 = "u1") fx_review.(reviewers) ∧
    StronglySorted (λ p q, ∀ cp cq, created_of fx_review p = Some cp ->
                                    created_of fx_review q = Some cq -> (cq ≤ cp)%Z) ids.
Proof.
  apply (GetReviewPRs_lists_assignments (PgUserRepo.repo pool_db) Background "u1"
           (mkWorld fx_review None [] [] [] 0));
    [reflexivity | by apply (bool_decide_unpack _); vm_compute].
Defined.

Lemma GetReviewPRs_unknown_user_witness :
  run (UserService.GetReviewPRs UserService.pg_service Background "ghost")
      (mkWorld fx_review None [] [] [] 0) =
    (Ok (dto.UserGetReviewResponse.mk "ghost" []), mkWorld fx_review None [] [] [] 0).
Proof.
  apply (GetReviewPRs_unknown_user (PgUserRepo.repo pool_db));
    [reflexivity | by apply (bool_decide_unpack _); vm_compute | reflexivity].
Defined.
