(* ===== verification/PRService.v ===== *)
(** * PRService: the review-assignment engine of [service/pr_service.go]

    [PRService.t] is the Go struct: a [PrRepo], a [UserRepo] and a
    [TxManager].  [Create], [Merge] and [Reassign] are the three handlers,
    each a [prog] that calls the repositories in the order the Go code
    does, with its guards and early returns; [PrToDTO] is the conversion
    to the response.  The theorems are proved for any repositories that
    meet the contracts of [Repo] ([PrRepoOk], [UserRepoOk]), with the
    [PgTxManager], in worlds whose store does not fail; the last part
    instantiates them with the Pg repositories on the tables of the unit
    tests, and shows on concrete worlds where the code departs from the
    spec ([Create_not_atomic]). *)

From stdpp Require Import base list gmap strings sorting.
From Stdlib Require Import ZArith.
From S2P Require Import Prelude Types Tables Selection Store Prog Repo Fixtures.

Module PRService.

Record t := mk {
  PRs : PrRepo.t;
  Users : UserRepo.t;
  Tx : TxManager.t
}.

Definition NewPRService (prs : PrRepo.t) (users : UserRepo.t) (tx : TxManager.t) : t :=
  mk prs users tx.

Definition PrToDTO (pr : PullRequest.t) (reviewers : list string) : dto.PullRequest.t :=
  let status :=
    if decide (PullRequest.StatusID pr = StatusOpen) then dto.PrStatusOpen
    else if decide (PullRequest.StatusID pr = StatusMerged) then dto.PrStatusMerged
    else "UNKNOWN" in
  dto.PullRequest.mk (PullRequest.ID pr) (PullRequest.Name pr) (PullRequest.AuthorID pr)
    status reviewers (Some (PullRequest.CreatedAt pr)) (PullRequest.MergedAt pr).

(** The row [Create] inserts. *)
Definition new_pr_row (req : dto.CreatePrRequest.t) (now : Z) : PullRequest.t :=
  PullRequest.mk (dto.CreatePrRequest.PullRequestID req) (dto.CreatePrRequest.PullRequestName req)
    (dto.CreatePrRequest.AuthorID req) StatusOpen "" now None.

(** The transaction body of [Create]: insert the PR, then its reviewers. *)
Definition create_tx_body (s : t) (prRow : PullRequest.t) (reviewerIDs : list string)
    (ctx : Ctx) : prog (res unit) :=
  _ <- PrRepo.Insert (PRs s) ctx prRow ;;
  _ <- PrRepo.AddReviewers (PRs s) ctx (PullRequest.ID prRow) reviewerIDs ;;
  ret tt.

Definition Create (s : t) (ctx : Ctx) (req : dto.CreatePrRequest.t)
    : prog (res dto.CreatePrResponse.t) :=
  exists' <- PrRepo.Exists (PRs s) ctx (dto.CreatePrRequest.PullRequestID req) ;;
  if exists' then fail ErrTeamExists else
  author <- UserRepo.GetByID (Users s) ctx (dto.CreatePrRequest.AuthorID req) ;;
  candidates <- UserRepo.FindActiveInTeamExcept (Users s) ctx
                  (User.TeamID author) (User.ID author) 2 ;;
  let reviewerIDs := User.ID <$> candidates in
  now <- time_now ;;
  let prRow := new_pr_row req now in
  _ <- TxManager.WithinTx (Tx s) ctx (create_tx_body s prRow reviewerIDs) ;;
  got <- PrRepo.GetWithReviewers (PRs s) ctx (PullRequest.ID prRow) ;;
  ret (dto.CreatePrResponse.mk (PrToDTO got.1 got.2)).

Definition Merge (s : t) (ctx : Ctx) (req : dto.MergePrRequest.t)
    : prog (res dto.MergePullRequestResponse.t) :=
  now <- time_now ;;
  prRow <- PrRepo.SetMerged (PRs s) ctx (dto.MergePrRequest.PullRequestID req) now ;;
  got <- PrRepo.GetWithReviewers (PRs s) ctx (dto.MergePrRequest.PullRequestID req) ;;
  ret (dto.MergePullRequestResponse.mk (PrToDTO prRow got.2)).

(** [for _, r := range reviewers { if r == req.OldUserID { found = true; break } }] *)
Definition found_in (oldID : string) (reviewers : list string) : bool :=
  existsb (λ r, bool_decide (r = oldID)) reviewers.

(** The candidates not already reviewing: the [exclude] set and the loop
    that skips its members. *)
Definition possible_of (reviewers : list string) (candidates : list User.t) : list string :=
  let exclude : gset string := list_to_set reviewers in
  filter (λ id, id ∉ exclude) (User.ID <$> candidates).

Definition Reassign (s : t) (ctx : Ctx) (req : dto.ReassignPrRequest.t)
    : prog (res dto.ReassignPrResponse.t) :=
  let prID := dto.ReassignPrRequest.PullRequestID req in
  let oldID := dto.ReassignPrRequest.OldUserID req in
  got <- PrRepo.GetWithReviewers (PRs s) ctx prID ;;
  let '(prRow, reviewers) := got in
  if decide (PullRequest.StatusID prRow = StatusMerged) then fail ErrPRMerged else
  if negb (found_in oldID reviewers) then fail ErrReviewerNotSet else
  oldUser <- UserRepo.GetByID (Users s) ctx oldID ;;
  candidates <- UserRepo.FindActiveInTeamExcept (Users s) ctx
                  (User.TeamID oldUser) (User.ID oldUser) 20 ;;
  let possible := possible_of reviewers candidates in
  if decide (length possible = 0%nat) then fail ErrNoCandidate else
  i <- rand_Intn (length possible) ;;
  let newID := nth i possible "" in
  _ <- PrRepo.ReplaceReviewer (PRs s) ctx prID oldID newID ;;
  got' <- PrRepo.GetWithReviewers (PRs s) ctx prID ;;
  ret (dto.ReassignPrResponse.mk (PrToDTO got'.1 got'.2) newID).

(** The service as [cmd/main.go] wires it. *)
Definition pg_service : t :=
  NewPRService (PgPrRepo.repo pool_db) (PgUserRepo.repo pool_db) PgTxManager.

End PRService.

(** The repositories as [cmd/main.go] builds them, on the pool. *)
Definition pg_prs : PrRepo.t := PgPrRepo.repo pool_db.
Definition pg_users : UserRepo.t := PgUserRepo.repo pool_db.

(** ** What [Create] writes *)

(** The effect of the transaction body of [Create] on the tables. *)
Definition create_rows (d : DB) (prRow : PullRequest.t) (rids : list string) : res unit * DB :=
  match pr_insert d prRow false with
  | (Ok _, d1) =>
      match add_reviewer_rows d1 (PullRequest.ID prRow) rids with
      | (Ok _, d2) => (Ok tt, d2)
      | (Err e, d2) => (Err e, d2)
      end
  | (Err e, d1) => (Err e, d1)
  end.

(** The tables after a successful [Create]: the new row, then one
    reviewer row per selected candidate, appended in selection order. *)
Definition create_db (d : DB) (prRow : PullRequest.t) (rids : list string) : DB :=
  set_reviewers
    (set_prs d (<[PullRequest.ID prRow :=
       mk_pr_row (PullRequest.Name prRow) (PullRequest.AuthorID prRow)
         (PullRequest.StatusID prRow) (PullRequest.CreatedAt prRow)
         (PullRequest.MergedAt prRow) false]> d.(prs)))
    (d.(reviewers) ++ (pair (PullRequest.ID prRow) <$> rids)).

Lemma add_reviewer_rows_fresh d p rids :
  is_Some (d.(prs) !! p) -> Forall (λ r, is_Some (d.(users) !! r)) rids -> NoDup rids ->
  (∀ r, r ∈ rids -> (p, r) ∉ d.(reviewers)) ->
  add_reviewer_rows d p rids = (Ok tt, set_reviewers d (d.(reviewers) ++ (pair p <$> rids))).
Proof.
  revert d. induction rids as [|r rids IH]; intros d Hp Hus Hnd Hfresh; simpl.
  - rewrite app_nil_r. by destruct d.
  - apply Forall_cons in Hus as [Hu Hus]. apply NoDup_cons in Hnd as [Hnin Hnd].
    unfold reviewer_insert. rewrite !bool_decide_false.
    + rewrite IH; simpl; [|done|done|done|].
      * by rewrite <-app_assoc.
      * intros r' Hr'. rewrite elem_of_app, list_elem_of_singleton.
        intros [Hin|[= ->]]; [|done]. by apply (Hfresh r'); [right|].
    + by apply not_eq_None_Some.
    + by apply not_eq_None_Some.
    + apply Hfresh. left.
Qed.

Lemma reviewers_of_absent d p : db_wf d -> d.(prs) !! p = None -> reviewers_of d p = [].
Proof.
  intros Hwf Hp. unfold reviewers_of. rewrite filter_none; [done|].
  intros [p' r] Hin Heq. simpl in *. subst.
  destruct (wf_reviewer_pr _ Hwf p r Hin) as [? Hs]. congruence.
Qed.

Lemma create_rows_fresh d prRow rids :
  db_wf d -> d.(prs) !! PullRequest.ID prRow = None ->
  is_Some (d.(users) !! PullRequest.AuthorID prRow) ->
  PullRequest.StatusID prRow = StatusOpen ->
  Forall (λ r, is_Some (d.(users) !! r)) rids -> NoDup rids ->
  create_rows d prRow rids = (Ok tt, create_db d prRow rids).
Proof.
  intros Hwf Hp Ha Hs Hus Hnd. unfold create_rows, pr_insert, pr_exists.
  rewrite Hp, (bool_decide_false (is_Some None)) by (by intros [? ?]).
  rewrite bool_decide_false by (by apply not_eq_None_Some).
  rewrite bool_decide_false by (by rewrite Hs, (wf_statuses _ Hwf)).
  rewrite add_reviewer_rows_fresh; [done|..]; simpl.
  - by rewrite lookup_insert_eq.
  - done.
  - done.
  - intros r _ Hin. destruct (wf_reviewer_pr _ Hwf _ _ Hin) as [? Hx]. congruence.
Qed.

Lemma rows_of_pair (p : string) (rids : list string) :
  snd <$> filter (λ row : string * string, row.1 = p) (pair p <$> rids) = rids.
Proof. induction rids as [|r rids IH]; [done|]. simpl. rewrite filter_cons_True; simpl; by f_equal. Qed.

Lemma reviewers_of_create d prRow rids :
  db_wf d -> d.(prs) !! PullRequest.ID prRow = None ->
  reviewers_of (create_db d prRow rids) (PullRequest.ID prRow) = rids.
Proof.
  intros Hwf Hp. pose proof (reviewers_of_absent d _ Hwf Hp) as Hnone.
  unfold reviewers_of in *. simpl. by rewrite filter_app, fmap_app, Hnone, rows_of_pair.
Qed.

Lemma get_with_reviewers_create d req clk rids :
  db_wf d -> d.(prs) !! dto.CreatePrRequest.PullRequestID req = None ->
  get_with_reviewers (create_db d (PRService.new_pr_row req clk) rids)
    (dto.CreatePrRequest.PullRequestID req) =
  Ok (PullRequest.mk (dto.CreatePrRequest.PullRequestID req)
        (dto.CreatePrRequest.PullRequestName req) (dto.CreatePrRequest.AuthorID req)
        StatusOpen "OPEN" clk None, rids).
Proof.
  intros Hwf Hp. unfold get_with_reviewers.
  rewrite (reviewers_of_create d (PRService.new_pr_row req clk)) by done.
  unfold pr_select, create_db. simpl.
  rewrite lookup_insert_eq. simpl. by rewrite (wf_statuses _ Hwf), initial_statuses_open.
Qed.

(** The row [Merge] leaves: status [MERGED], [merged_at] kept if set. *)
Definition merged_row (row : pr_row) (t : Z) : pr_row :=
  mk_pr_row (p_name row) (p_author row) StatusMerged (p_created row)
    (match p_merged row with Some m => Some m | None => Some t end) (p_need_more row).

Lemma set_merged_present d prID row t :
  db_wf d -> d.(prs) !! prID = Some row ->
  set_merged d prID t =
    (Ok (PullRequest.mk prID (p_name row) (p_author row) StatusMerged "MERGED"
           (p_created row) (p_merged (merged_row row t))),
     set_prs d (<[prID := merged_row row t]> d.(prs))).
Proof.
  intros Hwf Hp. unfold set_merged, pr_set_merged. rewrite Hp.
  rewrite (wf_statuses _ Hwf), bool_decide_false by (by rewrite initial_statuses_merged).
  unfold status_name. simpl. rewrite (wf_statuses _ Hwf), initial_statuses_merged. done.
Qed.

Lemma merged_row_wf d prID row t :
  db_wf d -> d.(prs) !! prID = Some row ->
  db_wf (set_prs d (<[prID := merged_row row t]> d.(prs))).
Proof.
  intros Hwf Hp. pose proof (pr_set_merged_wf d Hwf StatusMerged t prID) as H.
  unfold pr_set_merged in H. rewrite Hp, (wf_statuses _ Hwf) in H.
  by rewrite bool_decide_false in H by (by rewrite initial_statuses_merged).
Qed.

Lemma merged_row_idem row t1 t2 : merged_row (merged_row row t1) t2 = merged_row row t1.
Proof. unfold merged_row. simpl. by destruct (p_merged row). Qed.

(** ** What [Reassign] reads and writes *)

Lemma found_in_spec oldID reviewers : PRService.found_in oldID reviewers = bool_decide (oldID ∈ reviewers).
Proof.
  unfold PRService.found_in. apply eq_bool_prop_intro.
  rewrite Is_true_true, existsb_exists, bool_decide_spec, list_elem_of_In.
  split; [intros (r & Hin & ?%bool_decide_eq_true); by subst|].
  intros Hin. exists oldID. split; [done|]. by apply bool_decide_eq_true.
Qed.

Lemma elem_of_possible reviewers candidates x :
  x ∈ PRService.possible_of reviewers candidates <-> x ∈ User.ID <$> candidates ∧ x ∉ reviewers.
Proof.
  unfold PRService.possible_of. rewrite list_elem_of_filter, elem_of_list_to_set. tauto.
Qed.

Lemma pr_select_present d prID row :
  db_wf d -> d.(prs) !! prID = Some row ->
  ∃ sname, pr_select d prID =
    Ok (PullRequest.mk prID (p_name row) (p_author row) (p_status row) sname
          (p_created row) (p_merged row)).
Proof.
  intros Hwf Hp. unfold pr_select. rewrite Hp.
  destruct (wf_pr_status _ Hwf _ _ Hp) as [sname ->]. by exists sname.
Qed.

Lemma get_with_reviewers_present d prID row :
  db_wf d -> d.(prs) !! prID = Some row ->
  ∃ sname, get_with_reviewers d prID =
    Ok (PullRequest.mk prID (p_name row) (p_author row) (p_status row) sname
          (p_created row) (p_merged row), reviewers_of d prID).
Proof.
  intros Hwf Hp. destruct (pr_select_present _ _ _ Hwf Hp) as [sname Hs].
  exists sname. unfold get_with_reviewers. by rewrite Hs.
Qed.

Lemma pr_select_set_reviewers d rs prID : pr_select (set_reviewers d rs) prID = pr_select d prID.
Proof. reflexivity. Qed.

(** The [UPDATE] of [ReplaceReviewer] seen from one PR. *)
Definition swap_reviewer (oldID newID r : string) : string :=
  if decide (r = oldID) then newID else r.

Lemma reviewers_of_replace d p o n :
  reviewers_of (set_reviewers d ((λ row, if decide (row = (p, o)) then (p, n) else row)
                                 <$> d.(reviewers))) p =
  swap_reviewer o n <$> reviewers_of d p.
Proof.
  unfold reviewers_of. simpl. induction (reviewers d) as [|[a b] rows IH]; [done|].
  simpl. unfold swap_reviewer in *. case_decide as Hab; simplify_eq/=.
  - rewrite !filter_cons_True by done. simpl. rewrite decide_True by done. by f_equal.
  - rewrite !filter_cons. case_decide; simpl; [|done]. subst.
    rewrite decide_False; [f_equal; exact IH|]. intros ->. by apply Hab.
Qed.

Lemma replace_reviewer_row_ok d p o n :
  o ∈ reviewers_of d p -> n ∉ reviewers_of d p -> is_Some (d.(users) !! n) ->
  replace_reviewer_row d p o n =
    (Ok tt, set_reviewers d ((λ row, if decide (row = (p, o)) then (p, n) else row)
                             <$> d.(reviewers))).
Proof.
  intros Ho Hn Hu. unfold reviewers_of in Ho, Hn.
  apply list_elem_of_fmap in Ho as ([p' o'] & Heq & (Hp' & Hin)%list_elem_of_filter).
  simpl in Heq, Hp'. subst p' o'.
  unfold replace_reviewer_row, replace_reviewer.
  assert (length (filter (λ row, row = (p, o)) d.(reviewers)) ≠ 0%nat) as Hhits.
  { intros Hl%nil_length_inv. by apply (filter_nil_not_elem_of _ _ (p, o) Hl). }
  rewrite decide_False by done.
  rewrite bool_decide_false.
  2: { intros [_ Hpn]. apply Hn, list_elem_of_fmap. exists (p, n).
       by rewrite list_elem_of_filter. }
  rewrite bool_decide_false by (by apply not_eq_None_Some).
  rewrite decide_False by lia. done.
Qed.

(** ** The engine against the repository contracts *)

Section engine.
Context (prRepo : PrRepo.t) `{!PrRepoOk prRepo} (userRepo : UserRepo.t) `{!UserRepoOk userRepo}.

Lemma create_tx_body_run tx prRow rids c w :
  w_faults w = [] ->
  run (PRService.create_tx_body (PRService.NewPRService prRepo userRepo tx) prRow rids c) w =
    ((create_rows (w_db w) prRow rids).1, set_db w (create_rows (w_db w) prRow rids).2).
Proof.
  intros Hf. unfold PRService.create_tx_body, create_rows. simpl.
  rewrite run_bindE, Insert_ok by done.
  destruct (pr_insert (w_db w) prRow false) as [[[]|e] d1]; simpl; [|done].
  rewrite run_bindE, AddReviewers_ok by done. simpl.
  by destruct (add_reviewer_rows d1 (PullRequest.ID prRow) rids) as [[[]|e] d2].
Qed.

(** [Create] when the id is new and the author exists: the PR row and
    one reviewer row per candidate the query returned are written, and
    the response carries exactly those candidates. *)
Lemma Create_run ctx req d rk rs ds clk u cs :
  db_wf d ->
  pr_exists d (dto.CreatePrRequest.PullRequestID req) = false ->
  get_user d (dto.CreatePrRequest.AuthorID req) = Ok u ->
  find_active d rk (User.TeamID u) (User.ID u) 2 = Ok cs ->
  run (PRService.Create (PRService.NewPRService prRepo userRepo PgTxManager) ctx req)
      (mkWorld d None [] (rk :: rs) ds clk) =
  (Ok (dto.CreatePrResponse.mk
         (PRService.PrToDTO
            (PullRequest.mk (dto.CreatePrRequest.PullRequestID req)
               (dto.CreatePrRequest.PullRequestName req) (dto.CreatePrRequest.AuthorID req)
               StatusOpen "OPEN" clk None)
            (User.ID <$> cs))),
   mkWorld (create_db d (PRService.new_pr_row req clk) (User.ID <$> cs)) None [] rs ds clk).
Proof.
  intros Hwf Hex Hu Hcs. unfold PRService.Create.
  cbn [PRService.PRs PRService.Users PRService.Tx PRService.NewPRService
       TxManager.WithinTx PgTxManager].
  rewrite run_bindE, Exists_ok by done. cbn [w_db]. rewrite Hex. cbn iota.
  rewrite run_bindE, GetByID_ok by done. cbn [w_db]. rewrite Hu. cbn beta iota.
  rewrite run_bindE, (@FindActiveInTeamExcept_ok _ _ ctx _ _ _ _ rk rs) by done.
  cbn [w_db]. rewrite Hcs. cbn beta iota zeta.
  rewrite run_bindE. cbn [run time_now w_clock]. cbn beta iota zeta.
  rewrite run_bindE, (WithinTx_pool_body _ _ (λ d, create_rows d _ _)) by
    (done || (intros; by apply create_tx_body_run)).
  cbn [w_db w_tx w_intn]. pose proof (get_user_ok _ _ _ Hu) as (ur & Hur & Hid & _).
  assert (Hp : prs d !! dto.CreatePrRequest.PullRequestID req = None).
  { unfold pr_exists in Hex. apply bool_decide_eq_false in Hex. by apply eq_None_not_Some. }
  rewrite create_rows_fresh; try done.
  - cbn [fst snd]. rewrite run_bindE, GetWithReviewers_ok by done. cbn [set_db w_db].
    by rewrite get_with_reviewers_create.
  - rewrite Forall_fmap, Forall_forall. intros c Hc.
    destruct (elem_of_eligible _ _ _ c (find_active_eligible _ _ _ _ _ _ Hcs c Hc)) as [Hc' _].
    simpl. rewrite Hc'. by eexists.
  - by apply (find_active_nodup d rk (User.TeamID u) (User.ID u) 2).
Qed.

(** [Create] with an id that already exists returns [ErrTeamExists]
    (not [ErrPRExists]) and changes nothing. *)
Theorem Create_duplicate ctx req w :
  w_faults w = [] -> pr_exists (w_db w) (dto.CreatePrRequest.PullRequestID req) = true ->
  run (PRService.Create (PRService.NewPRService prRepo userRepo PgTxManager) ctx req) w =
    (Err ErrTeamExists, w).
Proof.
  intros Hf Hex. unfold PRService.Create. cbn [PRService.PRs PRService.NewPRService].
  rewrite run_bindE, Exists_ok by done. by rewrite Hex.
Qed.

(** C7: [Create] with an unknown author fails with [ErrUserNotFound]
    and writes nothing. *)
Theorem Create_unknown_author ctx req w :
  w_faults w = [] -> pr_exists (w_db w) (dto.CreatePrRequest.PullRequestID req) = false ->
  (w_db w).(users) !! dto.CreatePrRequest.AuthorID req = None ->
  run (PRService.Create (PRService.NewPRService prRepo userRepo PgTxManager) ctx req) w =
    (Err ErrUserNotFound, w).
Proof.
  intros Hf Hex Hu. unfold PRService.Create. cbn [PRService.PRs PRService.Users PRService.NewPRService].
  rewrite run_bindE, Exists_ok by done. rewrite Hex. cbn iota.
  rewrite run_bindE, GetByID_ok by done. unfold get_user, user_get. by rewrite Hu.
Qed.

(** [Merge] of an existing PR. *)
Lemma Merge_run ctx req d tx rs ds clk row :
  db_wf d -> d.(prs) !! dto.MergePrRequest.PullRequestID req = Some row ->
  run (PRService.Merge (PRService.NewPRService prRepo userRepo PgTxManager) ctx req)
      (mkWorld d tx [] rs ds clk) =
  (Ok (dto.MergePullRequestResponse.mk
         (PRService.PrToDTO
            (PullRequest.mk (dto.MergePrRequest.PullRequestID req) (p_name row) (p_author row)
               StatusMerged "MERGED" (p_created row) (p_merged (merged_row row clk)))
            (reviewers_of d (dto.MergePrRequest.PullRequestID req)))),
   mkWorld (set_prs d (<[dto.MergePrRequest.PullRequestID req := merged_row row clk]> d.(prs)))
     tx [] rs ds clk).
Proof.
  intros Hwf Hp. unfold PRService.Merge. cbn [PRService.PRs PRService.NewPRService].
  rewrite run_bindE. cbn [run time_now w_clock].
  rewrite run_bindE, SetMerged_ok by done. cbn [w_db].
  rewrite (set_merged_present _ _ row) by done. cbn [fst snd].
  rewrite run_bindE, GetWithReviewers_ok by done.
  unfold get_with_reviewers, pr_select. simpl.
  rewrite lookup_insert_eq. simpl. by rewrite (wf_statuses _ Hwf), initial_statuses_merged.
Qed.

(** C6: [Merge] of an unknown PR fails with [ErrPRNotFound] and changes
    nothing. *)
Theorem Merge_not_found ctx req w :
  w_faults w = [] -> (w_db w).(prs) !! dto.MergePrRequest.PullRequestID req = None ->
  run (PRService.Merge (PRService.NewPRService prRepo userRepo PgTxManager) ctx req) w =
    (Err ErrPRNotFound, w).
Proof.
  intros Hf Hp. unfold PRService.Merge. cbn [PRService.PRs PRService.NewPRService].
  rewrite run_bindE. cbn [run time_now].
  rewrite run_bindE, SetMerged_ok by done. unfold set_merged, pr_set_merged.
  rewrite Hp. simpl. by rewrite set_db_w_db.
Qed.

(** The guards of [Reassign], in the order the code checks them. *)

(** C9: [Reassign] of an unknown PR fails with [ErrPRNotFound] and
    changes nothing. *)
Theorem Reassign_not_found ctx req w :
  w_faults w = [] -> (w_db w).(prs) !! dto.ReassignPrRequest.PullRequestID req = None ->
  run (PRService.Reassign (PRService.NewPRService prRepo userRepo PgTxManager) ctx req) w =
    (Err ErrPRNotFound, w).
Proof.
  intros Hf Hp. unfold PRService.Reassign. cbn [PRService.PRs PRService.NewPRService].
  rewrite run_bindE, GetWithReviewers_ok by done.
  unfold get_with_reviewers, pr_select. by rewrite Hp.
Qed.

(** C5: [Reassign] on a merged PR fails with [ErrPRMerged] and changes
    nothing. *)
Theorem Reassign_merged ctx req w row :
  w_faults w = [] -> db_wf (w_db w) ->
  (w_db w).(prs) !! dto.ReassignPrRequest.PullRequestID req = Some row ->
  p_status row = StatusMerged ->
  run (PRService.Reassign (PRService.NewPRService prRepo userRepo PgTxManager) ctx req) w =
    (Err ErrPRMerged, w).
Proof.
  intros Hf Hwf Hp Hs. unfold PRService.Reassign. cbn [PRService.PRs PRService.NewPRService].
  rewrite run_bindE, GetWithReviewers_ok by done.
  destruct (get_with_reviewers_present _ _ _ Hwf Hp) as [sname ->]. cbn iota beta.
  by rewrite decide_True.
Qed.

(** C10: [Reassign] of a user who is not a reviewer of an open PR fails
    with [ErrReviewerNotSet] and changes nothing. *)
Theorem Reassign_not_assigned ctx req w row :
  w_faults w = [] -> db_wf (w_db w) ->
  (w_db w).(prs) !! dto.ReassignPrRequest.PullRequestID req = Some row ->
  p_status row ≠ StatusMerged ->
  dto.ReassignPrRequest.OldUserID req ∉ reviewers_of (w_db w) (dto.ReassignPrRequest.PullRequestID req) ->
  run (PRService.Reassign (PRService.NewPRService prRepo userRepo PgTxManager) ctx req) w =
    (Err ErrReviewerNotSet, w).
Proof.
  intros Hf Hwf Hp Hs Hold. unfold PRService.Reassign. cbn [PRService.PRs PRService.NewPRService].
  rewrite run_bindE, GetWithReviewers_ok by done.
  destruct (get_with_reviewers_present _ _ _ Hwf Hp) as [sname ->]. cbn iota beta.
  rewrite decide_False by done. by rewrite found_in_spec, bool_decide_false.
Qed.

(** [Reassign] with no candidate left. *)
Lemma Reassign_no_candidate_run ctx req d tx rk rs ds clk row ou cs :
  db_wf d ->
  d.(prs) !! dto.ReassignPrRequest.PullRequestID req = Some row ->
  p_status row ≠ StatusMerged ->
  dto.ReassignPrRequest.OldUserID req ∈ reviewers_of d (dto.ReassignPrRequest.PullRequestID req) ->
  get_user d (dto.ReassignPrRequest.OldUserID req) = Ok ou ->
  find_active d rk (User.TeamID ou) (User.ID ou) 20 = Ok cs ->
  PRService.possible_of (reviewers_of d (dto.ReassignPrRequest.PullRequestID req)) cs = [] ->
  run (PRService.Reassign (PRService.NewPRService prRepo userRepo PgTxManager) ctx req)
      (mkWorld d tx [] (rk :: rs) ds clk) =
    (Err ErrNoCandidate, mkWorld d tx [] rs ds clk).
Proof.
  intros Hwf Hp Hs Hold Hou Hcs Hposs.
  destruct (get_with_reviewers_present _ _ _ Hwf Hp) as [sname Hg].
  unfold PRService.Reassign. cbn [PRService.PRs PRService.Users PRService.NewPRService].
  rewrite run_bindE, GetWithReviewers_ok by done. cbn [w_db]. rewrite Hg. cbn iota beta zeta.
  rewrite decide_False by done. rewrite found_in_spec, bool_decide_true by done. cbn [negb].
  rewrite run_bindE, GetByID_ok by done. cbn [w_db]. rewrite Hou. cbn iota beta.
  rewrite run_bindE, (@FindActiveInTeamExcept_ok _ _ ctx _ _ _ _ rk rs) by done.
  cbn [w_db]. rewrite Hcs. cbn iota beta zeta. rewrite Hposs. done.
Qed.

(** C32: [Reassign] with no candidate left outside the current
    reviewers fails with [ErrNoCandidate] and leaves the tables as they were. *)
Theorem Reassign_no_candidate ctx req d tx rk rs ds clk row ou cs :
  db_wf d ->
  d.(prs) !! dto.ReassignPrRequest.PullRequestID req = Some row ->
  p_status row ≠ StatusMerged ->
  dto.ReassignPrRequest.OldUserID req ∈ reviewers_of d (dto.ReassignPrRequest.PullRequestID req) ->
  get_user d (dto.ReassignPrRequest.OldUserID req) = Ok ou ->
  find_active d rk (User.TeamID ou) (User.ID ou) 20 = Ok cs ->
  PRService.possible_of (reviewers_of d (dto.ReassignPrRequest.PullRequestID req)) cs = [] ->
  let r := run (PRService.Reassign (PRService.NewPRService prRepo userRepo PgTxManager) ctx req)
               (mkWorld d tx [] (rk :: rs) ds clk) in
  r.1 = Err ErrNoCandidate ∧ w_db r.2 = d.
Proof.
  intros Hwf Hp Hs Hold Hou Hcs Hnil. cbn zeta.
  by rewrite (Reassign_no_candidate_run ctx req d tx rk rs ds clk row ou cs).
Qed.

(** [Reassign] past its guards: the draw [x] of [rand.Intn] picks the
    new reviewer among the candidates, the one row of the old reviewer
    is rewritten, and the response is re-read from the tables. *)
Lemma Reassign_run ctx req d tx rk rs x xs clk row ou cs :
  db_wf d ->
  d.(prs) !! dto.ReassignPrRequest.PullRequestID req = Some row ->
  p_status row ≠ StatusMerged ->
  dto.ReassignPrRequest.OldUserID req ∈ reviewers_of d (dto.ReassignPrRequest.PullRequestID req) ->
  get_user d (dto.ReassignPrRequest.OldUserID req) = Ok ou ->
  find_active d rk (User.TeamID ou) (User.ID ou) 20 = Ok cs ->
  PRService.possible_of (reviewers_of d (dto.ReassignPrRequest.PullRequestID req)) cs ≠ [] ->
  ∃ sname,
  run (PRService.Reassign (PRService.NewPRService prRepo userRepo PgTxManager) ctx req)
      (mkWorld d tx [] (rk :: rs) (x :: xs) clk) =
    let prID := dto.ReassignPrRequest.PullRequestID req in
    let oldID := dto.ReassignPrRequest.OldUserID req in
    let possible := PRService.possible_of (reviewers_of d prID) cs in
    let newID := nth (x mod length possible) possible "" in
    (Ok (dto.ReassignPrResponse.mk
           (PRService.PrToDTO
              (PullRequest.mk prID (p_name row) (p_author row) (p_status row) sname
                 (p_created row) (p_merged row))
              (swap_reviewer oldID newID <$> reviewers_of d prID)) newID),
     mkWorld (set_reviewers d ((λ r, if decide (r = (prID, oldID)) then (prID, newID) else r)
                               <$> d.(reviewers))) tx [] rs xs clk).
Proof.
  intros Hwf Hp Hs Hold Hou Hcs Hposs.
  destruct (pr_select_present _ _ _ Hwf Hp) as [sname Hsel]. exists sname.
  assert (Hg : get_with_reviewers d (dto.ReassignPrRequest.PullRequestID req) =
    Ok (PullRequest.mk (dto.ReassignPrRequest.PullRequestID req) (p_name row) (p_author row)
          (p_status row) sname (p_created row) (p_merged row),
        reviewers_of d (dto.ReassignPrRequest.PullRequestID req))).
  { unfold get_with_reviewers. by rewrite Hsel. }
  unfold PRService.Reassign. cbn [PRService.PRs PRService.Users PRService.NewPRService].
  rewrite run_bindE, GetWithReviewers_ok by done. cbn [w_db]. rewrite Hg. cbn iota beta zeta.
  rewrite decide_False by done. rewrite found_in_spec, bool_decide_true by done. cbn [negb].
  rewrite run_bindE, GetByID_ok by done. cbn [w_db]. rewrite Hou. cbn iota beta.
  rewrite run_bindE, (@FindActiveInTeamExcept_ok _ _ ctx _ _ _ _ rk rs) by done.
  cbn [w_db]. rewrite Hcs. cbn iota beta zeta.
  rewrite decide_False by (intros Hl%nil_length_inv; by apply Hposs).
  rewrite run_bindE. cbn [run rand_Intn pop_intn w_intn]. cbn iota beta zeta.
  rewrite run_bindE, ReplaceReviewer_ok by done. cbn [w_db].
  pose proof (nth_mod_elem_of _ x "" Hposs) as [Hin Hnot]%elem_of_possible.
  rewrite replace_reviewer_row_ok; [|done|done|].
  - cbn [fst snd]. rewrite run_bindE, GetWithReviewers_ok by done. cbn [set_db w_db].
    unfold get_with_reviewers at 1. rewrite pr_select_set_reviewers, Hsel.
    by rewrite reviewers_of_replace.
  - apply list_elem_of_fmap in Hin as (c & -> & Hc).
    destruct (elem_of_eligible _ _ _ c (find_active_eligible _ _ _ _ _ _ Hcs c Hc)) as [Hc' _].
    rewrite Hc'. by eexists.
Qed.

(** ** The spec's properties of the engine *)

Lemma get_user_row d id ur :
  db_wf d -> d.(users) !! id = Some ur ->
  ∃ tn, get_user d id = Ok (User.mk id (u_username ur) (u_team ur) tn (u_active ur)).
Proof.
  intros Hwf Hu. destruct (wf_user_team _ Hwf _ _ Hu) as [tn Ht]. exists tn.
  unfold get_user, user_get, join_user. rewrite Hu. simpl. by rewrite Ht.
Qed.

Lemma find_active_total d rk teamID ex (limit : Z) :
  (0 ≤ limit)%Z -> ∃ cs, find_active d rk teamID ex limit = Ok cs.
Proof. intros Hl. unfold find_active. rewrite decide_False by lia. by eexists. Qed.

(** C1: Creation assigns distinct active teammates of the author, never the
    author, as many as [min 2 (eligible teammates)]. *)
Corollary Create_assigns_teammates ctx req d rk rs ds clk ur :
  db_wf d ->
  d.(prs) !! dto.CreatePrRequest.PullRequestID req = None ->
  d.(users) !! dto.CreatePrRequest.AuthorID req = Some ur ->
  ∃ resp w',
    run (PRService.Create (PRService.NewPRService prRepo userRepo PgTxManager) ctx req)
        (mkWorld d None [] (rk :: rs) ds clk) = (Ok resp, w') ∧
    let revs := dto.PullRequest.AssignedReviewers (dto.CreatePrResponse.PR resp) in
    dto.PullRequest.Status (dto.CreatePrResponse.PR resp) = dto.PrStatusOpen ∧
    option_map p_status ((w_db w').(prs) !! dto.CreatePrRequest.PullRequestID req) =
      Some StatusOpen ∧
    reviewers_of (w_db w') (dto.CreatePrRequest.PullRequestID req) = revs ∧
    NoDup revs ∧
    length revs = (2 `min` length (eligible d (u_team ur) (dto.CreatePrRequest.AuthorID req)))%nat ∧
    ∀ r, r ∈ revs -> r ≠ dto.CreatePrRequest.AuthorID req ∧
      ∃ nm, d.(users) !! r = Some (mk_user_row nm (u_team ur) true).
Proof.
  intros Hwf Hp Hu. destruct (get_user_row _ _ _ Hwf Hu) as [tn Hg].
  destruct (find_active_total d rk (u_team ur) (dto.CreatePrRequest.AuthorID req) 2) as [cs Hcs];
    [lia|].
  rewrite (Create_run ctx req d rk rs ds clk _ cs Hwf) by
    (done || (unfold pr_exists; rewrite Hp; by apply bool_decide_false; intros [? ?])).
  eexists _, _. split; [done|]. cbn zeta.
  cbn [dto.CreatePrResponse.PR PRService.PrToDTO dto.PullRequest.AssignedReviewers
       dto.PullRequest.Status PullRequest.StatusID]. split_and!.
  - by rewrite decide_True.
  - unfold create_db, set_reviewers, set_prs. cbn [w_db prs]. by rewrite lookup_insert_eq.
  - cbn [w_db]. by rewrite (reviewers_of_create d (PRService.new_pr_row req clk)).
  - by apply (find_active_nodup _ _ _ _ _ _ Hcs).
  - rewrite length_fmap. by apply (find_active_length _ _ _ _ _ _ Hcs).
  - intros r (c & -> & Hc)%list_elem_of_fmap.
    destruct (elem_of_eligible _ _ _ c (find_active_eligible _ _ _ _ _ _ Hcs c Hc))
      as (Hc' & _ & _ & Hne & _).
    split; [done|]. by eexists.
Qed.

(** C4: Merging twice: the second call, whatever the clock says then,
    leaves [merged_at] as the first call set it and reports it. *)
Corollary Merge_keeps_merged_at ctx req d tx rs ds clk1 clk2 row :
  db_wf d -> d.(prs) !! dto.MergePrRequest.PullRequestID req = Some row ->
  let svc := PRService.NewPRService prRepo userRepo PgTxManager in
  let w1 := snd (run (PRService.Merge svc ctx req) (mkWorld d tx [] rs ds clk1)) in
  let r2 := run (PRService.Merge svc ctx req) (set_clock w1 clk2) in
  ∃ resp2, fst r2 = Ok resp2 ∧
    dto.PullRequest.MergedAt (dto.MergePullRequestResponse.PR resp2) =
      p_merged (merged_row row clk1) ∧
    (w_db (snd r2)).(prs) !! dto.MergePrRequest.PullRequestID req = Some (merged_row row clk1).
Proof.
  intros Hwf Hp svc w1 r2. subst svc w1 r2.
  pose proof (merged_row_wf d _ row clk1 Hwf Hp) as Hwf1.
  rewrite (Merge_run _ _ _ _ _ _ _ row) by done. cbn [fst snd].
  unfold set_clock. cbn [w_db w_tx w_faults w_rand w_intn w_clock].
  rewrite (Merge_run ctx req _ _ _ _ _ (merged_row row clk1)); [|done|unfold set_prs; cbn [prs]; by rewrite lookup_insert_eq].
  rewrite merged_row_idem. cbn. eexists. split; [done|]. split; [done|].
  unfold set_prs. cbn [prs]. by rewrite lookup_insert_eq.
Qed.

(** C3: Merging an existing PR marks it [MERGED] in the table and in the
    response, sets [merged_at] to the clock unless it was set, reports
    the reviewers as stored and leaves them unchanged. *)
Corollary Merge_marks_merged ctx req d tx rs ds clk row :
  db_wf d -> d.(prs) !! dto.MergePrRequest.PullRequestID req = Some row ->
  ∃ resp w',
    run (PRService.Merge (PRService.NewPRService prRepo userRepo PgTxManager) ctx req)
        (mkWorld d tx [] rs ds clk) = (Ok resp, w') ∧
    let pr := dto.MergePullRequestResponse.PR resp in
    dto.PullRequest.Status pr = dto.PrStatusMerged ∧
    dto.PullRequest.MergedAt pr = Some (default clk (p_merged row)) ∧
    dto.PullRequest.AssignedReviewers pr = reviewers_of d (dto.MergePrRequest.PullRequestID req) ∧
    option_map p_status ((w_db w').(prs) !! dto.MergePrRequest.PullRequestID req) =
      Some StatusMerged ∧
    (w_db w').(reviewers) = d.(reviewers).
Proof.
  intros Hwf Hp. rewrite (Merge_run _ _ _ _ _ _ _ row) by done.
  eexists _, _. split; [done|]. cbn zeta.
  cbn [dto.MergePullRequestResponse.PR PRService.PrToDTO dto.PullRequest.Status
       dto.PullRequest.MergedAt dto.PullRequest.AssignedReviewers PullRequest.StatusID
       PullRequest.MergedAt w_db]. split_and!.
  - by rewrite decide_False, decide_True.
  - unfold merged_row. by destruct (p_merged row).
  - done.
  - unfold set_prs. cbn [prs]. by rewrite lookup_insert_eq.
  - done.
Qed.

(** C2: Reassignment replaces exactly the old reviewer, by a user who was
    not reviewing, is not the old reviewer, and is an active member of
    the old reviewer's team; the number of reviewers does not change. *)
Corollary Reassign_replaces_one ctx req d tx rk rs x xs clk row our cs :
  db_wf d ->
  d.(prs) !! dto.ReassignPrRequest.PullRequestID req = Some row ->
  p_status row ≠ StatusMerged ->
  dto.ReassignPrRequest.OldUserID req ∈ reviewers_of d (dto.ReassignPrRequest.PullRequestID req) ->
  d.(users) !! dto.ReassignPrRequest.OldUserID req = Some our ->
  find_active d rk (u_team our) (dto.ReassignPrRequest.OldUserID req) 20 = Ok cs ->
  PRService.possible_of (reviewers_of d (dto.ReassignPrRequest.PullRequestID req)) cs ≠ [] ->
  ∃ resp w',
    run (PRService.Reassign (PRService.NewPRService prRepo userRepo PgTxManager) ctx req)
        (mkWorld d tx [] (rk :: rs) (x :: xs) clk) = (Ok resp, w') ∧
    let oldID := dto.ReassignPrRequest.OldUserID req in
    let newID := dto.ReassignPrResponse.ReplacedBy resp in
    let before := reviewers_of d (dto.ReassignPrRequest.PullRequestID req) in
    let after := dto.PullRequest.AssignedReviewers (dto.ReassignPrResponse.PR resp) in
    (after = swap_reviewer oldID newID <$> before ∧
     reviewers_of (w_db w') (dto.ReassignPrRequest.PullRequestID req) = after ∧
     length after = length before ∧
     (newID ∉ before) ∧ newID ≠ oldID ∧
     ∃ nm, d.(users) !! newID = Some (mk_user_row nm (u_team our) true)).
Proof.
  intros Hwf Hp Hs Hold Hu Hcs Hposs. destruct (get_user_row _ _ _ Hwf Hu) as [tn Hg].
  destruct (Reassign_run ctx req d tx rk rs x xs clk row _ cs Hwf Hp Hs Hold Hg Hcs Hposs)
    as [sname ->].
  eexists _, _. split; [done|]. cbn zeta. cbn [dto.ReassignPrResponse.ReplacedBy
    dto.ReassignPrResponse.PR dto.PullRequest.AssignedReviewers PRService.PrToDTO].
  pose proof (nth_mod_elem_of _ x "" Hposs) as [Hin Hnot]%elem_of_possible.
  apply list_elem_of_fmap in Hin as (c & Hc_id & Hc).
  destruct (elem_of_eligible _ _ _ c (find_active_eligible _ _ _ _ _ _ Hcs c Hc))
    as (Hc' & _ & _ & Hne & _).
  rewrite Hc_id. split_and!; try done.
  - cbn [w_db]. by rewrite reviewers_of_replace.
  - by rewrite length_fmap.
  - by rewrite <-Hc_id.
  - by eexists.
Qed.

(** C26: Every remaining candidate is the one [rand.Intn] picks for some draw. *)
Corollary Reassign_can_choose ctx req d tx rk rs xs clk row ou cs c :
  db_wf d ->
  d.(prs) !! dto.ReassignPrRequest.PullRequestID req = Some row ->
  p_status row ≠ StatusMerged ->
  dto.ReassignPrRequest.OldUserID req ∈ reviewers_of d (dto.ReassignPrRequest.PullRequestID req) ->
  get_user d (dto.ReassignPrRequest.OldUserID req) = Ok ou ->
  find_active d rk (User.TeamID ou) (User.ID ou) 20 = Ok cs ->
  c ∈ PRService.possible_of (reviewers_of d (dto.ReassignPrRequest.PullRequestID req)) cs ->
  ∃ x resp w',
    run (PRService.Reassign (PRService.NewPRService prRepo userRepo PgTxManager) ctx req)
        (mkWorld d tx [] (rk :: rs) (x :: xs) clk) = (Ok resp, w') ∧
    dto.ReassignPrResponse.ReplacedBy resp = c.
Proof.
  intros Hwf Hp Hs Hold Hou Hcs Hc.
  apply list_elem_of_lookup in Hc as Hi. destruct Hi as [i Hi].
  assert (Hposs : PRService.possible_of (reviewers_of d (dto.ReassignPrRequest.PullRequestID req)) cs ≠ [])
    by (intros Hnil; rewrite Hnil in Hc; by apply not_elem_of_nil in Hc).
  exists i. destruct (Reassign_run ctx req d tx rk rs i xs clk row ou cs Hwf Hp Hs Hold Hou Hcs Hposs)
    as [sname ->].
  eexists _, _. split; [done|]. cbn.
  rewrite Nat.mod_small by (by apply lookup_lt_Some in Hi).
  by apply nth_lookup_Some.
Qed.
(** C8: [Reassign] does not exclude the PR's author from the candidates: in
    every store where the PR is open, the replaced user reviews it, and the
    author is an active member of the replaced user's team who is not
    reviewing, some draw of [random()] and [rand.Intn] makes [Reassign]
    succeed with the author as the new reviewer, so the author reviews
    their own PR, against the spec's exclusion invariant. *)
Theorem Reassign_assigns_author ctx req d tx rs xs clk row our anm :
  db_wf d ->
  d.(prs) !! dto.ReassignPrRequest.PullRequestID req = Some row ->
  p_status row ≠ StatusMerged ->
  dto.ReassignPrRequest.OldUserID req ∈ reviewers_of d (dto.ReassignPrRequest.PullRequestID req) ->
  d.(users) !! dto.ReassignPrRequest.OldUserID req = Some our ->
  d.(users) !! p_author row = Some (mk_user_row anm (u_team our) true) ->
  p_author row ≠ dto.ReassignPrRequest.OldUserID req ->
  p_author row ∉ reviewers_of d (dto.ReassignPrRequest.PullRequestID req) ->
  ∃ rk x resp w',
    run (PRService.Reassign (PRService.NewPRService prRepo userRepo PgTxManager) ctx req)
        (mkWorld d tx [] (rk :: rs) (x :: xs) clk) = (Ok resp, w') ∧
    dto.ReassignPrResponse.ReplacedBy resp = p_author row ∧
    p_author row ∈ dto.PullRequest.AssignedReviewers (dto.ReassignPrResponse.PR resp) ∧
    p_author row ∈ reviewers_of (w_db w') (dto.ReassignPrRequest.PullRequestID req).
Proof.
  intros Hwf Hp Hs Hold Hu Ha Hne Hnin.
  destruct (get_user_row _ _ _ Hwf Hu) as [tn Hg].
  destruct (wf_user_team _ Hwf _ _ Hu) as [tn' Ht].
  pose proof (eligible_of_users d (u_team our) _ _ _ _ Ha Hne Ht) as Hel.
  destruct (find_active_can_pick d (u_team our) (dto.ReassignPrRequest.OldUserID req) 20 _
              ltac:(lia) Hel) as [cs Hcs].
  set (possible := PRService.possible_of
                     (reviewers_of d (dto.ReassignPrRequest.PullRequestID req))
                     (User.mk (p_author row) anm (u_team our) tn' true :: cs)).
  assert (Hin : p_author row ∈ possible)
    by (apply elem_of_possible; split; [left|done]).
  destruct (list_elem_of_lookup_1 _ _ Hin) as [i Hi].
  assert (Hposs : possible ≠ []) by (intros Hnil; rewrite Hnil in Hin; set_solver).
  destruct (Reassign_run ctx req d tx _ rs i xs clk row _ _ Hwf Hp Hs Hold Hg Hcs Hposs)
    as [sname Hrun].
  cbn zeta in Hrun. fold possible in Hrun. rewrite Nat.mod_small in Hrun by (by apply lookup_lt_Some in Hi).
  rewrite (nth_lookup_Some _ _ _ _ Hi) in Hrun.
  eexists _, i, _, _. split; [exact Hrun|]. cbn [w_db dto.ReassignPrResponse.ReplacedBy
    dto.ReassignPrResponse.PR dto.PullRequest.AssignedReviewers PRService.PrToDTO].
  rewrite reviewers_of_replace. split_and!; [done| |];
    apply list_elem_of_fmap; exists (dto.ReassignPrRequest.OldUserID req);
    (split; [unfold swap_reviewer; by rewrite decide_True|done]).
Qed.
End engine.

Open Scope string_scope.

(** ** The theorems on the tables of the unit tests

    Each witness applies a theorem to the service as [cmd/main.go] wires
    it ([PgPrRepo], [PgUserRepo] on the pool, [PgTxManager]) and to a
    fixture of [Fixtures], its hypotheses checked by evaluation. *)

Lemma Create_assigns_teammates_witness :
  ∃ resp w',
    run (PRService.Create PRService.pg_service Background fx_create_req)
        (fx_world fx_create (λ _, 0%Z) 0 7) = (Ok resp, w') ∧
    let revs := dto.PullRequest.AssignedReviewers (dto.CreatePrResponse.PR resp) in
    dto.PullRequest.Status (dto.CreatePrResponse.PR resp) = dto.PrStatusOpen ∧
    option_map p_status ((w_db w').(prs) !! "pr-1") = Some StatusOpen ∧
    reviewers_of (w_db w') "pr-1" = revs ∧
    NoDup revs ∧ length revs = (2 `min` length (eligible fx_create 1 "u1"))%nat ∧
    ∀ r, r ∈ revs -> r ≠ "u1" ∧ ∃ nm, fx_create.(users) !! r = Some (mk_user_row nm 1 true).
Proof.
  apply (Create_assigns_teammates pg_prs pg_users Background fx_create_req fx_create
           (λ _, 0%Z) [] [0%nat] 7 (mk_user_row "Serega" 1 true));
    [by apply (bool_decide_unpack _); vm_compute | reflexivity | reflexivity].
Defined.

Lemma Create_run_fixture :
  run (PRService.Create PRService.pg_service Background fx_create_req)
      (fx_world fx_create (λ _, 0%Z) 0 7) =
  (Ok (dto.CreatePrResponse.mk
         (PRService.PrToDTO (PullRequest.mk "pr-1" "Add search" "u1" StatusOpen "OPEN" 7 None)
            ["u3"; "u2"])),
   mkWorld (create_db fx_create (PRService.new_pr_row fx_create_req 7) ["u3"; "u2"])
     None [] [] [0%nat] 7).
Proof.
  apply (Create_run pg_prs pg_users Background fx_create_req fx_create (λ _, 0%Z) [] [0%nat] 7
           (User.mk "u1" "Serega" 1 "team-1" true)
           [User.mk "u3" "Boba" 1 "team-1" true; User.mk "u2" "Vova" 1 "team-1" true]);
    [by apply (bool_decide_unpack _); vm_compute | reflexivity | reflexivity | reflexivity].
Defined.

Lemma Create_duplicate_witness :
  run (PRService.Create PRService.pg_service Background fx_dup_req)
      (fx_world fx_dup (λ _, 0%Z) 0 7) =
  (Err ErrTeamExists, fx_world fx_dup (λ _, 0%Z) 0 7).
Proof. apply (Create_duplicate pg_prs pg_users); reflexivity. Defined.

Lemma Create_unknown_author_witness :
  run (PRService.Create PRService.pg_service Background (dto.CreatePrRequest.mk "pr-9" "x" "ghost"))
      (fx_world fx_create (λ _, 0%Z) 0 7) =
  (Err ErrUserNotFound, fx_world fx_create (λ _, 0%Z) 0 7).
Proof. apply (Create_unknown_author pg_prs pg_users); reflexivity. Defined.

Lemma Merge_run_fixture :
  run (PRService.Merge PRService.pg_service Background fx_merge_req)
      (mkWorld fx_idem None [] [] [] 3) =
  (Ok (dto.MergePullRequestResponse.mk
         (PRService.PrToDTO
            (PullRequest.mk "pr-3" "Feature" "u1" StatusMerged "MERGED" 0 (Some 3%Z))
            (reviewers_of fx_idem "pr-3"))),
   mkWorld (set_prs fx_idem (<["pr-3" := merged_row (open_pr "Feature" "u1") 3]>
                                   fx_idem.(prs))) None [] [] [] 3).
Proof.
  apply (Merge_run pg_prs pg_users Background fx_merge_req fx_idem None [] [] 3
           (open_pr "Feature" "u1"));
    [by apply (bool_decide_unpack _); vm_compute | reflexivity].
Defined.

Lemma Merge_keeps_merged_at_witness :
  let svc := PRService.NewPRService pg_prs pg_users PgTxManager in
  let w1 := snd (run (PRService.Merge svc Background fx_merge_req) (mkWorld fx_idem None [] [] [] 3)) in
  let r2 := run (PRService.Merge svc Background fx_merge_req) (set_clock w1 9) in
  ∃ resp2, fst r2 = Ok resp2 ∧
    dto.PullRequest.MergedAt (dto.MergePullRequestResponse.PR resp2) = Some 3%Z ∧
    (w_db (snd r2)).(prs) !! "pr-3" = Some (merged_row (open_pr "Feature" "u1") 3).
Proof.
  apply (Merge_keeps_merged_at pg_prs pg_users Background fx_merge_req fx_idem None [] [] 3 9
           (open_pr "Feature" "u1"));
    [by apply (bool_decide_unpack _); vm_compute | reflexivity].
Defined.

Lemma Merge_marks_merged_witness :
  ∃ resp w',
    run (PRService.Merge PRService.pg_service Background fx_merge_req)
        (mkWorld fx_idem None [] [] [] 3) = (Ok resp, w') ∧
    let pr := dto.MergePullRequestResponse.PR resp in
    dto.PullRequest.Status pr = dto.PrStatusMerged ∧
    dto.PullRequest.MergedAt pr = Some 3%Z ∧
    dto.PullRequest.AssignedReviewers pr = reviewers_of fx_idem "pr-3" ∧
    option_map p_status ((w_db w').(prs) !! "pr-3") = Some StatusMerged ∧
    (w_db w').(reviewers) = fx_idem.(reviewers).
Proof.
  apply (Merge_marks_merged pg_prs pg_users Background fx_merge_req fx_idem None [] [] 3
           (open_pr "Feature" "u1"));
    [by apply (bool_decide_unpack _); vm_compute | reflexivity].
Defined.

Lemma Merge_not_found_witness :
  run (PRService.Merge PRService.pg_service Background fx_unknown_merge_req)
      (fx_world fx_idem (λ _, 0%Z) 0 7) =
  (Err ErrPRNotFound, fx_world fx_idem (λ _, 0%Z) 0 7).
Proof. apply (Merge_not_found pg_prs pg_users); reflexivity. Defined.

Lemma Reassign_not_found_witness :
  run (PRService.Reassign PRService.pg_service Background (dto.ReassignPrRequest.mk "pr-x" "u2"))
      (fx_world fx_idem (λ _, 0%Z) 0 7) =
  (Err ErrPRNotFound, fx_world fx_idem (λ _, 0%Z) 0 7).
Proof. apply (Reassign_not_found pg_prs pg_users); reflexivity. Defined.

Lemma Reassign_merged_witness :
  run (PRService.Reassign PRService.pg_service Background fx_merged_req)
      (fx_world fx_merged (λ _, 0%Z) 0 7) =
  (Err ErrPRMerged, fx_world fx_merged (λ _, 0%Z) 0 7).
Proof.
  apply (Reassign_merged pg_prs pg_users Background fx_merged_req _
           (mk_pr_row "Already merged" "u1" StatusMerged 0 (Some 0%Z) false));
    [reflexivity | by apply (bool_decide_unpack _); vm_compute | reflexivity | reflexivity].
Defined.

Lemma Reassign_not_assigned_witness :
  run (PRService.Reassign PRService.pg_service Background fx_not_assigned_req)
      (fx_world fx_not_assigned (λ _, 0%Z) 0 7) =
  (Err ErrReviewerNotSet, fx_world fx_not_assigned (λ _, 0%Z) 0 7).
Proof.
  apply (Reassign_not_assigned pg_prs pg_users Background fx_not_assigned_req _
           (open_pr "Reassign error" "author"));
    [reflexivity | by apply (bool_decide_unpack _); vm_compute | reflexivity | done
    | by apply (bool_decide_unpack _); vm_compute].
Defined.

Lemma Reassign_no_candidate_witness :
  let r := run (PRService.Reassign PRService.pg_service Background fx_solo_req)
               (fx_world fx_solo (λ _, 0%Z) 0 7) in
  r.1 = Err ErrNoCandidate ∧ w_db r.2 = fx_solo.
Proof.
  apply (Reassign_no_candidate pg_prs pg_users Background fx_solo_req fx_solo None (λ _, 0%Z) []
           [0%nat] 7 (open_pr "Change" "u1") (User.mk "u1" "Solo" 1 "team-1" true) []);
    [by apply (bool_decide_unpack _); vm_compute | reflexivity | done
    | by apply (bool_decide_unpack _); vm_compute | reflexivity | reflexivity | reflexivity].
Defined.

Lemma Reassign_run_fixture :
  ∃ sname,
  run (PRService.Reassign PRService.pg_service Background fx_reassign_req)
      (fx_world fx_reassign (λ _, 0%Z) 0 7) =
    let possible := PRService.possible_of (reviewers_of fx_reassign "pr-4")
                      [User.mk "u3" "Jeka" 1 "team-1" true] in
    let newID := nth (0 mod length possible) possible "" in
    (Ok (dto.ReassignPrResponse.mk
           (PRService.PrToDTO (PullRequest.mk "pr-4" "Reassign me" "u1" StatusOpen sname 0 None)
              (swap_reviewer "u2" newID <$> reviewers_of fx_reassign "pr-4")) newID),
     mkWorld (set_reviewers fx_reassign
                ((λ r, if decide (r = ("pr-4", "u2")) then ("pr-4", newID) else r)
                 <$> fx_reassign.(reviewers))) None [] [] [] 7).
Proof.
  apply (Reassign_run pg_prs pg_users Background fx_reassign_req fx_reassign None (λ _, 0%Z) []
           0 [] 7 (open_pr "Reassign me" "u1") (User.mk "u2" "Vitya" 1 "team-1" true)
           [User.mk "u3" "Jeka" 1 "team-1" true]);
    [by apply (bool_decide_unpack _); vm_compute | reflexivity | done
    | by apply (bool_decide_unpack _); vm_compute | reflexivity | reflexivity | done].
Defined.

Lemma Reassign_replaces_one_witness :
  ∃ resp w',
    run (PRService.Reassign PRService.pg_service Background fx_reassign_req)
        (fx_world fx_reassign (λ _, 0%Z) 0 7) = (Ok resp, w') ∧
    let newID := dto.ReassignPrResponse.ReplacedBy resp in
    let before := reviewers_of fx_reassign "pr-4" in
    let after := dto.PullRequest.AssignedReviewers (dto.ReassignPrResponse.PR resp) in
    (after = swap_reviewer "u2" newID <$> before ∧
     reviewers_of (w_db w') "pr-4" = after ∧ length after = length before ∧
     (newID ∉ before) ∧ newID ≠ "u2" ∧
     ∃ nm, fx_reassign.(users) !! newID = Some (mk_user_row nm 1 true)).
Proof.
  apply (Reassign_replaces_one pg_prs pg_users Background fx_reassign_req fx_reassign None
           (λ _, 0%Z) [] 0 [] 7 (open_pr "Reassign me" "u1") (mk_user_row "Vitya" 1 true)
           [User.mk "u3" "Jeka" 1 "team-1" true]);
    [by apply (bool_decide_unpack _); vm_compute | reflexivity | done
    | by apply (bool_decide_unpack _); vm_compute | reflexivity | reflexivity | done].
Defined.

Lemma Reassign_can_choose_witness :
  ∃ x resp w',
    run (PRService.Reassign PRService.pg_service Background fx_reassign_req)
        (mkWorld fx_reassign None [] [λ _, 0%Z] (x :: []) 7) = (Ok resp, w') ∧
    dto.ReassignPrResponse.ReplacedBy resp = "u3".
Proof.
  apply (Reassign_can_choose pg_prs pg_users Background fx_reassign_req fx_reassign None
           (λ _, 0%Z) [] [] 7 (open_pr "Reassign me" "u1") (User.mk "u2" "Vitya" 1 "team-1" true)
           [User.mk "u3" "Jeka" 1 "team-1" true]);
    [by apply (bool_decide_unpack _); vm_compute | reflexivity | done
    | by apply (bool_decide_unpack _); vm_compute | reflexivity | reflexivity
    | by apply (bool_decide_unpack _); vm_compute].
Defined.

Lemma run_wf_witness :
  db_wf (w_db (snd (run (PRService.Create PRService.pg_service Background fx_create_req)
                        (fx_world fx_create (λ _, 0%Z) 0 7)))).
Proof. apply run_wf. by apply (bool_decide_unpack _); vm_compute. Defined.

Lemma find_active_can_pick_witness :
  ∃ cs, find_active fx_create (rank_first (User.mk "u2" "Vova" 1 "team-1" true)) 1 "u1" 2 =
        Ok (User.mk "u2" "Vova" 1 "team-1" true :: cs).
Proof. apply find_active_can_pick; [lia | by apply (bool_decide_unpack _); vm_compute]. Defined.

(** ** Where the code departs from the spec *)

Lemma Reassign_assigns_author_witness :
  ∃ rk x resp w',
    run (PRService.Reassign PRService.pg_service Background (dto.ReassignPrRequest.mk "pr-a" "u2"))
        (mkWorld fx_author_pool None [] [rk] [x] 5) = (Ok resp, w') ∧
    dto.ReassignPrResponse.ReplacedBy resp = "u1" ∧
    "u1" ∈ dto.PullRequest.AssignedReviewers (dto.ReassignPrResponse.PR resp) ∧
    "u1" ∈ reviewers_of (w_db w') "pr-a".
Proof.
  apply (Reassign_assigns_author pg_prs pg_users Background (dto.ReassignPrRequest.mk "pr-a" "u2")
           fx_author_pool None [] [] 5 (open_pr "feature" "u1") (mk_user_row "reviewer" 1 true)
           "author");
    first [by apply (bool_decide_unpack _); vm_compute | reflexivity | done].
Defined.

(** As written, the statements of [Create]'s transaction go to the pool:
    a store failure on the first reviewer insert makes [Create] fail, yet
    the PR row stays committed without any reviewer. *)
Theorem Create_not_atomic :
  match run (PRService.Create PRService.pg_service Background fx_create_req)
            (mkWorld fx_create None [false; false; false; false; false; true] [λ _, 0%Z] [] 7) with
  | (Err ErrConn, w') => is_Some ((w_db w').(prs) !! "pr-1") ∧ reviewers_of (w_db w') "pr-1" = []
  | _ => False
  end.
Proof. vm_compute. split; [by eexists | reflexivity]. Qed.

