(* ===== verification/Http.v ===== *)
(** * Http: the handlers of [internal/httpapi]

    A handler reads the request, writes one reply and returns.  Here a
    handler is a [prog] that ends in the [reply] it writes: the status
    and either a JSON value, an error body ([writeError]) or text.  The
    request is given as what the handler reads from it: the decoded body
    ([None] when [json.Decoder] with [DisallowUnknownFields] fails; the
    decoding itself is the standard library's and is not modelled), the
    [Authorization] header, a query parameter.  [r.Context()] is the
    background context.

    The message constants [internalError], [rscNotFound] and
    [invalidJSON] are used by the package but declared nowhere; they are
    given texts here that no theorem depends on.  [TeamGet] and
    [StatsReviewerAssignments] take the repository queries the services
    call but [UserRepo] lacks ([ListByTeam], [GetReviewerStats]).
    [reply_wf] is what a client may rely on in every reply; [ret_all]
    of [Prog] carries it through the service calls to every handler. *)

From stdpp Require Import base list gmap strings.
From Stdlib Require Import Ascii String ZArith.
From S2P Require Import Prelude Types GoStrings Validation Tables Selection Store Prog Repo Fixtures TeamService UserService PRService.

Open Scope string_scope.

Module Http.

(** [net/http] status codes. *)
Definition StatusOK : Z := 200.
Definition StatusCreated : Z := 201.
Definition StatusBadRequest : Z := 400.
Definition StatusUnauthorized : Z := 401.
Definition StatusNotFound : Z := 404.
Definition StatusConflict : Z := 409.
Definition StatusInternalServerError : Z := 500.

Inductive payload (A : Type) : Type :=
| Json (a : A)
| ErrorJson (e : dto.ErrorResponse.t)
| Text (s : string).
Arguments Json {A} a.
Arguments ErrorJson {A} e.
Arguments Text {A} s.

Record reply (A : Type) := mkReply { status : Z; body : payload A }.
Arguments mkReply {A} status body.
Arguments status {A} r.
Arguments body {A} r.

(** [helpers.go] *)
Definition writeJSON {A} (st : Z) (v : A) : reply A := mkReply st (Json v).

Definition writeError {A} (st : Z) (code msg : string) : reply A :=
  mkReply st (ErrorJson (dto.ErrorResponse.mk (dto.ErrorBody.mk code msg))).

Definition internalError : string := "internal error".
Definition rscNotFound : string := "resource not found".
Definition invalidJSON : string := "invalid json".

(** [router.go]: the handler and its dependencies. *)
Record Handler := mkHandler {
  TeamSvc : TeamService.t;
  UserSvc : UserService.t;
  PrSvc : PRService.t;
  AdminToken : string
}.

Definition NewHandler (team : TeamService.t) (user : UserService.t) (pr : PRService.t)
    (admToken : string) : Handler :=
  mkHandler team user pr admToken.

(** [decodeJSON]: a body that does not decode answers 400. *)
Definition decodeJSON {A R} (body : option R) (k : R -> prog (reply A)) : prog (reply A) :=
  match body with
  | None => Ret (writeError StatusBadRequest dto.ErrorCodeNotFound invalidJSON)
  | Some req => k req
  end.

(** [requireAdmin]: [None] lets the handler go on; [Some r] is the 401
    reply it has written. *)
Definition requireAdmin {A} (h : Handler) (auth : string) : option (reply A) :=
  if bool_decide (auth = "") || negb (HasPrefix auth "Bearer ") then
    Some (writeError StatusUnauthorized dto.ErrorCodeNotFound rscNotFound)
  else
    let token := TrimSpace (TrimPrefix auth "Bearer ") in
    if bool_decide (token ≠ AdminToken h) then
      Some (writeError StatusUnauthorized dto.ErrorCodeNotFound rscNotFound)
    else None.

(** ** [handlers_pr.go] *)

Definition create_reply (r : res dto.CreatePrResponse.t) : reply dto.CreatePrResponse.t :=
  match r with
  | Ok resp => writeJSON StatusCreated resp
  | Err e =>
      if decide (e = ErrPRExists) then writeError StatusConflict dto.ErrorCodePRExists (Error e)
      else if decide (e = ErrUserNotFound ∨ e = ErrTeamNotFound)
      then writeError StatusNotFound dto.ErrorCodeNotFound (Error e)
      else writeError StatusInternalServerError dto.ErrorCodeNotFound internalError
  end.

Definition PrCreate (h : Handler) (ctx : Ctx) (body : option dto.CreatePrRequest.t)
    : prog (reply dto.CreatePrResponse.t) :=
  decodeJSON body (λ req,
    match ValidateCreatePR req with
    | Some msg => Ret (writeError StatusBadRequest dto.ErrorCodeNotFound msg)
    | None => bind (PRService.Create (PrSvc h) ctx req) (λ r, Ret (create_reply r))
    end).

Definition merge_reply (r : res dto.MergePullRequestResponse.t)
    : reply dto.MergePullRequestResponse.t :=
  match r with
  | Ok resp => writeJSON StatusOK resp
  | Err e =>
      if decide (e = ErrPRNotFound) then writeError StatusNotFound dto.ErrorCodeNotFound (Error e)
      else writeError StatusInternalServerError dto.ErrorCodeNotFound internalError
  end.

Definition MergePR (h : Handler) (ctx : Ctx) (body : option dto.MergePrRequest.t)
    : prog (reply dto.MergePullRequestResponse.t) :=
  decodeJSON body (λ req,
    match ValidateMergePR req with
    | Some msg => Ret (writeError StatusBadRequest dto.ErrorCodeNotFound msg)
    | None => bind (PRService.Merge (PrSvc h) ctx req) (λ r, Ret (merge_reply r))
    end).

Definition reassign_reply (r : res dto.ReassignPrResponse.t) : reply dto.ReassignPrResponse.t :=
  match r with
  | Ok resp => writeJSON StatusOK resp
  | Err e =>
      if decide (e = ErrPRNotFound ∨ e = ErrUserNotFound)
      then writeError StatusNotFound dto.ErrorCodeNotFound (Error e)
      else if decide (e = ErrPRMerged) then writeError StatusConflict dto.ErrorCodePRMerged (Error e)
      else if decide (e = ErrReviewerNotSet)
      then writeError StatusConflict dto.ErrorCodeNotAssigned (Error e)
      else if decide (e = ErrNoCandidate)
      then writeError StatusConflict dto.ErrorCodeNoCandidate (Error e)
      else writeError StatusInternalServerError dto.ErrorCodeNotFound internalError
  end.

Definition PrReassign (h : Handler) (ctx : Ctx) (body : option dto.ReassignPrRequest.t)
    : prog (reply dto.ReassignPrResponse.t) :=
  decodeJSON body (λ req,
    match ValidateReassignPR req with
    | Some msg => Ret (writeError StatusBadRequest dto.ErrorCodeNotFound msg)
    | None => bind (PRService.Reassign (PrSvc h) ctx req) (λ r, Ret (reassign_reply r))
    end).

(** ** [handlers_team.go] *)

Definition team_add_reply (r : res dto.TeamAddResponse.t) : reply dto.TeamAddResponse.t :=
  match r with
  | Ok resp => writeJSON StatusCreated resp
  | Err e =>
      if decide (e = ErrTeamExists) then writeError StatusBadRequest dto.ErrorCodeTeamExists (Error e)
      else writeError StatusInternalServerError dto.ErrorCodeNotFound internalError
  end.

Definition TeamAdd (h : Handler) (ctx : Ctx) (body : option dto.TeamAddRequest.t)
    : prog (reply dto.TeamAddResponse.t) :=
  decodeJSON body (λ req,
    match ValidateTeamAdd req with
    | Some msg => Ret (writeError StatusBadRequest dto.ErrorCodeNotFound msg)
    | None => bind (TeamService.TeamAdd (TeamSvc h) ctx req) (λ r, Ret (team_add_reply r))
    end).

Definition team_get_reply (r : res dto.Team.t) : reply dto.Team.t :=
  match r with
  | Ok team => writeJSON StatusOK team
  | Err e =>
      if decide (e = ErrTeamNotFound) then writeError StatusNotFound dto.ErrorCodeNotFound (Error e)
      else writeError StatusInternalServerError dto.ErrorCodeNotFound internalError
  end.

(** [teamName] is [r.URL.Query().Get("team_name")]. *)
Definition TeamGet (h : Handler) (ListByTeam : Ctx -> Z -> prog (res (list User.t)))
    (ctx : Ctx) (teamName : string) : prog (reply dto.Team.t) :=
  if bool_decide (teamName = "") then Ret (writeError StatusBadRequest dto.ErrorCodeNotFound rscNotFound)
  else bind (TeamService.TeamGet (TeamSvc h) ListByTeam ctx teamName) (λ r, Ret (team_get_reply r)).

(** ** [handlers_user.go] and [handlers_stats.go] *)

Definition user_reply {A} (ok : A -> reply A) (r : res A) : reply A :=
  match r with
  | Ok v => ok v
  | Err e =>
      if decide (e = ErrUserNotFound) then writeError StatusNotFound dto.ErrorCodeNotFound (Error e)
      else writeError StatusInternalServerError dto.ErrorCodeNotFound internalError
  end.

(** [auth] is [r.Header.Get("Authorization")]. *)
Definition UserSetActive (h : Handler) (ctx : Ctx) (auth : string)
    (body : option dto.SetUserIsActiveRequest.t) : prog (reply dto.SetUserIsActiveResponse.t) :=
  match requireAdmin h auth with
  | Some r => Ret r
  | None =>
      decodeJSON body (λ req,
        match ValidateUserSetActive req with
        | Some msg => Ret (writeError StatusBadRequest dto.ErrorCodeNotFound msg)
        | None =>
            bind (UserService.SetIsActive (UserSvc h) ctx req) (λ r,
              Ret (match r with
                   | Ok user => writeJSON StatusOK (dto.SetUserIsActiveResponse.mk user)
                   | Err e => user_reply (writeJSON StatusOK) (Err e)
                   end))
        end)
  end.

(** [userID] is [r.URL.Query().Get("user_id")]. *)
Definition UserGetReview (h : Handler) (ctx : Ctx) (userID : string)
    : prog (reply dto.UserGetReviewResponse.t) :=
  if bool_decide (userID = "") then Ret (writeError StatusBadRequest dto.ErrorCodeNotFound rscNotFound)
  else bind (UserService.GetReviewPRs (UserSvc h) ctx userID)
         (λ r, Ret (user_reply (writeJSON StatusOK) r)).

Definition StatsReviewerAssignments (h : Handler)
    (GetReviewerStatsQuery : Ctx -> prog (res (list ReviewerStatRow.t))) (ctx : Ctx)
    : prog (reply dto.ReviewerStatsResponse.t) :=
  bind (UserService.GetReviewerStats (UserSvc h) GetReviewerStatsQuery ctx) (λ r,
    Ret (match r with
         | Ok resp => writeJSON StatusOK resp
         | Err _ => writeError StatusInternalServerError dto.ErrorCodeNotFound internalError
         end)).

(** [GET /health] *)
Definition Health : reply unit := mkReply StatusOK (Text "ok").

(** ** [router.go]: [http.ServeMux] with one exact pattern per endpoint
    and no method in the patterns. *)

Inductive endpoint :=
| EHealth | ETeamAdd | ETeamGet | EUserSetActive | EUserGetReview
| EPrCreate | EPrMerge | EPrReassign | EStats.

Definition routes : list (string * endpoint) :=
  [("/health", EHealth); ("/team/add", ETeamAdd); ("/team/get", ETeamGet);
   ("/users/setIsActive", EUserSetActive); ("/users/getReview", EUserGetReview);
   ("/pullRequest/create", EPrCreate); ("/pullRequest/merge", EPrMerge);
   ("/pullRequest/reassign", EPrReassign); ("/stats/reviewers", EStats)].

(** The endpoint serving [method path]; the method is not looked at. *)
Definition NewMux (method path : string) : option endpoint :=
  (λ ie : nat * (string * endpoint), ie.2.2) <$> list_find (λ pe, pe.1 = path) routes.

(** The handlers as [cmd/main.go] wires them. *)
Definition pg_handler (admToken : string) : Handler :=
  NewHandler TeamService.pg_service UserService.pg_service PRService.pg_service admToken.

(** ** Well-formed replies

    What the handlers promise a client: a JSON value comes with 200 or
    201, an error body with one of the error statuses and one of the
    codes of [models/dto/error.go], and a 500 carries only the generic
    message [internalError]; the health check answers 200 with text. *)
Definition error_statuses : list Z :=
  [StatusBadRequest; StatusUnauthorized; StatusNotFound; StatusConflict; StatusInternalServerError].

Definition error_codes : list string :=
  [dto.ErrorCodeTeamExists; dto.ErrorCodePRExists; dto.ErrorCodePRMerged;
   dto.ErrorCodeNotAssigned; dto.ErrorCodeNoCandidate; dto.ErrorCodeNotFound].

Definition reply_wf {A} (r : reply A) : Prop :=
  match body r with
  | Json _ => status r = StatusOK ∨ status r = StatusCreated
  | ErrorJson e =>
      status r ∈ error_statuses ∧
      dto.ErrorBody.Code (dto.ErrorResponse.Error e) ∈ error_codes ∧
      (status r = StatusInternalServerError ->
       dto.ErrorBody.Message (dto.ErrorResponse.Error e) = internalError)
  | Text _ => status r = StatusOK
  end.

#[export] Instance reply_wf_dec {A} (r : reply A) : Decision (reply_wf r).
Proof. unfold reply_wf. destruct (body r); apply _. Defined.

End Http.

(** ** The admin token *)

Lemma Bearer_not_empty t : "Bearer " ++ t ≠ "".
Proof. done. Qed.

(** The admin check passes exactly on ["Bearer "] and a string that
    trims to the token. *)
Lemma requireAdmin_None {A} h auth :
  @Http.requireAdmin A h auth = None <->
  ∃ t, auth = "Bearer " ++ t ∧ TrimSpace t = Http.AdminToken h.
Proof.
  unfold Http.requireAdmin. split.
  - intros H. destruct (bool_decide (auth = "")); simpl in H; [done|].
    destruct (HasPrefix auth "Bearer ") eqn:E; simpl in H; [|done].
    apply HasPrefix_spec in E as [t ->]. rewrite TrimPrefix_app in H.
    exists t. split; [done|]. destruct (decide (TrimSpace t = Http.AdminToken h)) as [|Hne]; [done|].
    by rewrite bool_decide_true in H.
  - intros (t & -> & Ht). rewrite bool_decide_false by apply Bearer_not_empty.
    rewrite HasPrefix_app. simpl. rewrite TrimPrefix_app, bool_decide_false; [done|].
    by intros [].
Qed.

Lemma requireAdmin_Some {A} h auth r :
  @Http.requireAdmin A h auth = Some r ->
  r = Http.writeError Http.StatusUnauthorized dto.ErrorCodeNotFound Http.rscNotFound.
Proof.
  unfold Http.requireAdmin.
  destruct (_ || _); [by intros [= <-]|]. case_bool_decide; by intros [= <-].
Qed.

(** C20: [requireAdmin] lets a request through exactly when its
    [Authorization] header is ["Bearer "] followed by a string that
    [strings.TrimSpace] turns into the admin token; every other request
    gets the one reply 401 with the message [rscNotFound]. *)
Theorem requireAdmin_accepts {A} h auth :
  (@Http.requireAdmin A h auth = None <->
   ∃ t, auth = "Bearer " ++ t ∧ TrimSpace t = Http.AdminToken h) ∧
  ∀ r, @Http.requireAdmin A h auth = Some r ->
    r = Http.writeError Http.StatusUnauthorized dto.ErrorCodeNotFound Http.rscNotFound.
Proof. split; [apply requireAdmin_None|apply requireAdmin_Some]. Qed.


(** With a non-empty admin token, a missing header and a bearer token
    made of ASCII spaces are rejected. *)
Lemma requireAdmin_blank {A} h ws :
  Http.AdminToken h ≠ "" -> ascii_spaces ws ->
  @Http.requireAdmin A h "" ≠ None ∧ @Http.requireAdmin A h ("Bearer " ++ ws) ≠ None.
Proof.
  intros Htok Hws. split.
  - by unfold Http.requireAdmin; rewrite bool_decide_true.
  - rewrite requireAdmin_None. intros (t & Ht & Htrim).
    assert (t = ws) as ->.
    { change ("Bearer " ++ ws = "Bearer " ++ t) in Ht. by simplify_eq. }
    rewrite TrimSpace_spaces in Htrim by done. by apply Htok.
Qed.

(** C21: [UserSetActive] checks the token before it reads the body: a
    request the check rejects gets 401, whatever its body (valid,
    invalid or undecodable), and the store is not touched. *)
Theorem UserSetActive_rejects_first h ctx auth body w r :
  Http.requireAdmin h auth = Some r ->
  run (Http.UserSetActive h ctx auth body) w = (r, w) ∧ Http.status r = Http.StatusUnauthorized.
Proof.
  intros Hr. unfold Http.UserSetActive. rewrite Hr. split; [done|].
  unfold Http.requireAdmin in Hr. repeat case_match; simplify_eq/=; done.
Qed.

(** ** The handlers over services that meet the repository contracts *)

(** ** Every handler writes a well-formed reply *)

Lemma writeError_wf {A} st code msg :
  st ∈ Http.error_statuses -> code ∈ Http.error_codes ->
  (st = Http.StatusInternalServerError -> msg = Http.internalError) ->
  Http.reply_wf (@Http.writeError A st code msg).
Proof. done. Qed.

Lemma writeJSON_wf {A} st (v : A) :
  st = Http.StatusOK ∨ st = Http.StatusCreated -> Http.reply_wf (Http.writeJSON st v).
Proof. done. Qed.

Ltac reply_ok :=
  first
    [ apply writeJSON_wf; by (left + right) | reflexivity
    | apply writeError_wf;
        [ by apply (bool_decide_unpack _); vm_compute
        | by apply (bool_decide_unpack _); vm_compute
        | first [by intros ?Hs | intros Hs; vm_compute in Hs; discriminate Hs] ] ].

(** The reply of a service result: one lemma per switch of the handlers. *)
Lemma create_reply_wf r : Http.reply_wf (Http.create_reply r).
Proof. destruct r; simpl; repeat case_decide; reply_ok. Qed.
Lemma merge_reply_wf r : Http.reply_wf (Http.merge_reply r).
Proof. destruct r; simpl; repeat case_decide; reply_ok. Qed.
Lemma reassign_reply_wf r : Http.reply_wf (Http.reassign_reply r).
Proof. destruct r; simpl; repeat case_decide; reply_ok. Qed.
Lemma team_add_reply_wf r : Http.reply_wf (Http.team_add_reply r).
Proof. destruct r; simpl; repeat case_decide; reply_ok. Qed.
Lemma team_get_reply_wf r : Http.reply_wf (Http.team_get_reply r).
Proof. destruct r; simpl; repeat case_decide; reply_ok. Qed.
Lemma user_reply_wf {A} r : Http.reply_wf (@Http.user_reply A (Http.writeJSON Http.StatusOK) r).
Proof. destruct r; simpl; repeat case_decide; reply_ok. Qed.

Lemma requireAdmin_wf {A} h auth r : @Http.requireAdmin A h auth = Some r -> Http.reply_wf r.
Proof. intros ->%requireAdmin_Some. reply_ok. Qed.

(** A handler that decodes, validates with a 400, then answers [g] of
    the service's result. *)
Lemma decode_validate_wf {A R S} (body : option R) (validate : R -> option string)
    (svc : R -> prog S) (g : S -> Http.reply A) :
  (∀ x, Http.reply_wf (g x)) ->
  ret_all Http.reply_wf
    (Http.decodeJSON body (λ req,
       match validate req with
       | Some msg => Ret (Http.writeError Http.StatusBadRequest dto.ErrorCodeNotFound msg)
       | None => bind (svc req) (λ r, Ret (g r))
       end)).
Proof.
  intros Hg. destruct body as [req|]; simpl; [|reply_ok].
  destruct (validate req); simpl; [reply_ok|by apply ret_all_bind_Ret].
Qed.

(** C15: Every handler, whatever the services behind it, the request and
    the store answer, writes a well-formed reply: a JSON value with 200
    or 201, or an error body with an error status and a code of
    [models/dto/error.go], and a 500 never shows more than the generic
    message; the health check answers 200. *)
Theorem handlers_reply_wf h ctx w :
  (∀ body, Http.reply_wf (run (Http.PrCreate h ctx body) w).1) ∧
  (∀ body, Http.reply_wf (run (Http.MergePR h ctx body) w).1) ∧
  (∀ body, Http.reply_wf (run (Http.PrReassign h ctx body) w).1) ∧
  (∀ body, Http.reply_wf (run (Http.TeamAdd h ctx body) w).1) ∧
  (∀ ListByTeam name, Http.reply_wf (run (Http.TeamGet h ListByTeam ctx name) w).1) ∧
  (∀ auth body, Http.reply_wf (run (Http.UserSetActive h ctx auth body) w).1) ∧
  (∀ userID, Http.reply_wf (run (Http.UserGetReview h ctx userID) w).1) ∧
  (∀ stats, Http.reply_wf (run (Http.StatsReviewerAssignments h stats ctx) w).1) ∧
  Http.reply_wf Http.Health.
Proof.
  split_and!; intros; try apply ret_all_run.
  - apply decode_validate_wf, create_reply_wf.
  - apply decode_validate_wf, merge_reply_wf.
  - apply decode_validate_wf, reassign_reply_wf.
  - apply decode_validate_wf, team_add_reply_wf.
  - unfold Http.TeamGet. case_bool_decide; [reply_ok|].
    apply ret_all_bind_Ret, team_get_reply_wf.
  - unfold Http.UserSetActive. destruct (Http.requireAdmin h auth) eqn:Hr.
    + by eapply requireAdmin_wf.
    + apply decode_validate_wf. intros []; [reply_ok|apply user_reply_wf].
  - unfold Http.UserGetReview. case_bool_decide; [reply_ok|].
    apply ret_all_bind_Ret, user_reply_wf.
  - apply ret_all_bind_Ret. intros []; reply_ok.
  - reflexivity.
Qed.

Section handlers.
Context (prRepo : PrRepo.t) `{!PrRepoOk prRepo} (userRepo : UserRepo.t) `{!UserRepoOk userRepo}
  (teamRepo : TeamRepo.t) `{!TeamRepoOk teamRepo}.

Local Abbreviation handler tok :=
  (Http.NewHandler (TeamService.NewTeamService teamRepo userRepo PgTxManager)
     (UserService.NewUserService userRepo) (PRService.NewPRService prRepo userRepo PgTxManager) tok).

(** a valid [POST /pullRequest/create] whose id already exists is
    answered 500 with the generic message and the code [NOT_FOUND] (the
    service's [ErrTeamExists] falls to the default case), not 409
    [PR_EXISTS]; nothing is written. *)
Theorem PrCreate_duplicate_500 tok ctx req w :
  w_faults w = [] -> ValidateCreatePR req = None ->
  pr_exists (w_db w) (dto.CreatePrRequest.PullRequestID req) = true ->
  run (Http.PrCreate (handler tok) ctx (Some req)) w =
    (Http.writeError Http.StatusInternalServerError dto.ErrorCodeNotFound Http.internalError, w).
Proof.
  intros Hf Hv Hex. unfold Http.PrCreate, Http.decodeJSON. rewrite Hv, run_bind.
  unfold PRService.Create. cbn [Http.PrSvc Http.NewHandler PRService.PRs PRService.NewPRService].
  rewrite run_bindE, Exists_ok by done. by rewrite Hex.
Qed.

(** [GET /team/get] with any non-empty [team_name] is answered 500:
    the handler's 200 and 404 replies are unreachable. *)
Theorem TeamGet_handler_500 tok ListByTeam ctx teamName w :
  w_faults w = [] -> teamName ≠ "" ->
  run (Http.TeamGet (handler tok) ListByTeam ctx teamName) w =
    (Http.writeError Http.StatusInternalServerError dto.ErrorCodeNotFound Http.internalError, w).
Proof.
  intros Hf Hne. unfold Http.TeamGet. rewrite bool_decide_false by done. rewrite run_bind.
  unfold TeamService.TeamGet. cbn [Http.TeamSvc Http.NewHandler TeamService.Teams TeamService.NewTeamService].
  rewrite run_bindE, GetByName_ok by done. done.
Qed.

(** C24: [GET /users/getReview] for a user who does not exist is answered
    200 with an empty list, where the spec asks for 404. *)
Theorem UserGetReview_unknown_200 tok ctx userID w :
  w_faults w = [] -> db_wf (w_db w) -> userID ≠ "" -> (w_db w).(users) !! userID = None ->
  run (Http.UserGetReview (handler tok) ctx userID) w =
    (Http.writeJSON Http.StatusOK (dto.UserGetReviewResponse.mk userID []), w).
Proof.
  intros Hf Hwf Hne Hu. unfold Http.UserGetReview. rewrite bool_decide_false by done. rewrite run_bind.
  unfold UserService.GetReviewPRs. cbn [Http.UserSvc Http.NewHandler UserService.Users UserService.NewUserService].
  rewrite run_bindE, GetReviewPrs_ok by done. by rewrite user_review_prs_unknown.
Qed.
End handlers.

(** ** On concrete requests, with the handlers [cmd/main.go] builds *)


Lemma UserSetActive_rejects_first_witness :
  run (Http.UserSetActive (Http.pg_handler "s3cr3t") Background "Bearer wrong" None)
      (mkWorld fx_petya None [] [] [] 0) =
    (Http.writeError Http.StatusUnauthorized dto.ErrorCodeNotFound Http.rscNotFound,
     mkWorld fx_petya None [] [] [] 0) ∧
  Http.status (Http.writeError (A := dto.SetUserIsActiveResponse.t) Http.StatusUnauthorized
                 dto.ErrorCodeNotFound Http.rscNotFound) = Http.StatusUnauthorized.
Proof. apply UserSetActive_rejects_first. reflexivity. Defined.

Lemma PrCreate_duplicate_500_witness :
  run (Http.PrCreate (Http.pg_handler "s3cr3t") Background (Some fx_dup_req))
      (fx_world fx_dup (λ _, 0%Z) 0 7) =
    (Http.writeError Http.StatusInternalServerError dto.ErrorCodeNotFound Http.internalError,
     fx_world fx_dup (λ _, 0%Z) 0 7).
Proof.
  apply (PrCreate_duplicate_500 (PgPrRepo.repo pool_db) (PgUserRepo.repo pool_db)
           (PgTeamRepo.repo pool_db)); reflexivity.
Defined.

Lemma TeamGet_handler_500_witness :
  run (Http.TeamGet (Http.pg_handler "s3cr3t") (λ _ _, ret []) Background "payments")
      (mkWorld fx_payments None [] [] [] 0) =
    (Http.writeError Http.StatusInternalServerError dto.ErrorCodeNotFound Http.internalError,
     mkWorld fx_payments None [] [] [] 0).
Proof.
  apply (TeamGet_handler_500 (PgPrRepo.repo pool_db) (PgUserRepo.repo pool_db)
           (PgTeamRepo.repo pool_db)); [reflexivity | done].
Defined.

Lemma UserGetReview_unknown_200_witness :
  run (Http.UserGetReview (Http.pg_handler "s3cr3t") Background "ghost")
      (mkWorld fx_review None [] [] [] 0) =
    (Http.writeJSON Http.StatusOK (dto.UserGetReviewResponse.mk "ghost" []),
     mkWorld fx_review None [] [] [] 0).
Proof.
  apply (UserGetReview_unknown_200 (PgPrRepo.repo pool_db) (PgUserRepo.repo pool_db)
           (PgTeamRepo.repo pool_db));
    [reflexivity | by apply (bool_decide_unpack _); vm_compute | done | reflexivity].
Defined.

(** [http.ServeMux] patterns name no method: a [GET] reaches the create
    handler, whose body then fails to decode. *)
Example NewMux_ignores_method :
  Http.NewMux "GET" "/pullRequest/create" = Some Http.EPrCreate ∧
  Http.NewMux "DELETE" "/team/add" = Some Http.ETeamAdd.
Proof. split; reflexivity. Qed.
