(* ===== verification/Concurrency.v ===== *)
(** * Concurrency: two requests served at the same time

    [net/http] serves every request on a goroutine of its own and the
    handlers share one [*pgxpool.Pool]; nothing in the code serialises
    them.  A goroutine here is a [prog] with the transaction of its own
    connection, and [step_on] performs its next effect atomically on the
    shared [World] (a PostgreSQL statement is atomic; so are the reads of
    the clock and of [math/rand]).  [interleave sched] runs two goroutines
    in the order the schedule says ([false]: the first, [true]: the
    second) and [run2] lets the first and then the second finish.  The
    schedule [[]] is the serial execution of the two requests.

    The theorems: every interleaving keeps the tables well formed; two
    concurrent [Reassign]s of the same reviewer on the same PR never both
    succeed, whatever the schedule and the store's failures; but two
    concurrent [Reassign]s of two reviewers of one PR can both choose the
    same candidate, and the second then fails with a unique violation,
    which the handler answers 500 where the serial execution answers 200
    twice; and a [Reassign] concurrent with the deactivation of its
    candidate leaves the deactivated user assigned.  Two footprints of
    [Reassign] close the file: it never calls [rand.Intn] with a
    non-positive argument (Go panics there; [run] would answer [0]), and
    it returns within eight effects, so a goroutine serving it finishes
    after eight of its steps in any schedule. *)

From stdpp Require Import base list gmap strings.
From Stdlib Require Import ZArith.
From S2P Require Import Prelude Types Validation Tables Selection Store Prog Repo Fixtures UserService PRService Http.

Open Scope string_scope.

(** ** Goroutines *)

(** The next effect of a program: the program that remains, and the world. *)
Definition step {A} (p : prog A) (w : World) : prog A * World :=
  match p with
  | Ret a => (Ret a, w)
  | Exec t q k => let '(r, w') := exec_at t q w in (k r, w')
  | Now k => (k w.(w_clock), w)
  | Intn n k => let '(x, w') := pop_intn w in (k (x mod n)%nat, w')
  | Begin k => let '(r, w') := begin_tx w in (k r, w')
  | Commit k => let '(r, w') := commit_tx w in (k r, w')
  | Rollback k => let '(r, w') := rollback_tx w in (k r, w')
  end.

(** A goroutine holds its own connection: its transaction is swapped in
    for its step and out again afterwards. *)
Definition step_on {A} (p : prog A) (tx : option tx_state) (w : World)
    : prog A * option tx_state * World :=
  let '(p', w') := step p (set_tx w tx) in (p', w_tx w', set_tx w' (w_tx w)).

(** A goroutine runs to its end alone. *)
Fixpoint run_on {A} (p : prog A) (tx : option tx_state) (w : World)
    : A * option tx_state * World :=
  match p with
  | Ret a => (a, tx, w)
  | Exec t q k =>
      let '(r, w') := exec_at t q (set_tx w tx) in run_on (k r) (w_tx w') (set_tx w' (w_tx w))
  | Now k => run_on (k (w_clock (set_tx w tx))) tx w
  | Intn n k =>
      let '(x, w') := pop_intn (set_tx w tx) in
      run_on (k (x mod n)%nat) (w_tx w') (set_tx w' (w_tx w))
  | Begin k =>
      let '(r, w') := begin_tx (set_tx w tx) in run_on (k r) (w_tx w') (set_tx w' (w_tx w))
  | Commit k =>
      let '(r, w') := commit_tx (set_tx w tx) in run_on (k r) (w_tx w') (set_tx w' (w_tx w))
  | Rollback k =>
      let '(r, w') := rollback_tx (set_tx w tx) in run_on (k r) (w_tx w') (set_tx w' (w_tx w))
  end.

(** Two goroutines, stepped in the order of the schedule. *)
Fixpoint interleave {A B} (sched : list bool) (p : prog A) (tp : option tx_state)
    (q : prog B) (tq : option tx_state) (w : World)
    : prog A * option tx_state * prog B * option tx_state * World :=
  match sched with
  | [] => (p, tp, q, tq, w)
  | false :: s => let '(p', tp', w') := step_on p tp w in interleave s p' tp' q tq w'
  | true :: s => let '(q', tq', w') := step_on q tq w in interleave s p tp q' tq' w'
  end.

(** Two requests served concurrently, each on a fresh connection: the
    schedule, then the rest of the first, then the rest of the second. *)
Definition run2 {A B} (sched : list bool) (p : prog A) (q : prog B) (w : World) : A * B * World :=
  let '(p1, tp, q1, tq, w1) := interleave sched p None q None w in
  let '(a, _, w2) := run_on p1 tp w1 in
  let '(b, _, w3) := run_on q1 tq w2 in
  (a, b, w3).

(** ** Laws of the goroutine semantics *)

Lemma set_tx_set_tx w t t' : set_tx (set_tx w t) t' = set_tx w t'.
Proof. done. Qed.

Lemma w_tx_set_tx w t : w_tx (set_tx w t) = t.
Proof. done. Qed.

Lemma w_db_set_tx w t : w_db (set_tx w t) = w_db w.
Proof. done. Qed.

Create Rewrite HintDb rm_tx.
#[export] Hint Rewrite set_tx_set_tx w_tx_set_tx w_db_set_tx set_tx_w_tx : rm_tx.

(** Performs the effect a goroutine's step begins with. *)
Ltac go_head :=
  match goal with |- context [?f (set_tx ?w0 ?t0)] => destruct (f (set_tx w0 t0)) end.

(** A goroutine alone is the interpreter, on its own connection. *)
Lemma run_on_run {A} (p : prog A) tx w :
  run_on p tx w = let '(a, w') := run p (set_tx w tx) in (a, w_tx w', set_tx w' (w_tx w)).
Proof.
  revert tx w. induction p as [a|R t q k IH|k IH|n k IH|k IH|k IH|k IH]; intros tx w; simpl.
  1: by destruct w.
  2: by rewrite IH.
  all: go_head; rewrite IH; by autorewrite with rm_tx.
Qed.

(** Served one after the other. *)
Lemma run2_serial {A B} (p : prog A) (q : prog B) w :
  w_tx w = None ->
  run2 [] p q w = let '(a, w1) := run p w in let '(b, w2) := run q (set_tx w1 None) in
                  (a, b, set_tx w2 None).
Proof.
  intros Htx. unfold run2. simpl. rewrite run_on_run, <-Htx, set_tx_w_tx.
  destruct (run p w) as [a w1]. cbn -[run]. rewrite run_on_run. autorewrite with rm_tx.
  by destruct (run q (set_tx w1 (w_tx w))).
Qed.

(** ** Invariants of two goroutines

    A property of the two goroutines and the world that each step of
    either keeps holds at the end of every interleaving. *)
Section invariant.
Context {A B : Type}.
Context (I : prog A -> option tx_state -> prog B -> option tx_state -> World -> Prop).
Hypothesis I_step1 : ∀ p tp q tq w,
  I p tp q tq w -> let '(p', tp', w') := step_on p tp w in I p' tp' q tq w'.
Hypothesis I_step2 : ∀ p tp q tq w,
  I p tp q tq w -> let '(q', tq', w') := step_on q tq w in I p tp q' tq' w'.

Lemma interleave_inv sched p tp q tq w :
  I p tp q tq w ->
  let '(p', tp', q', tq', w') := interleave sched p tp q tq w in I p' tp' q' tq' w'.
Proof.
  revert p tp q tq w. induction sched as [|[] s IH]; intros p tp q tq w HI; simpl; [done|..].
  - pose proof (I_step2 p tp q tq w HI). destruct (step_on q tq w) as [[q' tq'] w']. by apply IH.
  - pose proof (I_step1 p tp q tq w HI). destruct (step_on p tp w) as [[p' tp'] w']. by apply IH.
Qed.

Lemma run_on_inv1 p tp q tq w :
  I p tp q tq w -> let '(a, tp', w') := run_on p tp w in I (Ret a) tp' q tq w'.
Proof.
  revert tp w. induction p as [a|R t q0 k IH|k IH|n k IH|k IH|k IH|k IH]; intros tp w HI;
    simpl; [done|..]; pose proof (I_step1 _ _ _ _ _ HI) as Hs; unfold step_on in Hs; cbn [step] in Hs.
  2: (autorewrite with rm_tx in Hs; by apply IH).
  all: go_head; by apply IH.
Qed.

Lemma run_on_inv2 p tp q tq w :
  I p tp q tq w -> let '(b, tq', w') := run_on q tq w in I p tp (Ret b) tq' w'.
Proof.
  revert tq w. induction q as [b|R t q0 k IH|k IH|n k IH|k IH|k IH|k IH]; intros tq w HI;
    simpl; [done|..]; pose proof (I_step2 _ _ _ _ _ HI) as Hs; unfold step_on in Hs; cbn [step] in Hs.
  2: (autorewrite with rm_tx in Hs; by apply IH).
  all: go_head; by apply IH.
Qed.

Lemma run2_inv sched p q w :
  I p None q None w ->
  let '(a, b, w') := run2 sched p q w in ∃ tp tq, I (Ret a) tp (Ret b) tq w'.
Proof.
  intros HI. unfold run2. pose proof (interleave_inv sched _ _ _ _ _ HI) as H1.
  destruct (interleave sched p None q None w) as [[[[p1 tp] q1] tq] w1].
  pose proof (run_on_inv1 _ _ _ _ _ H1) as H2. destruct (run_on p1 tp w1) as [[a tp'] w2].
  pose proof (run_on_inv2 _ _ _ _ _ H2) as H3. destruct (run_on q1 tq w2) as [[b tq'] w3].
  eauto.
Qed.
End invariant.

(** ** What a program sends and what it must pass through *)

(** Every statement [p] may send satisfies [Q], and [p] never commits a
    transaction: its writes are the statements it sends. *)
Fixpoint sends_only {A} (Q : ∀ R, sql R -> Prop) (p : prog A) : Prop :=
  match p with
  | Ret _ => True
  | Exec _ q k => Q _ q ∧ ∀ r, sends_only Q (k r)
  | Now k => ∀ c, sends_only Q (k c)
  | Intn _ k => ∀ x, sends_only Q (k x)
  | Begin k => ∀ r, sends_only Q (k r)
  | Commit _ => False
  | Rollback k => ∀ r, sends_only Q (k r)
  end.

(** Every way [p] can succeed passes a statement answered as [E] says:
    the answers the interpreter can give are those of [run]. *)
Fixpoint must_pass {A} (E : ∀ R, Target -> sql R -> res R -> Prop) (p : prog (res A)) : Prop :=
  match p with
  | Ret (Ok _) => False
  | Ret (Err _) => True
  | Exec t q k => ∀ r, E _ t q r ∨ must_pass E (k r)
  | Now k => ∀ c, must_pass E (k c)
  | Intn n k => ∀ x, must_pass E (k (x mod n)%nat)
  | Begin k => ∀ r, must_pass E (k r)
  | Commit k => ∀ r, must_pass E (k r)
  | Rollback k => ∀ r, must_pass E (k r)
  end.

(** Every [rand.Intn(n)] the program may call has [n > 0]: Go's
    [rand.Intn] panics otherwise. *)
Fixpoint intn_pos {A} (p : prog A) : Prop :=
  match p with
  | Ret _ => True
  | Exec _ _ k => ∀ r, intn_pos (k r)
  | Now k => ∀ c, intn_pos (k c)
  | Intn n k => (0 < n)%nat ∧ ∀ x, intn_pos (k x)
  | Begin k | Commit k | Rollback k => ∀ r, intn_pos (k r)
  end.

(** The program returns after at most [n] effects, whatever they answer. *)
Fixpoint within {A} (n : nat) (p : prog A) : Prop :=
  match p, n with
  | Ret _, _ => True
  | _, 0 => False
  | Exec _ _ k, S n => ∀ r, within n (k r)
  | Now k, S n => ∀ c, within n (k c)
  | Intn _ k, S n => ∀ x, within n (k x)
  | Begin k, S n | Commit k, S n | Rollback k, S n => ∀ r, within n (k r)
  end.

(** A statement that never adds the reviewer row [(pr, old)]. *)
Definition keeps_out (pr old : string) {R} (q : sql R) : Prop :=
  ∀ rk d, (pr, old) ∉ d.(reviewers) -> (pr, old) ∉ (exec_sql rk q d).2.(reviewers).

(** The pool answered the [UPDATE] of [ReplaceReviewer] that moves
    [(pr, old)] to another reviewer with a row count other than 0. *)
Definition replaces (pr old : string) {R} (t : Target) (q : sql R) : res R -> Prop :=
  match q in sql R return res R -> Prop with
  | SqlReplaceReviewer p o n =>
      λ r, t = Pool ∧ p = pr ∧ o = old ∧ n ≠ old ∧ ∃ z, r = Ok z ∧ z ≠ 0%Z
  | _ => λ _, False
  end.

(** ** Lemmas on footprints *)

Lemma must_pass_ok {A} E (a : A) : ¬ must_pass E (Ret (Ok a)).
Proof. simpl. tauto. Qed.

(** [if err != nil { return err }] keeps what the continuation must pass. *)
Lemma must_pass_bindE {A B} E (p : prog (res A)) (f : A -> prog (res B)) :
  (∀ a, must_pass E (f a)) -> must_pass E (bindE p f).
Proof.
  intros Hf. induction p as [[a|e]|R t q k IH|k IH|n k IH|k IH|k IH|k IH]; simpl; try done;
    [apply Hf|intros r; right|..]; intros; by apply IH.
Qed.

(** [rand.Intn(n)] with [n > 0] draws below [n]. *)
Lemma must_pass_rand_Intn {B} E n (f : nat -> prog (res B)) :
  n ≠ 0%nat -> (∀ i, (i < n)%nat -> must_pass E (f i)) -> must_pass E (bindE (rand_Intn n) f).
Proof. intros Hn Hf x. apply Hf, Nat.mod_upper_bound, Hn. Qed.

Lemma sends_only_bindE {A B} Q (p : prog (res A)) (f : A -> prog (res B)) :
  sends_only Q p -> (∀ a, sends_only Q (f a)) -> sends_only Q (bindE p f).
Proof.
  intros Hp Hf. induction p as [[a|e]|R t q k IH|k IH|n k IH|k IH|k IH|k IH]; simpl in *.
  all: try done.
  1: apply Hf.
  1: destruct Hp as [Hq Hk]; split; [done|].
  all: intros r; by apply IH.
Qed.

#[export] Hint Resolve must_pass_bindE sends_only_bindE : rm.

(** The effects other than a statement and a commit leave the tables alone. *)
Lemma pop_intn_db w : w_db (pop_intn w).2 = w_db w.
Proof. unfold pop_intn. by destruct (w_intn w). Qed.

Lemma begin_tx_db w : w_db (begin_tx w).2 = w_db w.
Proof. unfold begin_tx, pop_fault. by repeat case_match; simplify_eq/=. Qed.

Lemma rollback_tx_db w : w_db (rollback_tx w).2 = w_db w.
Proof. unfold rollback_tx. by case_match. Qed.

(** A statement leaves the committed tables alone or applies itself to them. *)
Lemma exec_at_db {R} t (q : sql R) w :
  w_db (exec_at t q w).2 = w_db w ∨ ∃ rk, w_db (exec_at t q w).2 = (exec_sql rk q (w_db w)).2.
Proof.
  unfold exec_at, pop_fault, pop_rand. repeat case_match; simplify_eq/=; auto.
  all: right; eexists; match goal with H : exec_sql _ _ _ = _ |- _ => by rewrite H end.
Qed.

(** A statement the pool answers without error was applied to the tables. *)
Lemma exec_at_pool_ok {R} (q : sql R) w v w' :
  exec_at Pool q w = (Ok v, w') -> ∃ rk, exec_sql rk q (w_db w) = (Ok v, w_db w').
Proof.
  unfold exec_at, pop_fault, pop_rand. repeat case_match; intros; simplify_eq/=; eauto.
Qed.

(** ** The [UPDATE] of [ReplaceReviewer] *)

(** A row count other than 0 means the row was there, and is gone
    unless it was replaced by itself. *)
Lemma replace_reviewer_hit d p o n z d' :
  replace_reviewer d p o n = (Ok z, d') -> z ≠ 0%Z ->
  (p, o) ∈ d.(reviewers) ∧ (n ≠ o -> (p, o) ∉ d'.(reviewers)).
Proof.
  unfold replace_reviewer. case_decide as Hhits; [intros [= <- _]; done|].
  repeat case_bool_decide; intros; simplify_eq/=. split.
  - destruct (filter _ (reviewers d)) as [|x l] eqn:E; [done|].
    assert (Hx : x ∈ filter (λ row, row = (p, o)) (reviewers d)) by (rewrite E; left).
    apply list_elem_of_filter in Hx as [-> ?]. done.
  - intros Hn ((p', r) & Heq & Hin)%list_elem_of_fmap. case_decide; simplify_eq.
Qed.

Lemma replace_keeps_out pr old n : keeps_out pr old (SqlReplaceReviewer pr old n).
Proof.
  intros rk d Hout. simpl. unfold replace_reviewer.
  rewrite decide_True; [done|]. apply length_zero_iff_nil, filter_none.
  by intros row Hin ->.
Qed.

(** A successful replacement of [(pr, old)] removes the row that was there. *)
Lemma replaces_exec_at pr old {R} t (q : sql R) r w w' :
  replaces pr old t q r -> exec_at t q w = (r, w') ->
  (pr, old) ∈ (w_db w).(reviewers) ∧ (pr, old) ∉ (w_db w').(reviewers).
Proof.
  destruct q; simpl; try done. intros (-> & -> & -> & Hn & z & -> & Hz) Hex.
  destruct (exec_at_pool_ok _ _ _ _ Hex) as [rk Hq]. simpl in Hq.
  destruct (replace_reviewer_hit _ _ _ _ _ _ Hq Hz). auto.
Qed.

(** A statement that keeps the row out of the tables keeps it out of the world. *)
Lemma keeps_out_exec_at pr old {R} t (q : sql R) w :
  keeps_out pr old q -> (pr, old) ∉ (w_db w).(reviewers) ->
  (pr, old) ∉ (w_db (exec_at t q w).2).(reviewers).
Proof. intros Hq Hout. destruct (exec_at_db t q w) as [-> | [rk ->]]; auto. Qed.

(** ** Two replacements of one reviewer

    The argument: call a goroutine done once the pool has answered its
    replacement of [(pr, old)] with a row count other than 0.  A
    goroutine that is not done can only succeed by passing such an
    answer ([must_pass]); no statement of either goroutine puts the row
    back ([sends_only keeps_out]); so once one goroutine is done the row
    is absent for good, and the other can never become done. *)
Section exclusive.
Context (pr old : string).

Definition excl_inv {A B} (p : prog (res A)) (q : prog (res B)) (w : World) : Prop :=
  sends_only (@keeps_out pr old) p ∧ sends_only (@keeps_out pr old) q ∧
  ∃ d1 d2 : bool,
    (d1 = false -> must_pass (@replaces pr old) p) ∧
    (d2 = false -> must_pass (@replaces pr old) q) ∧
    ¬ (d1 = true ∧ d2 = true) ∧
    (d1 = true ∨ d2 = true -> (pr, old) ∉ (w_db w).(reviewers)).

(** A step that does not touch the tables keeps the goroutine's state. *)
Lemma excl_keep {A} (p' : prog (res A)) w w' (d1 d2 : bool) :
  sends_only (@keeps_out pr old) p' -> (d1 = false -> must_pass (@replaces pr old) p') ->
  ¬ (d1 = true ∧ d2 = true) -> (d1 = true ∨ d2 = true -> (pr, old) ∉ (w_db w).(reviewers)) ->
  w_db w' = w_db w ->
  sends_only (@keeps_out pr old) p' ∧ ∃ d1' : bool,
    (d1' = false -> must_pass (@replaces pr old) p') ∧ ¬ (d1' = true ∧ d2 = true) ∧
    (d1' = true ∨ d2 = true -> (pr, old) ∉ (w_db w').(reviewers)).
Proof. intros ? ? ? ? ->. eauto. Qed.

Lemma excl_step {A} (p : prog (res A)) tx w (d1 d2 : bool) :
  sends_only (@keeps_out pr old) p -> (d1 = false -> must_pass (@replaces pr old) p) ->
  ¬ (d1 = true ∧ d2 = true) -> (d1 = true ∨ d2 = true -> (pr, old) ∉ (w_db w).(reviewers)) ->
  let '(p', tx', w') := step_on p tx w in
  sends_only (@keeps_out pr old) p' ∧ ∃ d1' : bool,
    (d1' = false -> must_pass (@replaces pr old) p') ∧ ¬ (d1' = true ∧ d2 = true) ∧
    (d1' = true ∨ d2 = true -> (pr, old) ∉ (w_db w').(reviewers)).
Proof.
  intros Hso Hm Hx Hout. unfold step_on.
  destruct p as [a|R t q k|k|n k|k|k|k]; cbn [step].
  - apply (excl_keep _ w _ d1 d2); [done..|by destruct w].
  - destruct Hso as [Hq Hk]. destruct (exec_at t q (set_tx w tx)) as [r w1] eqn:Hex.
    rewrite w_db_set_tx. split; [apply Hk|].
    assert (Hkeep : (pr, old) ∉ (w_db w).(reviewers) -> (pr, old) ∉ (w_db w1).(reviewers)).
    { intros H. rewrite <-(w_db_set_tx w tx) in H.
      pose proof (keeps_out_exec_at pr old t q _ Hq H) as Hk'. by rewrite Hex in Hk'. }
    destruct d1; [exists true; naive_solver|].
    destruct (Hm eq_refl r) as [He|Hmk]; [|exists false; naive_solver].
    destruct (replaces_exec_at _ _ _ _ _ _ _ He Hex) as [Hin Hgone].
    exists true. destruct d2; [exfalso; by apply (Hout (or_intror eq_refl))|].
    split; [done|split; [by intros [_ ?]|intros _; exact Hgone]].
  - apply (excl_keep _ w _ d1 d2); [apply Hso|intros H; apply (Hm H)|done|done|by destruct w].
  - destruct (pop_intn (set_tx w tx)) as [x w1] eqn:Hp.
    apply (excl_keep _ w _ d1 d2); [apply Hso|intros H; apply (Hm H)|done|done|].
    pose proof (pop_intn_db (set_tx w tx)) as Hdb. rewrite Hp in Hdb. done.
  - destruct (begin_tx (set_tx w tx)) as [r w1] eqn:Hb.
    apply (excl_keep _ w _ d1 d2); [apply Hso|intros H; apply (Hm H)|done|done|].
    pose proof (begin_tx_db (set_tx w tx)) as Hdb. rewrite Hb in Hdb. done.
  - done.
  - destruct (rollback_tx (set_tx w tx)) as [r w1] eqn:Hb.
    apply (excl_keep _ w _ d1 d2); [apply Hso|intros H; apply (Hm H)|done|done|].
    pose proof (rollback_tx_db (set_tx w tx)) as Hdb. rewrite Hb in Hdb. done.
Qed.

Lemma excl_inv_run2 {A B} sched (p : prog (res A)) (q : prog (res B)) w :
  excl_inv p q w -> let '(a, b, _) := run2 sched p q w in is_ok a && is_ok b = false.
Proof.
  intros HI.
  assert (Hrun := run2_inv (λ (p : prog (res A)) _ (q : prog (res B)) _ w, excl_inv p q w)).
  cbv beta in Hrun. unshelve epose proof (Hrun _ _ sched p q w HI) as Hend; clear Hrun.
  - intros p1 tp q1 tq w1 (Hs1 & Hs2 & d1 & d2 & Hm1 & Hm2 & Hx & Hout).
    pose proof (excl_step p1 tp w1 d1 d2 Hs1 Hm1 Hx Hout) as Hst.
    destruct (step_on p1 tp w1) as [[p' tp'] w'].
    destruct Hst as (Hs' & d1' & Hm' & Hx' & Hout').
    split; [done|]. split; [done|]. by exists d1', d2.
  - intros p1 tp q1 tq w1 (Hs1 & Hs2 & d1 & d2 & Hm1 & Hm2 & Hx & Hout).
    pose proof (excl_step q1 tq w1 d2 d1 Hs2 Hm2) as Hst.
    destruct (step_on q1 tq w1) as [[q' tq'] w'].
    destruct Hst as (Hs' & d2' & Hm' & Hx' & Hout'); [tauto|tauto|].
    split; [done|]. split; [done|]. exists d1, d2'. split_and!; [done|done|tauto|tauto].
  - destruct (run2 sched p q w) as [[a b] w'].
    destruct Hend as (tp & tq & _ & _ & d1 & d2 & Hm1 & Hm2 & Hx & _).
    destruct a, b; simpl; try done.
    destruct d1; [destruct d2; [tauto|]|]; [destruct (Hm2 eq_refl)|destruct (Hm1 eq_refl)].
Qed.
End exclusive.

(** ** The footprint of [Reassign] *)

(** [ReplaceReviewer] of [(pr, old)] by another reviewer succeeds only
    through a row count other than 0. *)
Lemma must_pass_ReplaceReviewer {B} ctx pr old n (f : unit -> prog (res B)) :
  n ≠ old ->
  must_pass (@replaces pr old) (bindE (PgPrRepo.ReplaceReviewer pool_db ctx pr old n) f).
Proof.
  intros Hn [z|e]; simpl; [|by right].
  destruct (decide (z = 0%Z)) as [->|Hz]; [by right|]. left. split_and!; eauto.
Qed.

(** The reviewer [Reassign] picks is not the one it replaces. *)
Lemma possible_nth_ne oldID reviewers cs i :
  PRService.found_in oldID reviewers = true ->
  (i < length (PRService.possible_of reviewers cs))%nat ->
  nth i (PRService.possible_of reviewers cs) "" ≠ oldID.
Proof.
  rewrite found_in_spec. intros Hold%bool_decide_eq_true Hi Heq.
  assert (Hin : nth i (PRService.possible_of reviewers cs) "" ∈ PRService.possible_of reviewers cs)
    by (apply list_elem_of_In, nth_In, Hi).
  rewrite Heq, elem_of_possible in Hin. by destruct Hin.
Qed.

(** Every success of [Reassign] passes the replacement of the reviewer
    it was asked to replace. *)
Lemma Reassign_must_replace ctx req :
  must_pass (@replaces (dto.ReassignPrRequest.PullRequestID req) (dto.ReassignPrRequest.OldUserID req))
    (PRService.Reassign PRService.pg_service ctx req).
Proof.
  unfold PRService.Reassign. apply must_pass_bindE. intros [prRow revs].
  case_decide; [done|]. destruct (PRService.found_in _ revs) eqn:Hf; [|done]. cbn [negb].
  apply must_pass_bindE. intros oldUser. apply must_pass_bindE. intros cands.
  case_decide as Hlen; [done|]. apply must_pass_rand_Intn; [done|]. intros i Hi.
  by apply must_pass_ReplaceReviewer, possible_nth_ne.
Qed.

(** The statements of [Reassign]: reads, and the replacement of [(pr, old)]. *)
(** Unfolds the pool-routed repositories of [PRService.pg_service]. *)
Ltac unfold_pg :=
  progress cbn [sends_only intn_pos within PRService.PRs PRService.Users PRService.pg_service
    PRService.NewPRService PrRepo.GetWithReviewers PgPrRepo.repo PgPrRepo.GetWithReviewers
    UserRepo.GetByID UserRepo.FindActiveInTeamExcept PgUserRepo.repo PgUserRepo.GetByID
    PgUserRepo.FindActiveInTeamExcept PrRepo.ReplaceReviewer PgPrRepo.ReplaceReviewer
    PrRepo.SetMerged PgPrRepo.SetMerged query rand_Intn time_now fail ret conn_of pool_db].

Lemma Reassign_keeps_out ctx req :
  sends_only (@keeps_out (dto.ReassignPrRequest.PullRequestID req) (dto.ReassignPrRequest.OldUserID req))
    (PRService.Reassign PRService.pg_service ctx req).
Proof.
  unfold PRService.Reassign.
  repeat first
    [ apply sends_only_bindE | apply replace_keeps_out | exact (λ _ _ H, H) | progress intros
    | case_decide | case_match | unfold_pg | split | done ].
Qed.

(** ** Draws and effects of [Reassign] *)

Lemma intn_pos_bindE {A B} (p : prog (res A)) (f : A -> prog (res B)) :
  intn_pos p -> (∀ a, intn_pos (f a)) -> intn_pos (bindE p f).
Proof.
  intros Hp Hf. induction p as [[a|e]|R t q k IH|k IH|n k IH|k IH|k IH|k IH]; simpl in *;
    try done; [apply Hf|..].
  3: destruct Hp as [Hn Hk]; split; [done|].
  all: intros r; apply IH; auto; apply Hp.
Qed.

Lemma within_mono {A} n m (p : prog A) : within n p -> (n ≤ m)%nat -> within m p.
Proof.
  revert n m. induction p as [a|R t q k IH|k IH|n0 k IH|k IH|k IH|k IH];
    intros [|n] [|m] Hp Hle; simpl in *; try done; try lia.
  all: intros r; apply (IH r n); [apply Hp|lia].
Qed.

Lemma within_bindE {A B} n m (p : prog (res A)) (f : A -> prog (res B)) :
  within n p -> (∀ a, within m (f a)) -> within (n + m) (bindE p f).
Proof.
  revert n. induction p as [[a|e]|R t q k IH|k IH|n0 k IH|k IH|k IH|k IH]; intros n Hp Hf.
  1: exact (within_mono m (n + m) (f a) (Hf a) ltac:(lia)).
  1: by destruct (n + m)%nat.
  all: destruct n as [|n]; [done|]; simpl in *; intros r; apply (IH r n); [apply Hp|apply Hf].
Qed.

Lemma within_fail {A} n (e : error) : within n (@fail A e).
Proof. by destruct n. Qed.

#[export] Hint Resolve within_fail : rm.

(** Go's [rand.Intn] panics on a non-positive argument: [Reassign]
    guards its draw with [len(possible) == 0]. *)
Lemma intn_pos_rand_Intn {B} n (f : nat -> prog (res B)) :
  (0 < n)%nat -> (∀ x, intn_pos (f x)) -> intn_pos (bindE (rand_Intn n) f).
Proof. intros Hn Hf. split; [done|]. intros x. apply Hf. Qed.

(** [GetWithReviewers]: the PR, then its reviewers. *)
Lemma GetWithReviewers_within ctx prID : within 2 (PgPrRepo.GetWithReviewers pool_db ctx prID).
Proof. intros [pr|[]]; simpl; try done. intros [|]; done. Qed.

(** ** Well-formed tables under interleaving *)

Lemma step_wf {A} (p : prog A) w : db_wf (w_db w) -> db_wf (w_db (step p w).2).
Proof.
  intros Hwf. destruct p as [a|R t q k|k|n k|k|k|k]; simpl; try done.
  - pose proof (exec_at_wf t q w Hwf). by destruct (exec_at t q w).
  - pose proof (pop_intn_db w). destruct (pop_intn w); simpl in *; congruence.
  - pose proof (begin_tx_db w). destruct (begin_tx w); simpl in *; congruence.
  - unfold commit_tx, pop_fault. repeat case_match; simplify_eq/=; auto using replay_wf.
  - pose proof (rollback_tx_db w). destruct (rollback_tx w); simpl in *; congruence.
Qed.

Lemma step_on_wf {A} (p : prog A) tx w : db_wf (w_db w) -> db_wf (w_db (step_on p tx w).2).
Proof.
  intros Hwf. unfold step_on. rewrite <-(w_db_set_tx w tx) in Hwf.
  pose proof (step_wf p _ Hwf). by destruct (step p (set_tx w tx)).
Qed.

(** ** Concrete worlds *)

(** pr-r by u1 (inactive) is reviewed by u2 and u3; u4 is the only other
    active member of their team. *)
Definition fx_race : DB :=
  fx_db [("u1", mk_user_row "author" 1 false); ("u2", mk_user_row "r2" 1 true);
         ("u3", mk_user_row "r3" 1 true); ("u4", mk_user_row "r4" 1 true)]
        [("pr-r", open_pr "race" "u1")] [("pr-r", "u2"); ("pr-r", "u3")].

Definition fx_race_world : World :=
  mkWorld fx_race None [] [λ _, 0%Z; λ _, 0%Z] [0%nat; 0%nat] 7.

(** Each goroutine makes its reads, its candidate query and its draw
    (five steps) before either writes. *)
Definition race_sched : list bool := repeat false 5 ++ repeat true 5.

(** ** Theorems *)

(** C12: Two concurrent replacements of the same reviewer on the same PR:
    the row-count check of [ReplaceReviewer] lets at most one succeed. *)
Theorem Reassign_concurrent_exclusive sched ctx1 ctx2 req1 req2 w :
  dto.ReassignPrRequest.PullRequestID req1 = dto.ReassignPrRequest.PullRequestID req2 ->
  dto.ReassignPrRequest.OldUserID req1 = dto.ReassignPrRequest.OldUserID req2 ->
  let '(r1, r2, _) := run2 sched (PRService.Reassign PRService.pg_service ctx1 req1)
                                 (PRService.Reassign PRService.pg_service ctx2 req2) w in
  is_ok r1 && is_ok r2 = false.
Proof.
  intros Hp Ho. apply (excl_inv_run2 (dto.ReassignPrRequest.PullRequestID req1)
                                     (dto.ReassignPrRequest.OldUserID req1)).
  split; [apply Reassign_keeps_out|]. split; [rewrite Hp, Ho; apply Reassign_keeps_out|].
  exists false, false. split_and!; [intros _; apply Reassign_must_replace|
    intros _; rewrite Hp, Ho; apply Reassign_must_replace|by intros [? ?]|by intros [?|?]].
Qed.

(** Every interleaving of two programs keeps the tables well formed. *)
Theorem run2_wf {A B} sched (p : prog A) (q : prog B) w :
  db_wf (w_db w) -> db_wf (w_db (run2 sched p q w).2).
Proof.
  intros Hwf. pose proof (run2_inv (λ (_ : prog A) _ (_ : prog B) _ w, db_wf (w_db w))) as Hrun. cbv beta in Hrun.
  unshelve epose proof (Hrun _ _ sched p q w Hwf) as Hend; clear Hrun.
  - intros p1 tp q1 tq w1 H1. pose proof (step_on_wf p1 tp w1 H1).
    by destruct (step_on p1 tp w1) as [[p' tp'] w'].
  - intros p1 tp q1 tq w1 H1. pose proof (step_on_wf q1 tq w1 H1).
    by destruct (step_on q1 tq w1) as [[q' tq'] w'].
  - destruct (run2 sched p q w) as [[a b] w']. by destruct Hend as (? & ? & ?).
Qed.

(** Two concurrent reassignments of the two reviewers of pr-r: served one
    after the other, both are answered 200 (u2 is free again when the
    second chooses); when both read before either writes, both choose
    u4 and the second [UPDATE] violates the primary key of
    [pull_request_reviewers], which the handler answers 500. *)
Theorem PrReassign_race_500 :
  let h := Http.pg_handler "t" in
  let reqA := Some (dto.ReassignPrRequest.mk "pr-r" "u2") in
  let reqB := Some (dto.ReassignPrRequest.mk "pr-r" "u3") in
  (let '(a, b, w) := run2 [] (Http.PrReassign h Background reqA)
                          (Http.PrReassign h Background reqB) fx_race_world in
   (Http.status a, Http.status b, reviewers_of (w_db w) "pr-r") = (200, 200, ["u4"; "u2"])%Z) ∧
  (let '(a, b, w) := run2 race_sched (Http.PrReassign h Background reqA)
                          (Http.PrReassign h Background reqB) fx_race_world in
   (Http.status a, Http.status b, reviewers_of (w_db w) "pr-r") = (200, 500, ["u4"; "u3"])%Z).
Proof. split; vm_compute; reflexivity. Qed.

(** A [Reassign] that chose u3 before an administrator deactivated u3
    still assigns u3: at the end u3 is inactive and reviews pr-4, where
    the deactivation served first leaves [Reassign] without a candidate. *)
Theorem Reassign_deactivation_race :
  let reassign := PRService.Reassign PRService.pg_service Background fx_reassign_req in
  let deactivate := UserService.SetIsActive UserService.pg_service Background
                      (dto.SetUserIsActiveRequest.mk "u3" false) in
  let w := fx_world fx_reassign (λ _, 0%Z) 0 7 in
  (let '(a, b, w') := run2 race_sched reassign deactivate w in
   is_ok a && is_ok b = true ∧ reviewers_of (w_db w') "pr-4" = ["u3"] ∧
   u_active <$> (w_db w').(users) !! "u3" = Some false) ∧
  (let '(a, _, _) := run2 [true] reassign deactivate w in a = Err ErrNoCandidate).
Proof. split; vm_compute; [split_and!|]; reflexivity. Qed.

(** C29: [Reassign] never calls [rand.Intn] with a non-positive bound (Go's
    [rand.Intn] panics on one), whatever the store answers. *)
Theorem Reassign_Intn_positive ctx req : intn_pos (PRService.Reassign PRService.pg_service ctx req).
Proof.
  unfold PRService.Reassign.
  repeat first
    [ apply intn_pos_bindE | progress intros | case_decide | case_match | unfold_pg
    | split | done | lia ].
Qed.

(** C28: [Reassign] returns after at most eight effects (seven statements and
    one draw), whatever the store answers: a goroutine serving it is done
    after eight of its steps in any schedule. *)
Theorem Reassign_within ctx req : within 8 (PRService.Reassign PRService.pg_service ctx req).
Proof.
  unfold PRService.Reassign. change 8%nat with (2 + 6)%nat.
  apply within_bindE; [apply GetWithReviewers_within|]. intros [prRow revs].
  case_decide; [done|]. case_match; [done|].
  change 6%nat with (1 + 5)%nat. apply within_bindE; [intros [|[]]; done|]. intros ou.
  change 5%nat with (1 + 4)%nat. apply within_bindE; [intros []; done|]. intros cs.
  case_decide; [done|].
  change 4%nat with (1 + 3)%nat. apply within_bindE; [intros x; done|]. intros i.
  change 3%nat with (1 + 2)%nat. apply within_bindE; [intros [z|e]; simpl; [case_decide|]; done|].
  intros _. change 2%nat with (2 + 0)%nat. apply within_bindE; [apply GetWithReviewers_within|].
  done.
Qed.

(** ** Witnesses *)

Lemma Reassign_concurrent_exclusive_witness :
  let '(r1, r2, _) := run2 race_sched
      (PRService.Reassign PRService.pg_service Background (dto.ReassignPrRequest.mk "pr-r" "u2"))
      (PRService.Reassign PRService.pg_service Background (dto.ReassignPrRequest.mk "pr-r" "u2"))
      fx_race_world in
  is_ok r1 && is_ok r2 = false.
Proof. apply Reassign_concurrent_exclusive; reflexivity. Defined.

Lemma run2_wf_witness : db_wf (w_db (run2 race_sched
    (PRService.Reassign PRService.pg_service Background (dto.ReassignPrRequest.mk "pr-r" "u2"))
    (PRService.Reassign PRService.pg_service Background (dto.ReassignPrRequest.mk "pr-r" "u3"))
    fx_race_world).2).
Proof. apply run2_wf. by apply (bool_decide_unpack _); vm_compute. Defined.
