(* ===== verification/Engine.v ===== *)
(** * Engine: the review engine of the spec, and the code as its refinement

    An abstract state keeps what the spec's engine is about: each user's
    team and activity flag, and each pull request's author, status,
    merge time and reviewers.  [astep] is the spec's transition relation
    for its four mutations (create, merge, reassign, set the activity
    flag), with the choices the spec leaves open (which candidates,
    which replacement) as nondeterminism.  [ainv] is the engine's
    invariant: reviewers are distinct existing users, at most two, and
    a PR is merged exactly when it has a merge time; every step keeps it
    and never touches a merged PR's reviewers.

    [abs] reads the abstract state off the tables.  A request served by
    the code as [cmd/main.go] wires it ([PRService.pg_service],
    [UserService.pg_service]), on a store that does not fail, either
    fails and leaves the abstract state as it was or succeeds and makes
    one [astep]; so any sequence of requests is an abstract execution
    and keeps [ainv] and every property every step keeps (a merged PR
    is frozen, an existing PR keeps its number of reviewers).  The
    spec's further promise that the author never
    reviews is not part of [astep]: [Reassign] breaks it on the tables
    of the spec's own scenario (see [PRService]). *)

From stdpp Require Import base list gmap strings relations.
From Stdlib Require Import ZArith.
From S2P Require Import Prelude Types Tables Selection Store Prog Repo Fixtures UserService PRService Concurrency.

Open Scope string_scope.

Module Engine.

(** ** Abstract state *)

Record apr := mk_apr {
  a_author : string;
  a_merged : bool;
  a_merged_at : option Z;
  a_reviewers : list string
}.

Record astate := mk_astate {
  a_users : gmap string (Z * bool);
  a_prs : gmap string apr
}.

(** The active members of team [t] other than [ex]. *)
Definition a_eligible (s : astate) (t : Z) (ex : string) : list string :=
  fst <$> filter (λ kv : string * (Z * bool), kv.2.1 = t ∧ kv.2.2 = true ∧ kv.1 ≠ ex)
            (map_to_list (a_users s)).

Definition set_a_prs (s : astate) (ps : gmap string apr) : astate := mk_astate (a_users s) ps.
Definition set_a_users (s : astate) (us : gmap string (Z * bool)) : astate := mk_astate us (a_prs s).

(** ** The spec's transitions *)

Inductive aop :=
| ACreate (prID author : string)
| AMerge (prID : string) (t : Z)
| AReassign (prID oldID newID : string)
| ASetActive (userID : string) (isActive : bool).

Inductive astep : astate -> aop -> astate -> Prop :=
| astep_create s prID author t a revs :
    a_prs s !! prID = None -> a_users s !! author = Some (t, a) ->
    NoDup revs -> (∀ r, r ∈ revs -> r ∈ a_eligible s t author) ->
    length revs = (2 `min` length (a_eligible s t author))%nat ->
    astep s (ACreate prID author)
      (set_a_prs s (<[prID := mk_apr author false None revs]> (a_prs s)))
| astep_merge s prID t p :
    a_prs s !! prID = Some p ->
    astep s (AMerge prID t)
      (set_a_prs s (<[prID := mk_apr (a_author p) true (Some (default t (a_merged_at p)))
                                     (a_reviewers p)]> (a_prs s)))
| astep_reassign s prID oldID newID p t a :
    a_prs s !! prID = Some p -> a_merged p = false -> oldID ∈ a_reviewers p ->
    a_users s !! oldID = Some (t, a) -> newID ∈ a_eligible s t oldID ->
    newID ∉ a_reviewers p ->
    astep s (AReassign prID oldID newID)
      (set_a_prs s (<[prID := mk_apr (a_author p) false (a_merged_at p)
                                     (swap_reviewer oldID newID <$> a_reviewers p)]> (a_prs s)))
| astep_set_active s userID isActive t a :
    a_users s !! userID = Some (t, a) ->
    astep s (ASetActive userID isActive) (set_a_users s (<[userID := (t, isActive)]> (a_users s))).

(** One step, whatever the operation. *)
Definition astep_any (s s' : astate) : Prop := ∃ op, astep s op s'.

(** ** The engine's invariant *)

Definition apr_ok (s : astate) (p : apr) : Prop :=
  NoDup (a_reviewers p) ∧ (length (a_reviewers p) ≤ 2)%nat ∧
  Forall (λ r, is_Some (a_users s !! r)) (a_reviewers p) ∧
  (a_merged p = true <-> is_Some (a_merged_at p)).

Definition ainv (s : astate) : Prop := map_Forall (λ _ p, apr_ok s p) (a_prs s).

#[export] Instance apr_ok_dec s p : Decision (apr_ok s p).
Proof. unfold apr_ok. apply _. Defined.

#[export] Instance ainv_dec s : Decision (ainv s).
Proof. unfold ainv. apply _. Defined.

(** ** The tables seen abstractly *)

Definition abs_pr (d : DB) (prID : string) (row : pr_row) : option apr :=
  Some (mk_apr (p_author row) (bool_decide (p_status row = StatusMerged)) (p_merged row)
          (reviewers_of d prID)).

Definition abs (d : DB) : astate :=
  mk_astate ((λ ur, (u_team ur, u_active ur)) <$> d.(users)) (map_imap (abs_pr d) d.(prs)).

(** ** The abstract engine keeps its invariant *)

Lemma elem_of_a_eligible s t ex r :
  r ∈ a_eligible s t ex <-> a_users s !! r = Some (t, true) ∧ r ≠ ex.
Proof.
  unfold a_eligible. rewrite list_elem_of_fmap. split.
  - intros ([r' [t' a']] & -> & Hin). apply list_elem_of_filter in Hin as [Hf Hin].
    simpl in Hf. destruct Hf as (-> & -> & Hne). apply elem_of_map_to_list in Hin. done.
  - intros [Hr Hne]. exists (r, (t, true)). split; [done|].
    apply list_elem_of_filter. split; [done|]. by apply elem_of_map_to_list.
Qed.

Lemma NoDup_swap oldID newID (l : list string) :
  newID ∉ l -> NoDup l -> NoDup (swap_reviewer oldID newID <$> l).
Proof.
  intros Hn Hnd. apply NoDup_fmap_2_strong; [|done].
  intros x y Hx Hy. unfold swap_reviewer. repeat case_decide; naive_solver.
Qed.

Lemma elem_of_swap oldID newID (l : list string) r :
  r ∈ swap_reviewer oldID newID <$> l -> r = newID ∨ r ∈ l.
Proof. intros (x & -> & Hx)%list_elem_of_fmap. unfold swap_reviewer. case_decide; auto. Qed.

(** A PR other than the one a step is about keeps its invariant. *)
Lemma apr_ok_users s us p :
  (∀ r, is_Some (a_users s !! r) -> is_Some (us !! r)) -> apr_ok s p -> apr_ok (set_a_users s us) p.
Proof. intros Hus (? & ? & Hr & ?). split_and!; auto. eapply Forall_impl; eauto. Qed.

#[local] Hint Resolve elem_of_a_eligible : rm.

Lemma astep_ainv s op s' : ainv s -> astep s op s' -> ainv s'.
Proof.
  intros Hinv Hst. destruct Hst as [s prID author t a revs Hp Ha Hnd Hrevs Hlen
    |s prID t p Hp|s prID oldID newID p t a Hp Hm Hold Ha Hnew Hnot|s userID isActive t a Hu];
    intros q pq; simpl.
  - rewrite lookup_insert. case_decide; [intros [= <-]|apply Hinv].
    split_and!; simpl; [done|lia| |split; [done|by intros []]].
    apply Forall_forall. intros r [Hr _]%Hrevs%elem_of_a_eligible. rewrite Hr. by eexists.
  - rewrite lookup_insert. case_decide; [intros [= <-]|apply Hinv].
    destruct (Hinv _ _ Hp) as (? & ? & ? & _). split_and!; simpl; try done.
  - rewrite lookup_insert. case_decide; [intros [= <-]|apply Hinv].
    destruct (Hinv _ _ Hp) as (Hnd & Hlen & Hus & Hmg). split_and!; simpl.
    + by apply NoDup_swap.
    + by rewrite length_fmap.
    + rewrite Forall_forall in Hus |- *. intros r [->|Hr]%elem_of_swap; [|by apply Hus].
      apply elem_of_a_eligible in Hnew as [Hn _]. rewrite Hn. by eexists.
    + by rewrite <-Hmg, Hm.
  - intros Hq. apply apr_ok_users; [|by apply (Hinv q)].
    intros r. rewrite lookup_insert_is_Some'. auto.
Qed.

(** No step touches a PR that is merged and has its merge time. *)
Lemma astep_merged_frozen s op s' prID p :
  astep s op s' -> a_prs s !! prID = Some p -> a_merged p = true -> is_Some (a_merged_at p) ->
  a_prs s' !! prID = Some p.
Proof.
  intros Hst Hp Hm [m Hmt]. destruct Hst as [s q author t a revs Hq
    |s q t p0 Hq|s q oldID newID p0 t a Hq Hm0|s userID isActive t a Hu]; simpl.
  - rewrite lookup_insert, decide_False by congruence. done.
  - rewrite lookup_insert. case_decide; subst; [|done].
    rewrite Hp in Hq. injection Hq as <-.
    rewrite Hmt. simpl. f_equal. destruct p; simpl in *; by subst.
  - rewrite lookup_insert, decide_False; [done|]. intros <-. congruence.
  - done.
Qed.

(** No step removes a PR or changes the number of its reviewers:
    creation needs a new id, merging keeps the reviewers and
    reassignment rewrites one of them in place. *)
Lemma astep_cardinality s op s' prID p :
  astep s op s' -> a_prs s !! prID = Some p ->
  ∃ p', a_prs s' !! prID = Some p' ∧ length (a_reviewers p') = length (a_reviewers p).
Proof.
  intros Hst Hp. destruct Hst as [s q author t a revs Hq
    |s q t p0 Hq|s q oldID newID p0 t a Hq|s userID isActive t a Hu]; simpl.
  - rewrite lookup_insert, decide_False by congruence. by eexists.
  - rewrite lookup_insert. case_decide; subst; [|by eexists].
    rewrite Hp in Hq. injection Hq as <-. by eexists.
  - rewrite lookup_insert. case_decide; subst; [|by eexists].
    rewrite Hp in Hq. injection Hq as <-. eexists. split; [done|]. simpl. by rewrite length_fmap.
  - by eexists.
Qed.

(** ** The abstraction of the tables *)

Lemma abs_users_lookup d u :
  a_users (abs d) !! u = (λ ur, (u_team ur, u_active ur)) <$> d.(users) !! u.
Proof. apply lookup_fmap. Qed.

Lemma abs_prs_lookup d prID :
  a_prs (abs d) !! prID =
    (λ row, mk_apr (p_author row) (bool_decide (p_status row = StatusMerged)) (p_merged row)
              (reviewers_of d prID)) <$> d.(prs) !! prID.
Proof. unfold abs. simpl. rewrite map_lookup_imap. by destruct (prs d !! prID). Qed.

(** Tables with the same users and, for every PR, the same row and
    reviewers are the same abstract state. *)
Lemma abs_ext d d' :
  d'.(users) = d.(users) -> d'.(prs) = d.(prs) ->
  (∀ p, is_Some (d.(prs) !! p) -> reviewers_of d' p = reviewers_of d p) -> abs d' = abs d.
Proof.
  intros Hu Hp Hr. unfold abs. rewrite Hu, Hp. f_equal.
  apply map_imap_ext. intros p. destruct (prs d !! p) eqn:E; simpl; [|done].
  unfold abs_pr. rewrite Hr; [done|by eexists].
Qed.

(** The candidate query, abstractly: under the invariant every eligible
    row joins its team. *)
Lemma eligible_abs d t ex :
  db_wf d -> User.ID <$> eligible d t ex = a_eligible (abs d) t ex.
Proof.
  intros Hwf. unfold eligible, a_eligible, abs. simpl. rewrite map_to_list_fmap.
  assert (Hall : ∀ kv, kv ∈ map_to_list (users d) -> is_Some (teams d !! u_team kv.2)).
  { intros [u ur] Hin%elem_of_map_to_list. apply (wf_user_team _ Hwf u ur Hin). }
  induction (map_to_list (users d)) as [|[u ur] l IH]; [done|]. simpl.
  rewrite filter_cons, (filter_cons _ (u, (u_team ur, u_active ur))). simpl.
  assert (IH' : User.ID <$> omap (λ kv : string * user_row, join_user d kv.1 kv.2)
                  (filter (λ kv : string * user_row,
                     u_team kv.2 = t ∧ u_active kv.2 = true ∧ kv.1 ≠ ex) l) =
                fst <$> filter (λ kv : string * (Z * bool), kv.2.1 = t ∧ kv.2.2 = true ∧ kv.1 ≠ ex)
                  (prod_map id (λ ur, (u_team ur, u_active ur)) <$> l)).
  { apply IH. intros kv Hkv. apply Hall. by right. }
  case_decide; simpl; [|exact IH'].
  destruct (Hall (u, ur) ltac:(by left)) as [tn Ht].
  simpl in Ht. unfold join_user at 1. simpl. rewrite Ht. simpl. by f_equal.
Qed.

(** ** Each request refines one abstract step *)

(** The world a request is served in: the tables, no open transaction, a
    store that does not fail, the request's random keys and draw, and
    the clock. *)
Definition rq_world (d : DB) (rk : string -> Z) (x : nat) (clk : Z) : World :=
  mkWorld d None [] [rk] [x] clk.

Local Abbreviation svc := (PRService.NewPRService pg_prs pg_users PgTxManager).

Lemma astep_eq s op s1 s2 : astep s op s1 -> s1 = s2 -> astep s op s2.
Proof. by intros ? <-. Qed.

(** None of the operations [Pop] allows can step from the tables [d]. *)
Definition stuck (d : DB) (Pop : aop -> Prop) : Prop := ∀ op s', Pop op -> ¬ astep (abs d) op s'.

(** An outcome: success and the step of the operation its result
    names, or failure, nothing written, and no step of the request's
    kind possible. *)
Definition outcome {A} (d : DB) (op : A -> aop) (Pop : aop -> Prop) (r : res A) (d' : DB) : Prop :=
  match r with Ok a => astep (abs d) (op a) (abs d') | Err _ => d' = d ∧ stuck d Pop end.

(** A failure: the tables as they were, and a step of the request's
    kind would contradict [tac]'s hypotheses. *)
Ltac no_step tac :=
  split; [done|];
  let o := fresh "o" in let s' := fresh "s'" in let Ho := fresh "Ho" in let Hst := fresh "Hst" in
  intros o s' Ho Hst; repeat match type of Ho with ∃ _, _ => destruct Ho as [? Ho] end;
  subst o; inversion Hst; subst; rewrite ?abs_prs_lookup, ?abs_users_lookup in *; tac.

(** With at most two reviewers, a candidate query that leaves no one
    outside them has seen every eligible user. *)
Lemma possible_nil_reviewers d rk t old revs cs n :
  db_wf d -> find_active d rk t old 20 = Ok cs -> PRService.possible_of revs cs = [] ->
  (length revs ≤ 2)%nat -> n ∈ a_eligible (abs d) t old -> n ∈ revs.
Proof.
  intros Hwf Hcs Hnil Hlen Hn.
  assert (Hall : ∀ x, x ∈ User.ID <$> cs -> x ∈ revs).
  { intros x Hx. destruct (decide (x ∈ revs)) as [|Hx']; [done|].
    assert (Hp : x ∈ PRService.possible_of revs cs) by (by apply elem_of_possible).
    rewrite Hnil in Hp. by apply not_elem_of_nil in Hp. }
  pose proof (find_active_nodup _ _ _ _ _ _ Hcs) as Hnd.
  assert (Hle : (length (User.ID <$> cs) ≤ length revs)%nat)
    by (by apply submseteq_length, NoDup_submseteq).
  rewrite length_fmap, (find_active_length _ _ _ _ _ _ Hcs) in Hle.
  rewrite <-eligible_abs in Hn by done.
  assert (Hincl : incl (User.ID <$> eligible d t old) (User.ID <$> cs)).
  { apply NoDup_length_incl.
    - by apply NoDup_ListNoDup.
    - rewrite !length_fmap, (find_active_length _ _ _ _ _ _ Hcs). lia.
    - intros y (c & -> & Hc)%list_elem_of_In%list_elem_of_fmap. apply list_elem_of_In.
      apply list_elem_of_fmap_2, (find_active_eligible _ _ _ _ _ _ Hcs c Hc). }
  apply Hall, list_elem_of_In, Hincl, list_elem_of_In, Hn.
Qed.

Lemma Merge_refines ctx req d rk x clk :
  db_wf d ->
  let '(r, w') := run (PRService.Merge svc ctx req) (rq_world d rk x clk) in
  outcome d (λ _, AMerge (dto.MergePrRequest.PullRequestID req) clk)
    (λ op, op = AMerge (dto.MergePrRequest.PullRequestID req) clk) r (w_db w').
Proof.
  intros Hwf. destruct (prs d !! dto.MergePrRequest.PullRequestID req) as [row|] eqn:Hp.
  - unfold rq_world. rewrite (Merge_run pg_prs pg_users ctx req d None _ _ clk row Hwf Hp).
    simpl. eapply astep_eq; [apply astep_merge; by rewrite abs_prs_lookup, Hp|].
    unfold abs, set_a_prs. simpl. f_equal. rewrite map_imap_insert. unfold abs_pr, merged_row.
    simpl. f_equal; try reflexivity. f_equal; try reflexivity. by destruct (p_merged row).
  - unfold PRService.Merge. cbn [PRService.PRs PRService.NewPRService].
    rewrite run_bindE. cbn [run time_now].
    rewrite run_bindE, SetMerged_ok by done. unfold set_merged, pr_set_merged.
    cbn [w_db rq_world]. rewrite Hp. no_step ltac:(rewrite Hp in *; done).
Qed.

Lemma SetIsActive_refines ctx req d rk x clk :
  db_wf d ->
  let '(r, w') := run (UserService.SetIsActive UserService.pg_service ctx req) (rq_world d rk x clk) in
  outcome d (λ _, ASetActive (dto.SetUserIsActiveRequest.UserID req)
                             (dto.SetUserIsActiveRequest.IsActive req))
    (λ op, op = ASetActive (dto.SetUserIsActiveRequest.UserID req)
                           (dto.SetUserIsActiveRequest.IsActive req)) r (w_db w').
Proof.
  intros Hwf. unfold UserService.SetIsActive. cbn [UserService.Users UserService.pg_service
    UserService.NewUserService]. rewrite run_bindE, SetActive_ok by done. cbn [w_db rq_world].
  destruct (users d !! dto.SetUserIsActiveRequest.UserID req) as [ur|] eqn:Hu.
  - destruct (wf_user_team _ Hwf _ _ Hu) as [tn Ht].
    rewrite (set_active_present _ _ _ ur tn Hu Ht). simpl.
    eapply astep_eq; [eapply astep_set_active; by rewrite abs_users_lookup, Hu|].
    unfold abs, set_a_users. simpl. by rewrite fmap_insert.
  - unfold set_active, user_set_active. rewrite Hu. no_step ltac:(rewrite Hu in *; done).
Qed.

(** What [Create] appends leaves the other PRs' reviewers alone. *)
Lemma reviewers_of_app_other d d0 prID rids p :
  p ≠ prID ->
  reviewers_of (set_reviewers d0 (d.(reviewers) ++ (pair prID <$> rids))) p = reviewers_of d p.
Proof.
  intros Hne. unfold reviewers_of. simpl. rewrite filter_app, fmap_app.
  rewrite (filter_none _ (pair prID <$> rids)); [by rewrite app_nil_r|].
  intros row (r & -> & _)%list_elem_of_fmap. simpl. congruence.
Qed.

Lemma abs_create d req clk rids :
  db_wf d -> d.(prs) !! dto.CreatePrRequest.PullRequestID req = None ->
  abs (create_db d (PRService.new_pr_row req clk) rids) =
  set_a_prs (abs d) (<[dto.CreatePrRequest.PullRequestID req :=
    mk_apr (dto.CreatePrRequest.AuthorID req) false None rids]> (a_prs (abs d))).
Proof.
  intros Hwf Hp. unfold abs, set_a_prs. simpl. f_equal.
  rewrite map_imap_insert. unfold abs_pr at 1. simpl.
  rewrite (reviewers_of_create d (PRService.new_pr_row req clk)) by done.
  f_equal. apply map_imap_ext. intros p.
  destruct (decide (p = dto.CreatePrRequest.PullRequestID req)) as [->|Hne].
  - by rewrite Hp.
  - destruct (prs d !! p); simpl; [|done]. unfold abs_pr, create_db. by rewrite reviewers_of_app_other.
Qed.

Lemma Create_refines ctx req d rk x clk :
  db_wf d ->
  let '(r, w') := run (PRService.Create svc ctx req) (rq_world d rk x clk) in
  outcome d (λ _, ACreate (dto.CreatePrRequest.PullRequestID req) (dto.CreatePrRequest.AuthorID req))
    (λ op, op = ACreate (dto.CreatePrRequest.PullRequestID req) (dto.CreatePrRequest.AuthorID req))
    r (w_db w').
Proof.
  intros Hwf. destruct (pr_exists d (dto.CreatePrRequest.PullRequestID req)) eqn:Hex.
  { unfold PRService.Create. cbn [PRService.PRs PRService.NewPRService].
    rewrite run_bindE, Exists_ok by done. cbn [w_db rq_world]. rewrite Hex.
    unfold pr_exists in Hex. apply bool_decide_eq_true in Hex as [row Hp].
    no_step ltac:(rewrite Hp in *; done). }
  assert (Hp : prs d !! dto.CreatePrRequest.PullRequestID req = None).
  { unfold pr_exists in Hex. apply bool_decide_eq_false in Hex. by apply eq_None_not_Some. }
  destruct (users d !! dto.CreatePrRequest.AuthorID req) as [ur|] eqn:Hu.
  2: { unfold PRService.Create. cbn [PRService.PRs PRService.Users PRService.NewPRService].
       rewrite run_bindE, Exists_ok by done. cbn [w_db rq_world]. rewrite Hex. cbn iota.
       rewrite run_bindE, GetByID_ok by done. unfold get_user, user_get. cbn [w_db rq_world].
       rewrite Hu. no_step ltac:(rewrite Hu in *; done). }
  destruct (get_user_row _ _ _ Hwf Hu) as [tn Hg].
  destruct (find_active_total d rk (u_team ur) (dto.CreatePrRequest.AuthorID req) 2) as [cs Hcs];
    [lia|].
  unfold rq_world. rewrite (Create_run pg_prs pg_users ctx req d rk [] [x] clk _ cs Hwf Hex Hg Hcs).
  simpl. rewrite abs_create by done.
  eapply astep_create with (t := u_team ur) (a := u_active ur).
  - by rewrite abs_prs_lookup, Hp.
  - by rewrite abs_users_lookup, Hu.
  - by apply (find_active_nodup _ _ _ _ _ _ Hcs).
  - intros r (c & -> & Hc)%list_elem_of_fmap. rewrite <-eligible_abs by done.
    apply list_elem_of_fmap_2, (find_active_eligible _ _ _ _ _ _ Hcs c Hc).
  - rewrite <-eligible_abs, !length_fmap by done.
    by apply (find_active_length _ _ _ _ _ _ Hcs).
Qed.

(** The [UPDATE] of [ReplaceReviewer] leaves the other PRs' reviewers alone. *)
Lemma reviewers_of_replace_other d p o n q :
  q ≠ p ->
  reviewers_of (set_reviewers d ((λ row, if decide (row = (p, o)) then (p, n) else row)
                                 <$> d.(reviewers))) q = reviewers_of d q.
Proof.
  intros Hne. unfold reviewers_of. simpl. induction (reviewers d) as [|[a b] rows IH]; [done|].
  simpl. case_decide as Hab.
  - injection Hab as -> ->. rewrite !filter_cons_False by (simpl; congruence). exact IH.
  - rewrite !filter_cons. case_decide; simpl; [f_equal|]; exact IH.
Qed.

Lemma abs_reassign d prID oldID newID row :
  d.(prs) !! prID = Some row -> p_status row ≠ StatusMerged ->
  abs (set_reviewers d ((λ r, if decide (r = (prID, oldID)) then (prID, newID) else r)
                        <$> d.(reviewers))) =
  set_a_prs (abs d) (<[prID := mk_apr (p_author row) false (p_merged row)
                                 (swap_reviewer oldID newID <$> reviewers_of d prID)]> (a_prs (abs d))).
Proof.
  intros Hp Hs. unfold abs, set_a_prs. simpl. f_equal. apply map_eq. intros q.
  rewrite map_lookup_imap, lookup_insert, map_lookup_imap. simpl. case_decide as Hq.
  - subst q. rewrite Hp. simpl. unfold abs_pr. rewrite reviewers_of_replace.
    by rewrite bool_decide_false.
  - destruct (prs d !! q); simpl; [|done]. unfold abs_pr. by rewrite reviewers_of_replace_other.
Qed.

Lemma Reassign_refines ctx req d rk x clk :
  db_wf d -> ainv (abs d) ->
  let '(r, w') := run (PRService.Reassign svc ctx req) (rq_world d rk x clk) in
  outcome d (λ resp, AReassign (dto.ReassignPrRequest.PullRequestID req)
                     (dto.ReassignPrRequest.OldUserID req) (dto.ReassignPrResponse.ReplacedBy resp))
    (λ op, ∃ newID, op = AReassign (dto.ReassignPrRequest.PullRequestID req)
                                   (dto.ReassignPrRequest.OldUserID req) newID)
    r (w_db w').
Proof.
  intros Hwf Hinv.
  destruct (prs d !! (dto.ReassignPrRequest.PullRequestID req)) as [row|] eqn:Hp.
  2: { unfold PRService.Reassign. cbn [PRService.PRs PRService.NewPRService].
       rewrite run_bindE, GetWithReviewers_ok by done.
       unfold get_with_reviewers, pr_select. cbn [w_db rq_world]. rewrite Hp.
       no_step ltac:(rewrite Hp in *; done). }
  destruct (get_with_reviewers_present _ _ _ Hwf Hp) as [sname Hg].
  destruct (decide (p_status row = StatusMerged)) as [Hs|Hs].
  { unfold PRService.Reassign. cbn [PRService.PRs PRService.NewPRService].
    rewrite run_bindE, GetWithReviewers_ok by done. cbn [w_db rq_world]. rewrite Hg.
    cbn iota beta. rewrite decide_True by done.
    no_step ltac:(rewrite Hp in *; simplify_eq/=; by rewrite bool_decide_true in *). }
  destruct (decide ((dto.ReassignPrRequest.OldUserID req) ∈ reviewers_of d (dto.ReassignPrRequest.PullRequestID req))) as [Hold|Hold].
  2: { unfold PRService.Reassign. cbn [PRService.PRs PRService.NewPRService].
       rewrite run_bindE, GetWithReviewers_ok by done. cbn [w_db rq_world]. rewrite Hg.
       cbn iota beta. rewrite decide_False by done. rewrite found_in_spec, bool_decide_false by done.
       no_step ltac:(rewrite Hp in *; simplify_eq/=; done). }
  assert (Hin : ((dto.ReassignPrRequest.PullRequestID req), (dto.ReassignPrRequest.OldUserID req)) ∈ reviewers d).
  { apply list_elem_of_fmap in Hold as ([p' o'] & Heq & Hrow%list_elem_of_filter).
    simpl in *. destruct Hrow as [Hp' Hrow]. by subst. }
  destruct (wf_reviewer_user _ Hwf _ _ Hin) as [our Hu].
  destruct (get_user_row _ _ _ Hwf Hu) as [tn Hou].
  destruct (find_active_total d rk (u_team our) (dto.ReassignPrRequest.OldUserID req) 20) as [cs Hcs]; [lia|].
  destruct (decide (PRService.possible_of (reviewers_of d (dto.ReassignPrRequest.PullRequestID req)) cs = [])) as [Hnil|Hposs].
  { unfold rq_world. rewrite (Reassign_no_candidate_run pg_prs pg_users ctx req d None rk [] [x] clk
      row _ cs Hwf Hp Hs Hold Hou Hcs Hnil).
    assert (Hle : (length (reviewers_of d (dto.ReassignPrRequest.PullRequestID req)) ≤ 2)%nat).
    { apply (Hinv (dto.ReassignPrRequest.PullRequestID req)
               (mk_apr (p_author row) false (p_merged row)
                  (reviewers_of d (dto.ReassignPrRequest.PullRequestID req)))).
      rewrite abs_prs_lookup, Hp. simpl. by rewrite bool_decide_false. }
    no_step ltac:(rewrite ?Hp, ?Hu in *; simplify_eq/=;
      match goal with H : _ ∉ _ |- _ => apply H end;
      eapply possible_nil_reviewers; eauto). }
  unfold rq_world. destruct (Reassign_run pg_prs pg_users ctx req d None rk [] x [] clk row _ cs
    Hwf Hp Hs Hold Hou Hcs Hposs) as [sname' ->]. simpl.
  rewrite (abs_reassign _ _ _ _ row) by done.
  pose proof (nth_mod_elem_of _ x "" Hposs) as Hnew.
  apply elem_of_possible in Hnew as [Hnew Hnot].
  eapply astep_reassign with (t := u_team our) (a := u_active our)
    (p := mk_apr (p_author row) false (p_merged row)
            (reviewers_of d (dto.ReassignPrRequest.PullRequestID req))).
  - rewrite abs_prs_lookup, Hp. simpl. by rewrite bool_decide_false.
  - done.
  - done.
  - by rewrite abs_users_lookup, Hu.
  - rewrite <-eligible_abs by done. apply list_elem_of_fmap in Hnew as (c & -> & Hc).
    apply list_elem_of_fmap_2, (find_active_eligible _ _ _ _ _ _ Hcs c Hc).
  - done.
Qed.

(** ** Sequences of requests *)

(** The requests that change the engine's state. *)
Inductive request :=
| RCreate (req : dto.CreatePrRequest.t)
| RMerge (req : dto.MergePrRequest.t)
| RReassign (req : dto.ReassignPrRequest.t)
| RSetActive (req : dto.SetUserIsActiveRequest.t).

(** A request arriving with its random keys, its draw and the clock. *)
Record arrival := mk_arrival {
  ar_req : request;
  ar_rand : string -> Z;
  ar_draw : nat;
  ar_clock : Z
}.

(** One handler run on a store that does not fail: whether it
    succeeded, and the tables after. *)
Definition serve_prog {A} (p : prog (res A)) (w : World) : bool * DB :=
  let '(r, w') := run p w in (is_ok r, w_db w').

(** The services as [cmd/main.go] wires them, serving one request. *)
Definition serve (a : arrival) (d : DB) : bool * DB :=
  let w := rq_world d (ar_rand a) (ar_draw a) (ar_clock a) in
  match ar_req a with
  | RCreate req => serve_prog (PRService.Create PRService.pg_service Background req) w
  | RMerge req => serve_prog (PRService.Merge PRService.pg_service Background req) w
  | RReassign req => serve_prog (PRService.Reassign PRService.pg_service Background req) w
  | RSetActive req => serve_prog (UserService.SetIsActive UserService.pg_service Background req) w
  end.

(** Requests served one after the other. *)
Fixpoint serve_all (l : list arrival) (d : DB) : DB :=
  match l with
  | [] => d
  | a :: l => serve_all l (serve a d).2
  end.

Lemma run_db_wf {A} (p : prog A) w : db_wf (w_db w) -> db_wf (w_db (run p w).2).
Proof. apply run_pres, exec_sql_wf. Qed.

(** The abstract operations a request can make. *)
Definition request_op (r : request) (clk : Z) (op : aop) : Prop :=
  match r with
  | RCreate req => op = ACreate (dto.CreatePrRequest.PullRequestID req) (dto.CreatePrRequest.AuthorID req)
  | RMerge req => op = AMerge (dto.MergePrRequest.PullRequestID req) clk
  | RReassign req => ∃ newID, op = AReassign (dto.ReassignPrRequest.PullRequestID req)
                                              (dto.ReassignPrRequest.OldUserID req) newID
  | RSetActive req => op = ASetActive (dto.SetUserIsActiveRequest.UserID req)
                                      (dto.SetUserIsActiveRequest.IsActive req)
  end.

(** The spec's execution of a sequence of requests: each one either
    makes a step of its own operation or fails and changes nothing. *)
Inductive arun : astate -> list arrival -> astate -> Prop :=
| arun_nil s : arun s [] s
| arun_ok s a l s' s'' op :
    request_op (ar_req a) (ar_clock a) op -> astep s op s' -> arun s' l s'' -> arun s (a :: l) s''
| arun_fail s a l s'' :
    (∀ op s', request_op (ar_req a) (ar_clock a) op -> ¬ astep s op s') ->
    arun s l s'' -> arun s (a :: l) s''.

(** A handler whose outcome refines a step serves a request that keeps
    the tables well formed and makes that step, or fails when no step of
    its kind is possible and changes nothing. *)
Lemma serve_prog_step {A} (p : prog (res A)) (op : A -> aop) (Pop : aop -> Prop) d w :
  db_wf d -> w_db w = d -> (∀ a, Pop (op a)) ->
  (let '(r, w') := run p w in outcome d op Pop r (w_db w')) ->
  db_wf (serve_prog p w).2 ∧
  if (serve_prog p w).1 then ∃ o, Pop o ∧ astep (abs d) o (abs (serve_prog p w).2)
  else (serve_prog p w).2 = d ∧ stuck d Pop.
Proof.
  intros Hwf Hw Hop Hout. pose proof (run_db_wf p w) as Hw'. rewrite Hw in Hw'.
  unfold serve_prog. destruct (run p w) as [[a|e] w']; simpl in *.
  - split; [auto|]. eexists; eauto.
  - destruct Hout as [-> Hst]. auto.
Qed.

Lemma serve_step a d :
  db_wf d -> ainv (abs d) ->
  db_wf (serve a d).2 ∧
  if (serve a d).1
  then ∃ op, request_op (ar_req a) (ar_clock a) op ∧ astep (abs d) op (abs (serve a d).2)
  else (serve a d).2 = d ∧ stuck d (request_op (ar_req a) (ar_clock a)).
Proof.
  intros Hwf Hinv. unfold serve. destruct (ar_req a) as [req|req|req|req];
    (eapply serve_prog_step; [done|done| |]).
  1,3,5,7: intros; simpl; eauto.
  - exact (Create_refines Background req d _ _ _ Hwf).
  - exact (Merge_refines Background req d _ _ _ Hwf).
  - exact (Reassign_refines Background req d _ _ _ Hwf Hinv).
  - exact (SetIsActive_refines Background req d _ _ _ Hwf).
Qed.

(** What every step of the spec keeps, every sequence of requests keeps. *)
Lemma serve_all_preserves (Q : astate -> Prop) l d :
  (∀ s op s', ainv s -> Q s -> astep s op s' -> Q s') ->
  db_wf d -> ainv (abs d) -> Q (abs d) -> Q (abs (serve_all l d)) ∧ ainv (abs (serve_all l d)).
Proof.
  intros HQ. revert d. induction l as [|a l IH]; intros d Hwf Hinv Hq; simpl; [done|].
  destruct (serve_step a d Hwf Hinv) as [Hwf' Hst]. apply IH; [done|..].
  all: destruct (serve a d) as [[] d']; simpl in *; [|by destruct Hst as [-> _]].
  all: destruct Hst as (op & _ & Hst); eauto using astep_ainv.
Qed.

End Engine.

(** ** Theorems *)

(** C11: Any sequence of requests served by the code, one after the other on
    a store that does not fail, is an execution of the spec's engine:
    each request either makes the spec's step for its own operation or
    fails and leaves the tables as they were. *)
Theorem serve_all_refines l d :
  db_wf d -> Engine.ainv (Engine.abs d) ->
  Engine.arun (Engine.abs d) l (Engine.abs (Engine.serve_all l d)).
Proof.
  revert d. induction l as [|a l IH]; intros d Hwf Hinv; simpl; [constructor|].
  destruct (Engine.serve_step a d Hwf Hinv) as [Hwf' Hst].
  destruct (Engine.serve a d) as [[] d'] eqn:E; simpl in *.
  - destruct Hst as (op & Hop & Hst). eapply Engine.arun_ok; eauto using Engine.astep_ainv.
  - destruct Hst as [-> Hstuck]. apply Engine.arun_fail; [done|]. by apply IH.
Qed.

(** C27: After any sequence of requests, from tables that satisfy it, the
    engine's invariant holds: every PR has distinct reviewers, at most
    two, all of them existing users, and is merged exactly when it has a
    merge time. *)
Theorem serve_all_ainv l d :
  db_wf d -> Engine.ainv (Engine.abs d) -> Engine.ainv (Engine.abs (Engine.serve_all l d)).
Proof.
  intros Hwf Hinv. apply (Engine.serve_all_preserves (λ _, True)); auto.
Qed.

(** C14: A merged PR with its merge time is frozen: after any sequence of
    requests it is still merged, with the same merge time and the same
    reviewers. *)
Theorem serve_all_merged_frozen l d prID row :
  db_wf d -> Engine.ainv (Engine.abs d) ->
  d.(prs) !! prID = Some row -> p_status row = StatusMerged -> is_Some (p_merged row) ->
  ∃ row', (Engine.serve_all l d).(prs) !! prID = Some row' ∧ p_status row' = StatusMerged ∧
    p_merged row' = p_merged row ∧ reviewers_of (Engine.serve_all l d) prID = reviewers_of d prID.
Proof.
  intros Hwf Hinv Hp Hs Hm.
  set (p := Engine.mk_apr (p_author row) true (p_merged row) (reviewers_of d prID)).
  assert (Hq : Engine.a_prs (Engine.abs (Engine.serve_all l d)) !! prID = Some p).
  { apply (Engine.serve_all_preserves (λ s, Engine.a_prs s !! prID = Some p)); [|done|done|].
    - intros s op s' _ Hs' Hst. by apply (Engine.astep_merged_frozen s op s' prID p).
    - rewrite Engine.abs_prs_lookup, Hp. simpl. by rewrite bool_decide_true. }
  rewrite Engine.abs_prs_lookup in Hq.
  destruct (prs (Engine.serve_all l d) !! prID) as [row'|]; simpl in Hq; [|done].
  injection Hq as Ha Hb Hc Hd. exists row'. split_and!; try done.
  by apply bool_decide_eq_true in Hb.
Qed.

(** C16: The spec's cardinality invariant: a PR that exists keeps
    existing and keeps the number of reviewers it has, 0, 1 or 2, after
    any sequence of requests: reassignment and merge never change it,
    and creating a PR with a taken id fails. *)
Theorem serve_all_cardinality l d prID row :
  db_wf d -> Engine.ainv (Engine.abs d) -> d.(prs) !! prID = Some row ->
  is_Some ((Engine.serve_all l d).(prs) !! prID) ∧
  length (reviewers_of (Engine.serve_all l d) prID) = length (reviewers_of d prID).
Proof.
  intros Hwf Hinv Hp.
  destruct (Engine.serve_all_preserves
              (λ s, ∃ p, Engine.a_prs s !! prID = Some p ∧
                         length (Engine.a_reviewers p) = length (reviewers_of d prID)) l d)
    as [(p & Hq & Hlen) _]; [|done|done| |].
  - intros s op s' _ (p & Hsp & Hl) Hst.
    destruct (Engine.astep_cardinality s op s' prID p Hst Hsp) as (p' & ? & ?).
    exists p'. split; [done|]. congruence.
  - rewrite Engine.abs_prs_lookup, Hp. by eexists.
  - rewrite Engine.abs_prs_lookup in Hq.
    destruct (prs (Engine.serve_all l d) !! prID); simpl in Hq; [|done].
    injection Hq as <-. split; [by eexists|done].
Qed.

(** ** Witnesses *)

Definition fx_session : list Engine.arrival :=
  [Engine.mk_arrival (Engine.RReassign fx_reassign_req) (λ _, 0%Z) 0 7;
   Engine.mk_arrival (Engine.RMerge (dto.MergePrRequest.mk "pr-4")) (λ _, 0%Z) 0 8;
   Engine.mk_arrival (Engine.RReassign (dto.ReassignPrRequest.mk "pr-4" "u3")) (λ _, 0%Z) 0 9;
   Engine.mk_arrival (Engine.RSetActive (dto.SetUserIsActiveRequest.mk "u3" false)) (λ _, 0%Z) 0 9].

Lemma serve_all_refines_witness :
  Engine.arun (Engine.abs fx_reassign) fx_session (Engine.abs (Engine.serve_all fx_session fx_reassign)).
Proof. apply serve_all_refines; by apply (bool_decide_unpack _); vm_compute. Defined.

Lemma serve_all_ainv_witness : Engine.ainv (Engine.abs (Engine.serve_all fx_session fx_reassign)).
Proof.
  apply serve_all_ainv; by apply (bool_decide_unpack _); vm_compute.
Defined.

Lemma serve_all_merged_frozen_witness :
  ∃ row', (Engine.serve_all fx_session fx_merged).(prs) !! "pr-5" = Some row' ∧
    p_status row' = StatusMerged ∧ p_merged row' = Some 0%Z ∧
    reviewers_of (Engine.serve_all fx_session fx_merged) "pr-5" = reviewers_of fx_merged "pr-5".
Proof.
  apply (serve_all_merged_frozen fx_session fx_merged "pr-5"
           (mk_pr_row "Already merged" "u1" StatusMerged 0 (Some 0%Z) false)).
  - by apply (bool_decide_unpack _); vm_compute.
  - by apply (bool_decide_unpack _); vm_compute.
  - reflexivity.
  - reflexivity.
  - by eexists.
Defined.

Lemma serve_all_cardinality_witness :
  is_Some ((Engine.serve_all fx_session fx_reassign).(prs) !! "pr-4") ∧
  length (reviewers_of (Engine.serve_all fx_session fx_reassign) "pr-4") =
  length (reviewers_of fx_reassign "pr-4").
Proof.
  apply (serve_all_cardinality fx_session fx_reassign "pr-4" (open_pr "Reassign me" "u1"));
    [by apply (bool_decide_unpack _); vm_compute | by apply (bool_decide_unpack _); vm_compute
    | reflexivity].
Defined.
