(* ===== verification/Main.v ===== *)
(** * Main: the configuration and wiring of [cmd/main.go]

    [main] reads [DSN], [PORT] and [ADMIN_TOKEN] from the environment and
    stops with [log.Fatal] on the first one that is empty, opens the pool
    (stopping if [pgxpool.New] fails), builds the repositories, the
    services and the handler, and configures the [http.Server].  Here the
    environment is a function ([os.Getenv] answers [""] for an unset
    variable), the pool's creation an input, and the result the server
    [main] would start or the fatal error it stops with.  [Concurrency]
    models the serving.  [Lifecycle] is what happens after: a state
    machine of the process ([lstep] on [proc]) in which [main], the
    goroutine that runs [srv.ListenAndServe] and the operating system
    take turns: the signal, [main]'s wake-up, its call of
    [srv.Shutdown], the return of [Shutdown], each deferred call and the
    exit, and the goroutine's log line, its [shuttingDown] check,
    [net.Listen], [Accept] and [log.Fatalf].  Its theorems give the
    shape of every reachable state, that status 1 needs a server error
    and can still come after [Shutdown] and after [main]'s deferred
    calls, and that a live process can still exit with status 0. *)

From stdpp Require Import base list strings relations.
From Stdlib Require Import String ZArith.
From S2P Require Import Prelude Types GoStrings Validation Tables Selection Store Prog Repo Fixtures TeamService UserService PRService Http.

Open Scope string_scope.

Module Main.

(** The [log.Fatal] and [log.Fatalf] calls of [main]. *)
Inductive fatal :=
| FatalNoDSN            (* DSN is not set *)
| FatalNoPort           (* PORT must be set *)
| FatalNoAdminToken     (* ADMIN_TOKEN must be set *)
| FatalPool.            (* pgxpool.New failed *)

(** [time.Second] in nanoseconds ([time.Duration]). *)
Definition Second : Z := 1000000000.

(** [&http.Server{Addr: ..., Handler: ..., ReadTimeout: ..., ...}]; the
    handler is the [httpapi.Handler] that [httpapi.NewMux] routes to. *)
Record Server := mkServer {
  Addr : string;
  Handler : Http.Handler;
  ReadTimeout : Z;
  WriteTimeout : Z;
  IdleTimeout : Z
}.

Definition main (getenv : string -> string) (poolOk : bool) : result Server fatal :=
  let dsn := getenv "DSN" in
  if bool_decide (dsn = "") then Err FatalNoDSN else
  let port := getenv "PORT" in
  if bool_decide (port = "") then Err FatalNoPort else
  let admToken := getenv "ADMIN_TOKEN" in
  if bool_decide (admToken = "") then Err FatalNoAdminToken else
  if negb poolOk then Err FatalPool else
  let teamSvc := TeamService.NewTeamService (PgTeamRepo.repo pool_db) (PgUserRepo.repo pool_db)
                   PgTxManager in
  let userSvc := UserService.NewUserService (PgUserRepo.repo pool_db) in
  let prSvc := PRService.NewPRService (PgPrRepo.repo pool_db) (PgUserRepo.repo pool_db) PgTxManager in
  let h := Http.NewHandler teamSvc userSvc prSvc admToken in
  Ok (mkServer (":" ++ port) h (5 * Second) (5 * Second) (60 * Second)).

End Main.

(** ** The life of the process after [main] has configured the server

    [main] starts a goroutine that logs the address and calls
    [srv.ListenAndServe] (lines 69-74), then blocks on [<-ctx.Done()]
    until SIGINT or SIGTERM; it then logs that it shuts down, creates a
    10-second [shutdownCtx], calls [srv.Shutdown], logs a failed
    shutdown, and returns, running its deferred calls in reverse order
    ([cancel], [pool.Close], [stop]) before the runtime exits with status
    0.  The goroutine follows [net/http]'s [ListenAndServe]: it returns
    [ErrServerClosed] at once when [Shutdown] has begun; otherwise
    [net.Listen] may fail, and the error is returned; otherwise [Serve]
    registers the listener, which it cannot once [Shutdown] has begun
    ([ErrServerClosed]), and loops on [Accept], whose error is
    [ErrServerClosed] after [Shutdown] began and is returned as it is
    before.  An error other than [ErrServerClosed] reaches [log.Fatalf]:
    exit status 1 without the deferred calls, at any moment before the
    process has ended.  After [stop], a signal has its default action and
    kills the process.  The scheduler and the operating system choose
    the order of the events; [lstep] answers [None] to an event that
    cannot happen in the state. *)
Module Lifecycle.

(** Where [main] is. *)
Inductive deferred := DCancel | DPoolClose | DStop.

Inductive phase :=
| Serving                      (* main blocked on <-ctx.Done() *)
| Signalled                    (* main woke, logged, created shutdownCtx *)
| Draining                     (* srv.Shutdown called, not yet returned *)
| Returning (ds : list deferred) (* main returned; deferred calls left *)
| Exited.

(** Where the goroutine of lines 69-74 is. *)
Inductive gphase :=
| GNotStarted                  (* not yet scheduled *)
| GLogged                      (* log.Printf done, ListenAndServe next *)
| GListen                      (* past the shuttingDown check, net.Listen next *)
| GServing                     (* in Serve's Accept loop *)
| GFatal (msg : string)        (* returned an error, log.Fatalf next *)
| GDone.                       (* returned ErrServerClosed *)

Inductive event :=
| Signal                       (* SIGINT or SIGTERM *)
| Wake                         (* main's <-ctx.Done() returns *)
| CallShutdown                 (* main reaches srv.Shutdown(shutdownCtx) *)
| ShutdownReturns (ok : bool)  (* srv.Shutdown returns nil (true) or an error *)
| RunDeferred                  (* the next deferred call of main runs *)
| MainExit                     (* the runtime exits after main returned *)
| GoLog                        (* the goroutine's log.Printf *)
| GoCheck                      (* ListenAndServe's srv.shuttingDown() check *)
| GoListen (r : option string) (* net.Listen succeeds (None) or fails *)
| GoAcceptErr (msg : string)   (* Accept returns an error *)
| GoFatal.                     (* log.Fatalf: the message, then os.Exit(1) *)

Inductive logline :=
| LogListening (addr : string)  (* log.Printf of the goroutine *)
| LogShuttingDown               (* log.Println before the shutdown *)
| LogShutdownError              (* log.Printf of a failed Shutdown *)
| LogServerError (msg : string). (* log.Fatalf of the goroutine *)

Record proc := mkProc {
  ph : phase;
  gph : gphase;
  ctx_done : bool;     (* ctx of signal.NotifyContext cancelled *)
  shutting : bool;     (* srv.inShutdown, set by Shutdown *)
  pool_open : bool;    (* pool.Close not called *)
  notify_on : bool;    (* stop of signal.NotifyContext not called *)
  timer_on : bool;     (* cancel of context.WithTimeout pending *)
  exit_code : option Z;
  killed : bool;       (* ended by a signal's default action *)
  addr : string;       (* srv.Addr *)
  logs : list logline
}.

(** The process once [main] has built [srv] and started its goroutine. *)
Definition start (srv : Main.Server) : proc :=
  mkProc Serving GNotStarted false false true true false None false (Main.Addr srv) [].

Definition set_ph (p : proc) (x : phase) : proc :=
  mkProc x (gph p) (ctx_done p) (shutting p) (pool_open p) (notify_on p) (timer_on p)
    (exit_code p) (killed p) (addr p) (logs p).

Definition set_gph (p : proc) (g : gphase) : proc :=
  mkProc (ph p) g (ctx_done p) (shutting p) (pool_open p) (notify_on p) (timer_on p)
    (exit_code p) (killed p) (addr p) (logs p).

Definition add_log (p : proc) (l : list logline) : proc :=
  mkProc (ph p) (gph p) (ctx_done p) (shutting p) (pool_open p) (notify_on p) (timer_on p)
    (exit_code p) (killed p) (addr p) (logs p ++ l).

(** A deferred call of [main]. *)
Definition run_deferred (d : deferred) (p : proc) : proc :=
  match d with
  | DCancel => mkProc (ph p) (gph p) (ctx_done p) (shutting p) (pool_open p) (notify_on p) false
                 (exit_code p) (killed p) (addr p) (logs p)
  | DPoolClose => mkProc (ph p) (gph p) (ctx_done p) (shutting p) false (notify_on p) (timer_on p)
                    (exit_code p) (killed p) (addr p) (logs p)
  | DStop => mkProc (ph p) (gph p) (ctx_done p) (shutting p) (pool_open p) false (timer_on p)
               (exit_code p) (killed p) (addr p) (logs p)
  end.

(** [defer stop()], [defer pool.Close()], [defer cancel()], run last first. *)
Definition deferred_calls : list deferred := [DCancel; DPoolClose; DStop].

(** The goroutine leaves [ListenAndServe] with [err]: [ErrServerClosed]
    ends it, another error goes to [log.Fatalf]. *)
Definition serve_returns (p : proc) (err : option string) : proc :=
  set_gph p (if err is Some msg then GFatal msg else GDone).

Definition lstep (p : proc) (e : event) : option proc :=
  if ph p is Exited then None else
    match e with
    | Signal =>
        if notify_on p then
          Some (mkProc (ph p) (gph p) true (shutting p) (pool_open p) (notify_on p) (timer_on p)
                  (exit_code p) (killed p) (addr p) (logs p))
        else Some (mkProc Exited (gph p) (ctx_done p) (shutting p) (pool_open p) (notify_on p)
                     (timer_on p) (exit_code p) true (addr p) (logs p))
    | Wake =>
        if ph p is Serving then if ctx_done p then
          Some (mkProc Signalled (gph p) (ctx_done p) (shutting p) (pool_open p) (notify_on p) true
                  (exit_code p) (killed p) (addr p) (logs p ++ [LogShuttingDown]))
        else None else None
    | CallShutdown =>
        if ph p is Signalled then
          Some (mkProc Draining (gph p) (ctx_done p) true (pool_open p) (notify_on p) (timer_on p)
                  (exit_code p) (killed p) (addr p) (logs p))
        else None
    | ShutdownReturns ok =>
        if ph p is Draining then
          Some (set_ph (add_log p (if ok then [] else [LogShutdownError])) (Returning deferred_calls))
        else None
    | RunDeferred =>
        if ph p is Returning (d :: ds) then Some (set_ph (run_deferred d p) (Returning ds)) else None
    | MainExit =>
        if ph p is Returning [] then
          Some (mkProc Exited (gph p) (ctx_done p) (shutting p) (pool_open p) (notify_on p)
                  (timer_on p) (Some 0%Z) (killed p) (addr p) (logs p))
        else None
    | GoLog =>
        if gph p is GNotStarted then Some (set_gph (add_log p [LogListening (addr p)]) GLogged)
        else None
    | GoCheck =>
        if gph p is GLogged then
          Some (if shutting p then serve_returns p None else set_gph p GListen)
        else None
    | GoListen r =>
        if gph p is GListen then
          match r with
          | None => Some (if shutting p then serve_returns p None else set_gph p GServing)
          | Some msg => Some (serve_returns p (Some msg))
          end
        else None
    | GoAcceptErr msg =>
        if gph p is GServing then
          Some (serve_returns p (if shutting p then None else Some msg))
        else None
    | GoFatal =>
        if gph p is GFatal msg then
          Some (mkProc Exited (gph p) (ctx_done p) (shutting p) (pool_open p) (notify_on p)
                  (timer_on p) (Some 1%Z) (killed p) (addr p) (logs p ++ [LogServerError msg]))
        else None
    end.

(** States reachable by the events the environment may produce. *)
Definition lreach : relation proc := rtc (λ p q, ∃ e, lstep p e = Some q).

(** Running a sequence of events. *)
Fixpoint lrun (p : proc) (es : list event) : option proc :=
  match es with
  | [] => Some p
  | e :: es => lstep p e ≫= λ q, lrun q es
  end.

(** A live process: no status, no server error logged, and a goroutine
    that ended without error only after [Shutdown] began. *)
Definition lalive (p : proc) : Prop :=
  exit_code p = None ∧ killed p = false ∧ (∀ m, LogServerError m ∉ logs p) ∧
  (gph p = GDone -> shutting p = true).

(** The shape of every reachable state, by phase of [main]. *)
Definition linv (p : proc) : Prop :=
  match ph p with
  | Serving =>
      lalive p ∧ shutting p = false ∧ pool_open p = true ∧ notify_on p = true ∧
      timer_on p = false ∧ LogShuttingDown ∉ logs p
  | Signalled =>
      lalive p ∧ ctx_done p = true ∧ shutting p = false ∧ pool_open p = true ∧
      notify_on p = true ∧ timer_on p = true ∧ LogShuttingDown ∈ logs p
  | Draining =>
      lalive p ∧ ctx_done p = true ∧ shutting p = true ∧ pool_open p = true ∧
      notify_on p = true ∧ timer_on p = true ∧ LogShuttingDown ∈ logs p
  | Returning ds =>
      lalive p ∧ shutting p = true ∧ LogShuttingDown ∈ logs p ∧
      ((ds = [DCancel; DPoolClose; DStop] ∧ timer_on p = true ∧ pool_open p = true ∧ notify_on p = true) ∨
       (ds = [DPoolClose; DStop] ∧ timer_on p = false ∧ pool_open p = true ∧ notify_on p = true) ∨
       (ds = [DStop] ∧ timer_on p = false ∧ pool_open p = false ∧ notify_on p = true) ∨
       (ds = [] ∧ timer_on p = false ∧ pool_open p = false ∧ notify_on p = false))
  | Exited =>
      (exit_code p = Some 0%Z ∧ killed p = false ∧ pool_open p = false ∧ notify_on p = false ∧
       timer_on p = false ∧ LogShuttingDown ∈ logs p) ∨
      (exit_code p = Some 1%Z ∧ killed p = false ∧ ∃ m, gph p = GFatal m ∧ LogServerError m ∈ logs p) ∨
      (exit_code p = None ∧ killed p = true ∧ notify_on p = false ∧ LogShuttingDown ∈ logs p)
  end.

End Lifecycle.

(** ** What a started server is *)

(** [main] starts only with the three variables set and the pool open,
    and then serves the wiring of [Http.pg_handler] with the token of
    [ADMIN_TOKEN]. *)
Lemma main_ok getenv poolOk srv :
  Main.main getenv poolOk = Ok srv ->
  getenv "DSN" ≠ "" ∧ getenv "PORT" ≠ "" ∧ getenv "ADMIN_TOKEN" ≠ "" ∧ poolOk = true ∧
  srv = Main.mkServer (":" ++ getenv "PORT") (Http.pg_handler (getenv "ADMIN_TOKEN"))
          (5 * Main.Second) (5 * Main.Second) (60 * Main.Second).
Proof.
  unfold Main.main. repeat case_bool_decide; try done. destruct poolOk; [|done].
  intros [= <-]. done.
Qed.

(** ** Theorems *)

(** C25: Every server [main] starts rejects, with 401, a request without an
    [Authorization] header and one whose bearer token is made of ASCII
    spaces: [main] refuses to start with an empty [ADMIN_TOKEN]. *)
Theorem main_rejects_blank_token {A} getenv poolOk srv ws :
  Main.main getenv poolOk = Ok srv -> ascii_spaces ws ->
  @Http.requireAdmin A (Main.Handler srv) "" ≠ None ∧
  @Http.requireAdmin A (Main.Handler srv) ("Bearer " ++ ws) ≠ None.
Proof.
  intros (_ & _ & Htok & _ & ->)%main_ok Hws. apply requireAdmin_blank; [done|done].
Qed.

(** ** The process lifecycle *)

Section lifecycle.
Import Lifecycle.

Lemma no_err_app (lg l : list logline) :
  (∀ m, LogServerError m ∉ lg) -> (∀ m, LogServerError m ∉ l) ->
  ∀ m, LogServerError m ∉ (lg ++ l)%list.
Proof. intros H1 H2 m. rewrite elem_of_app. intros [H|H]; [by apply (H1 m)|by apply (H2 m)]. Qed.

(** Proves one of the shapes [linv] allows, from the fields of the state. *)
Ltac lgoal :=
  match goal with
  | |- _ ∧ _ => split; lgoal
  | |- _ ∨ _ => first [left; lgoal | right; lgoal]
  | |- ∃ m, GFatal _ = GFatal m ∧ _ =>
      eexists; split; [reflexivity|apply elem_of_app; right; by apply list_elem_of_singleton]
  | |- ∀ m, LogServerError m ∉ (_ ++ _)%list =>
      apply no_err_app; [done|intros ?; rewrite list_elem_of_singleton; done]
  | |- _ ∈ (_ ++ _)%list =>
      apply elem_of_app; first [by left | right; by apply list_elem_of_singleton]
  | |- _ ∉ (_ ++ _)%list =>
      rewrite elem_of_app, list_elem_of_singleton; intros [?|?]; done
  | |- _ -> _ => intros ?; done
  | |- _ => done
  end.

Lemma lstep_inv p e q : linv p -> lstep p e = Some q -> linv q.
Proof.
  destruct p as [php g cd sh po no to ec kl ad lg].
  intros Hinv H. destruct php as [| | |ds|]; [| | | |done]; destruct e; cbn in H;
    repeat case_match; simplify_eq/=; unfold linv, lalive, deferred_calls in *; cbn in *;
    destruct_and? Hinv; repeat match goal with H : _ ∨ _ |- _ => destruct H end;
    destruct_and?; simplify_eq/=; rewrite ?app_nil_r; try done.
  all: lgoal.
Qed.

Lemma lreach_pres (P : proc -> Prop) p q :
  (∀ p e q, P p -> lstep p e = Some q -> P q) -> P p -> lreach p q -> P q.
Proof. intros Hstep Hp H. induction H as [|x y z [e Hxy] _ IH]; eauto. Qed.

Lemma lrun_lreach p es q : lrun p es = Some q -> lreach p q.
Proof.
  revert p. induction es as [|e es IH]; intros p; simpl; [by intros [= ->]|].
  destruct (lstep p e) as [p'|] eqn:He; simpl; [|done].
  intros Hq. eapply rtc_l; [by exists e|]. by apply IH.
Qed.

Lemma linv_start srv : linv (start srv).
Proof. unfold linv, lalive, start; cbn. split_and!; try done; [set_solver|set_solver]. Qed.

(** Status 1 is the goroutine's [log.Fatalf], with its message logged. *)
Lemma linv_exit_one q :
  linv q -> exit_code q = Some 1%Z -> ∃ m, gph q = GFatal m ∧ LogServerError m ∈ logs q.
Proof.
  unfold linv, lalive. destruct (ph q); intros Hinv Hex; destruct_and? Hinv;
    try congruence. destruct Hinv as [Hinv|[Hinv|Hinv]]; destruct_and? Hinv; congruence || done.
Qed.

(** A goroutine that returned [ErrServerClosed] stays done, and no event
    gives status 1 to a process whose goroutine is done. *)
Lemma lstep_done_no_fatal p e q :
  gph p = GDone ∧ exit_code p ≠ Some 1%Z -> lstep p e = Some q ->
  gph q = GDone ∧ exit_code q ≠ Some 1%Z.
Proof.
  destruct p as [php g cd sh po no to ec kl ad lg]; cbn. intros [-> Hex] H.
  destruct php as [| | |ds|]; [| | | |done]; destruct e; cbn in H;
    repeat case_match; simplify_eq/=; try (match goal with d : deferred |- _ => destruct d end);
    cbn; (split; [done|try done; intros ?; discriminate]).
Qed.

End lifecycle.

(** C34: Every state the process can reach after [main] started the
    server and its goroutine has the shape [linv] says: a live process
    has no exit status and no server error logged, holds the pool, the
    signal registration and (past the signal) the shutdown timer until
    its deferred calls release them in the order [cancel], [pool.Close],
    [stop], and its goroutine ends without error only after [Shutdown]
    began; status 0 comes after all three deferred calls and the logged
    shutdown; status 1 comes only from the goroutine's [log.Fatalf],
    with its error logged; a process killed by a signal had already
    called [stop]. *)
Theorem lifecycle_inv srv q :
  Lifecycle.lreach (Lifecycle.start srv) q -> Lifecycle.linv q.
Proof. apply lreach_pres; [apply lstep_inv|apply linv_start]. Qed.

(** C35: Status 1 needs a server error: once the goroutine has returned
    [http.ErrServerClosed] nothing leads to status 1.  But [Shutdown]
    does not protect the process: when the goroutine reaches
    [net.Listen] only after [Shutdown] has begun and the listen fails,
    [log.Fatalf] ends the process with status 1 even after [main] has
    run all its deferred calls. *)
Theorem serve_error_exit_one srv msg :
  (∀ q q', Lifecycle.lreach (Lifecycle.start srv) q -> Lifecycle.gph q = Lifecycle.GDone ->
           Lifecycle.lreach q q' -> Lifecycle.exit_code q' ≠ Some 1%Z) ∧
  ∃ q, Lifecycle.lrun (Lifecycle.start srv)
         [Lifecycle.GoLog; Lifecycle.GoCheck; Lifecycle.Signal; Lifecycle.Wake;
          Lifecycle.CallShutdown; Lifecycle.ShutdownReturns true; Lifecycle.RunDeferred;
          Lifecycle.RunDeferred; Lifecycle.RunDeferred; Lifecycle.GoListen (Some msg);
          Lifecycle.GoFatal] = Some q ∧
       Lifecycle.exit_code q = Some 1%Z ∧ Lifecycle.pool_open q = false ∧
       Lifecycle.notify_on q = false ∧ Lifecycle.timer_on q = false ∧
       Lifecycle.LogShuttingDown ∈ Lifecycle.logs q ∧
       Lifecycle.LogServerError msg ∈ Lifecycle.logs q.
Proof.
  split.
  - intros q q' Hs Hq Hr.
    assert (Hinv : Lifecycle.linv q) by (revert Hs; apply lreach_pres; [apply lstep_inv|apply linv_start]).
    enough (Lifecycle.gph q' = Lifecycle.GDone ∧ Lifecycle.exit_code q' ≠ Some 1%Z) by tauto.
    apply (lreach_pres (λ r, Lifecycle.gph r = Lifecycle.GDone ∧ Lifecycle.exit_code r ≠ Some 1%Z) q q');
      [apply lstep_done_no_fatal| |done].
    split; [done|]. intros Hex. destruct (linv_exit_one q Hinv Hex) as (m & Hm & _). congruence.
  - eexists. split; [cbn; reflexivity|]. cbn. split_and!; [done|done|done|done|set_solver|set_solver].
Qed.

(** C36: A live process can always still end cleanly: the signal (if
    it has not come yet), the call of [Shutdown] (if not made yet), its
    return and [main]'s deferred calls lead to exit status 0 with the
    pool closed, the signal registration stopped, the timer cancelled
    and the shutdown logged; while [Shutdown] has not returned, a
    failed [Shutdown] is logged on that path. *)
Theorem lifecycle_can_exit srv q ok :
  Lifecycle.lreach (Lifecycle.start srv) q -> Lifecycle.ph q ≠ Lifecycle.Exited ->
  ∃ es q', Lifecycle.lrun q es = Some q' ∧ Lifecycle.exit_code q' = Some 0%Z ∧
    Lifecycle.pool_open q' = false ∧ Lifecycle.notify_on q' = false ∧
    Lifecycle.timer_on q' = false ∧ Lifecycle.LogShuttingDown ∈ Lifecycle.logs q' ∧
    ((∀ ds, Lifecycle.ph q ≠ Lifecycle.Returning ds) ->
     ok = false -> Lifecycle.LogShutdownError ∈ Lifecycle.logs q').
Proof.
  intros Hs Hq.
  assert (Hinv : Lifecycle.linv q) by (revert Hs; apply lreach_pres; [apply lstep_inv|apply linv_start]).
  destruct q as [[| | |ds|] g cd sh po no to ec kl ad lg]; cbn in Hq, Hinv; [| | | |done];
    unfold Lifecycle.lalive in Hinv; destruct_and? Hinv; simplify_eq/=.
  - exists [Lifecycle.Signal; Lifecycle.Wake; Lifecycle.CallShutdown; Lifecycle.ShutdownReturns ok;
            Lifecycle.RunDeferred; Lifecycle.RunDeferred; Lifecycle.RunDeferred; Lifecycle.MainExit].
    eexists. split; [cbn; reflexivity|]. cbn. split_and!; try done; [|intros _ ->]; set_solver.
  - exists [Lifecycle.CallShutdown; Lifecycle.ShutdownReturns ok; Lifecycle.RunDeferred;
            Lifecycle.RunDeferred; Lifecycle.RunDeferred; Lifecycle.MainExit].
    eexists. split; [cbn; reflexivity|]. cbn. split_and!; try done; [|intros _ ->]; set_solver.
  - exists [Lifecycle.ShutdownReturns ok; Lifecycle.RunDeferred; Lifecycle.RunDeferred;
            Lifecycle.RunDeferred; Lifecycle.MainExit].
    eexists. split; [cbn; reflexivity|]. cbn. split_and!; try done; [|intros _ ->]; set_solver.
  - exists (replicate (List.length ds) Lifecycle.RunDeferred ++ [Lifecycle.MainExit])%list.
    repeat match goal with H : _ ∨ _ |- _ => destruct H end; destruct_and?; simplify_eq/=;
      (eexists; split; [cbn; reflexivity|]; cbn; split_and!; try done; intros Hn; by destruct (Hn _ eq_refl)).
Qed.

(** ** Witnesses *)

Definition fx_env : string -> string :=
  λ v, if bool_decide (v = "DSN") then "postgres://localhost/rm"
       else if bool_decide (v = "PORT") then "8080"
       else if bool_decide (v = "ADMIN_TOKEN") then "secret" else "".

Lemma main_rejects_blank_token_witness :
  ∃ srv, Main.main fx_env true = Ok srv ∧
    @Http.requireAdmin unit (Main.Handler srv) "" ≠ None ∧
    @Http.requireAdmin unit (Main.Handler srv) ("Bearer " ++ "  ") ≠ None.
Proof.
  eexists. split; [reflexivity|].
  apply (main_rejects_blank_token fx_env true); [reflexivity|].
  unfold ascii_spaces. by repeat constructor.
Defined.

Definition fx_server : Main.Server :=
  Main.mkServer ":8080" (Http.pg_handler "secret") (5 * Main.Second) (5 * Main.Second)
    (60 * Main.Second).

(** After the signal, with the goroutine not yet scheduled. *)
Definition fx_signalled : Lifecycle.proc :=
  Lifecycle.mkProc Lifecycle.Signalled Lifecycle.GNotStarted true false true true true None false
    ":8080" [Lifecycle.LogShuttingDown].

(** [Shutdown] running; the goroutine came to [ListenAndServe] too late
    and returned [ErrServerClosed]. *)
Definition fx_closed : Lifecycle.proc :=
  Lifecycle.mkProc Lifecycle.Draining Lifecycle.GDone true true true true true None false
    ":8080" [Lifecycle.LogShuttingDown; Lifecycle.LogListening ":8080"].

Definition fx_exited : Lifecycle.proc :=
  Lifecycle.mkProc Lifecycle.Exited Lifecycle.GDone true true false false false (Some 0%Z) false
    ":8080" [Lifecycle.LogShuttingDown; Lifecycle.LogListening ":8080"].

Lemma lifecycle_inv_witness :
  Lifecycle.lreach (Lifecycle.start fx_server) fx_signalled ∧ Lifecycle.linv fx_signalled.
Proof.
  assert (H : Lifecycle.lreach (Lifecycle.start fx_server) fx_signalled)
    by (apply (lrun_lreach _ [Lifecycle.Signal; Lifecycle.Wake]); reflexivity).
  split; [exact H|exact (lifecycle_inv fx_server _ H)].
Defined.

Lemma serve_error_exit_one_witness :
  Lifecycle.lreach (Lifecycle.start fx_server) fx_closed ∧
  Lifecycle.gph fx_closed = Lifecycle.GDone ∧
  Lifecycle.lreach fx_closed fx_exited ∧ Lifecycle.exit_code fx_exited ≠ Some 1%Z.
Proof.
  assert (H1 : Lifecycle.lreach (Lifecycle.start fx_server) fx_closed)
    by (apply (lrun_lreach _ [Lifecycle.Signal; Lifecycle.Wake; Lifecycle.CallShutdown;
                              Lifecycle.GoLog; Lifecycle.GoCheck]); reflexivity).
  assert (H2 : Lifecycle.lreach fx_closed fx_exited)
    by (apply (lrun_lreach _ [Lifecycle.ShutdownReturns true; Lifecycle.RunDeferred;
                              Lifecycle.RunDeferred; Lifecycle.RunDeferred; Lifecycle.MainExit]);
        reflexivity).
  split_and!; [exact H1|reflexivity|exact H2|].
  exact (proj1 (serve_error_exit_one fx_server "") _ _ H1 eq_refl H2).
Defined.

Lemma lifecycle_can_exit_witness :
  ∃ es q', Lifecycle.lrun (Lifecycle.start fx_server) es = Some q' ∧
    Lifecycle.exit_code q' = Some 0%Z ∧ Lifecycle.pool_open q' = false ∧
    Lifecycle.notify_on q' = false ∧ Lifecycle.timer_on q' = false ∧
    Lifecycle.LogShuttingDown ∈ Lifecycle.logs q' ∧
    ((∀ ds, Lifecycle.ph (Lifecycle.start fx_server) ≠ Lifecycle.Returning ds) ->
     false = false -> Lifecycle.LogShutdownError ∈ Lifecycle.logs q').
Proof.
  apply (lifecycle_can_exit fx_server (Lifecycle.start fx_server) false); [apply rtc_refl|discriminate].
Defined.
