(* ===== verification/Mocks.v ===== *)
(** * Mocks: the in-memory repositories of the unit tests

    The unit tests run the services against Go maps instead of
    PostgreSQL: [MockTeamRepo], [MockUserRepo] and [MockTxManager] of
    [tests/unit], and [MockPrRepo] of [tests/unittests/mock_pr_repo.go]
    (package [unittests]).  Each mock is a [Record] of its fields and
    each method a function of that state, returning the new state where
    the method writes.  A [range] over a Go map visits the entries in an
    order the runtime chooses anew each time; the methods that range
    over [m.Users] take that order as an argument [it], and the theorems
    hold for every [it] that is a permutation of the map's entries.
    [MockTxManager] is an implementation of the [TxManager] interface of
    [Repo] that runs the body without a transaction.

    The theorems relate the mocks to the contracts of the PostgreSQL
    repositories: the mock query is [LIMIT n] for [n >= 1] (for
    [n <= 0] its [break] never fires and it returns every eligible user,
    [find_loop_nonpos]), the mock team ids count the distinct names
    created (a duplicate does not use up an id, as PostgreSQL's sequence
    does), [UpsertTeamMembers] and [ListByTeam] round-trip, and the mock
    PR repository answers what [Create] stored and replaces a reviewer
    in place, as the [UPDATE] does, when the reviewers are distinct.
    [tests/unit/pr_service_test.go] calls [NewMockPrRepo], which only
    package [unittests] declares, and [tests/unittests] uses a
    [MockTxManager] that only package [unit] declares, so neither
    package's PR tests build as they stand. *)

From stdpp Require Import base list gmap strings sorting.
From Stdlib Require Import ZArith.
From S2P Require Import Prelude Types Tables Selection Store Prog Repo Fixtures PRService.

Open Scope string_scope.

(** ** [mock_team_repo.go] *)

Module MockTeamRepo.

Record t := mk { TeamsByName : gmap string Team.t; nextID : Z }.

Definition NewMockTeamRepo : t := mk ∅ 0.

(** [Create] answers the team already stored with [ErrTeamExists]; a Go
    [int] id, here unbounded ([nextID] would need 2^63 creations to
    wrap). *)
Definition Create (m : t) (teamName : string) : (Team.t * option error) * t :=
  match TeamsByName m !! teamName with
  | Some tm => ((tm, Some ErrTeamExists), m)
  | None =>
      let tm := Team.mk (nextID m + 1) teamName in
      ((tm, None), mk (<[teamName := tm]> (TeamsByName m)) (nextID m + 1))
  end.

Definition GetByName (m : t) (teamName : string) : res Team.t :=
  match TeamsByName m !! teamName with
  | Some tm => Ok tm
  | None => Err ErrTeamNotFound
  end.

(** The repository after [Create] of each name in turn. *)
Definition creates (names : list string) : t :=
  foldl (λ m n, (Create m n).2) NewMockTeamRepo names.

(** Ids are 1 to [nextID], one per stored name, each team under its own
    name. *)
Definition team_inv (m : t) : Prop :=
  nextID m = Z.of_nat (size (TeamsByName m)) ∧
  map_Forall (λ n tm, Team.Name tm = n ∧ (1 ≤ Team.ID tm ≤ nextID m)%Z) (TeamsByName m) ∧
  ∀ n1 n2 t1 t2, TeamsByName m !! n1 = Some t1 -> TeamsByName m !! n2 = Some t2 ->
    Team.ID t1 = Team.ID t2 -> n1 = n2.

End MockTeamRepo.

(** ** [mock_user_repo.go] *)

Module MockUserRepo.

Record t := mk {
  Users : gmap string User.t;
  ReviewPRs : gmap string (list PullRequestShort.t);
  StatsRows : list ReviewerStatRow.t
}.

Definition NewMockUserRepo : t := mk ∅ ∅ [].

Definition set_users (m : t) (us : gmap string User.t) : t := mk us (ReviewPRs m) (StatsRows m).

Definition GetByID (m : t) (userID : string) : res User.t :=
  match Users m !! userID with
  | Some u => Ok u
  | None => Err ErrUserNotFound
  end.

Definition with_active (u : User.t) (isActive : bool) : User.t :=
  User.mk (User.ID u) (User.Username u) (User.TeamID u) (User.TeamName u) isActive.

Definition SetIsActive (m : t) (userID : string) (isActive : bool) : res User.t * t :=
  match Users m !! userID with
  | Some u => (Ok (with_active u isActive), set_users m (<[userID := with_active u isActive]> (Users m)))
  | None => (Err ErrUserNotFound, m)
  end.

(** A missing key answers [nil, nil]; a present one a copy. *)
Definition GetReviewPrs (m : t) (userID : string) : res (list PullRequestShort.t) :=
  match ReviewPRs m !! userID with
  | Some prs => Ok prs
  | None => Ok []
  end.

(** The three [continue]s of the loop. *)
Definition mock_eligible (teamID : Z) (ex : string) (u : User.t) : Prop :=
  User.TeamID u = teamID ∧ User.IsActive u = true ∧ User.ID u ≠ ex.

#[export] Instance mock_eligible_dec teamID ex u : Decision (mock_eligible teamID ex u).
Proof. unfold mock_eligible. apply _. Defined.

(** [for _, u := range m.Users { ... res = append(res, u);
    if len(res) == limit { break } }], over the values in visiting
    order. *)
Fixpoint find_loop (teamID : Z) (ex : string) (limit : Z) (us : list User.t) (res : list User.t)
    : list User.t :=
  match us with
  | [] => res
  | u :: us' =>
      if bool_decide (User.TeamID u ≠ teamID) then find_loop teamID ex limit us' res
      else if negb (User.IsActive u) then find_loop teamID ex limit us' res
      else if bool_decide (User.ID u = ex) then find_loop teamID ex limit us' res
      else
        let res' := (res ++ [u])%list in
        if bool_decide (Z.of_nat (length res') = limit) then res'
        else find_loop teamID ex limit us' res'
  end.

(** [it] is the order in which [range] visits [m.Users]. *)
Definition FindActiveInTeamExcept (it : list (string * User.t)) (teamID : Z) (ex : string)
    (limit : Z) : res (list User.t) :=
  Ok (find_loop teamID ex limit (snd <$> it) []).

Definition with_team (teamID : Z) (u : User.t) : User.t :=
  User.mk (User.ID u) (User.Username u) teamID (User.TeamName u) (User.IsActive u).

Definition UpsertTeamMembers (m : t) (teamID : Z) (members : list User.t) : t :=
  foldl (λ m u, set_users m (<[User.ID u := with_team teamID u]> (Users m))) m members.

Definition ListByTeam (it : list (string * User.t)) (teamID : Z) : res (list User.t) :=
  Ok (filter (λ u, User.TeamID u = teamID) (snd <$> it)).

Definition GetReviewerStats (m : t) : res (list ReviewerStatRow.t) := Ok (StatsRows m).

(** Every user is stored under its own id. *)
Definition users_wf (m : t) : Prop := map_Forall (λ k u, User.ID u = k) (Users m).

End MockUserRepo.

(** ** [mock_tx_manager.go] *)

Definition MockTxManager : TxManager.t := TxManager.mk (λ A ctx fn, fn ctx).

(** ** [tests/unittests/mock_pr_repo.go] *)

Module MockPrRepo.

Record t := mk { PRs : gmap string PullRequest.t; Reviewers : gmap string (list string) }.

Definition NewMockPrRepo : t := mk ∅ ∅.

Definition Exists (m : t) (prID : string) : res bool :=
  Ok (bool_decide (is_Some (PRs m !! prID))).

(** [m.PRs[pr.ID] = pr]: an existing PR is overwritten. *)
Definition Insert (m : t) (pr : PullRequest.t) : res unit * t :=
  (Ok tt, mk (<[PullRequest.ID pr := pr]> (PRs m)) (Reviewers m)).

(** An empty list changes nothing; otherwise a copy of the list replaces
    the PR's reviewers. *)
Definition AddReviewers (m : t) (prID : string) (reviewerIDs : list string) : res unit * t :=
  if bool_decide (reviewerIDs = []) then (Ok tt, m)
  else (Ok tt, mk (PRs m) (<[prID := reviewerIDs]> (Reviewers m))).

(** A copy of the reviewers; a PR without an entry has none. *)
Definition GetWithReviewers (m : t) (prID : string) : res (PullRequest.t * list string) :=
  match PRs m !! prID with
  | None => Err ErrPRNotFound
  | Some pr => Ok (pr, default [] (Reviewers m !! prID))
  end.

(** [pr.StatusID = StatusMerged]; [MergedAt] is set only when nil;
    [StatusName] is left as it was. *)
Definition SetMerged (m : t) (prID : string) (mergedAt : Z) : res PullRequest.t * t :=
  match PRs m !! prID with
  | None => (Err ErrPRNotFound, m)
  | Some pr =>
      let pr' := PullRequest.mk (PullRequest.ID pr) (PullRequest.Name pr) (PullRequest.AuthorID pr)
                   StatusMerged (PullRequest.StatusName pr) (PullRequest.CreatedAt pr)
                   (if PullRequest.MergedAt pr is Some x then Some x else Some mergedAt) in
      (Ok pr', mk (<[prID := pr']> (PRs m)) (Reviewers m))
  end.

(** The [for i, id := range revs] loop: the first occurrence of the old
    reviewer is overwritten, then [break]; [None] when there is none. *)
Fixpoint replace_first (oldID newID : string) (revs : list string) : option (list string) :=
  match revs with
  | [] => None
  | id :: rest =>
      if bool_decide (id = oldID) then Some (newID :: rest)
      else (λ r, id :: r) <$> replace_first oldID newID rest
  end.

Definition ReplaceReviewer (m : t) (prID oldReviewerID newReviewerID : string) : res unit * t :=
  match Reviewers m !! prID with
  | None => (Err ErrReviewerNotSet, m)
  | Some revs =>
      match replace_first oldReviewerID newReviewerID revs with
      | None => (Err ErrReviewerNotSet, m)
      | Some revs' => (Ok tt, mk (PRs m) (<[prID := revs']> (Reviewers m)))
      end
  end.

(** What [PRService.Create] asks of the repository: [Insert], then
    [AddReviewers] of the chosen reviewers. *)
Definition insert_with (m : t) (pr : PullRequest.t) (ids : list string) : t :=
  (AddReviewers (Insert m pr).2 (PullRequest.ID pr) ids).2.

End MockPrRepo.

(** ** The mock candidate query *)

Section find.
Context (teamID : Z) (ex : string) (limit : Z).

Lemma find_loop_cons u us res :
  MockUserRepo.find_loop teamID ex limit (u :: us) res =
  if decide (MockUserRepo.mock_eligible teamID ex u) then
    if bool_decide (Z.of_nat (length (res ++ [u])%list) = limit) then (res ++ [u])%list
    else MockUserRepo.find_loop teamID ex limit us (res ++ [u])%list
  else MockUserRepo.find_loop teamID ex limit us res.
Proof.
  unfold MockUserRepo.mock_eligible. simpl.
  case_decide as He.
  { destruct He as (H1 & H2 & H3).
    rewrite (bool_decide_false (User.TeamID u ≠ teamID)) by (intros Hn; by apply Hn).
    by rewrite H2, bool_decide_false. }
  case_bool_decide; [done|]. destruct (User.IsActive u) eqn:Ha; [|done]. simpl.
  case_bool_decide; [done|]. naive_solver.
Qed.

(** With [limit <= 0] the [break] never fires: every eligible user. *)
Lemma find_loop_nonpos us res :
  (limit ≤ 0)%Z ->
  MockUserRepo.find_loop teamID ex limit us res =
  (res ++ filter (MockUserRepo.mock_eligible teamID ex) us)%list.
Proof.
  intros Hl. revert res. induction us as [|u us IH]; intros res; [simpl; by rewrite app_nil_r|].
  rewrite find_loop_cons, filter_cons. case_decide; [|apply IH].
  rewrite bool_decide_false by (rewrite length_app; simpl; lia).
  rewrite IH, <-app_assoc. done.
Qed.

(** With [limit >= 1] the loop is [LIMIT limit] over the visiting order. *)
Lemma find_loop_pos us res :
  (1 ≤ limit)%Z -> (length res < Z.to_nat limit)%nat ->
  MockUserRepo.find_loop teamID ex limit us res =
  (res ++ take (Z.to_nat limit - length res) (filter (MockUserRepo.mock_eligible teamID ex) us))%list.
Proof.
  intros Hl. revert res. induction us as [|u us IH]; intros res Hr.
  { rewrite filter_nil, take_nil, app_nil_r. done. }
  rewrite find_loop_cons, filter_cons. case_decide; [|by apply IH].
  rewrite length_app. simpl.
  replace (Z.to_nat limit - length res)%nat with (S (Z.to_nat limit - length res - 1)) by lia.
  simpl. case_bool_decide.
  - replace (Z.to_nat limit - length res - 1)%nat with 0%nat by lia. by rewrite take_0.
  - rewrite IH by (rewrite length_app; simpl; lia). rewrite length_app, <-app_assoc. simpl.
    do 3 f_equal. lia.
Qed.

End find.

(** A visiting order of a well-formed map lists each user under its id. *)
Lemma ids_of_order (m : MockUserRepo.t) it :
  MockUserRepo.users_wf m -> it ≡ₚ map_to_list (MockUserRepo.Users m) ->
  User.ID <$> (snd <$> it) = fst <$> it.
Proof.
  intros Hwf Hit. assert (Hall : Forall (λ ku : string * User.t, User.ID ku.2 = ku.1) it).
  { apply Forall_forall. intros [k u] Hin.
    rewrite Hit, elem_of_map_to_list in Hin. by apply (Hwf k u). }
  clear Hit. induction Hall as [|[k u] it Hku _ IH]; [done|]. simpl in Hku |- *. rewrite Hku. f_equal. exact IH.
Qed.

Lemma NoDup_ids_order (m : MockUserRepo.t) it (P : User.t -> Prop) `{∀ u, Decision (P u)} :
  MockUserRepo.users_wf m -> it ≡ₚ map_to_list (MockUserRepo.Users m) ->
  NoDup (User.ID <$> filter P (snd <$> it)).
Proof.
  intros Hwf Hit. apply (sublist_NoDup _ (User.ID <$> (snd <$> it))).
  - rewrite (ids_of_order m it Hwf Hit), Hit. apply NoDup_fst_map_to_list.
  - apply fmap_sublist, sublist_filter.
Qed.

(** C38: For [limit >= 1], [MockUserRepo.FindActiveInTeamExcept] is
    [LIMIT limit] over the eligible users (same team, active, not the
    excluded one) in the order [range] visits the map, as the
    interface's comment promises: at most [limit] users, and exactly
    [limit] when there are that many.  For every visiting order the
    eligible users are distinct and the same up to order. *)
Theorem mock_FindActive m it teamID ex limit :
  MockUserRepo.users_wf m -> it ≡ₚ map_to_list (MockUserRepo.Users m) -> (1 ≤ limit)%Z ->
  MockUserRepo.FindActiveInTeamExcept it teamID ex limit =
    Ok (take (Z.to_nat limit) (filter (MockUserRepo.mock_eligible teamID ex) (snd <$> it))) ∧
  NoDup (User.ID <$> filter (MockUserRepo.mock_eligible teamID ex) (snd <$> it)) ∧
  filter (MockUserRepo.mock_eligible teamID ex) (snd <$> it) ≡ₚ
    filter (MockUserRepo.mock_eligible teamID ex) (snd <$> map_to_list (MockUserRepo.Users m)) ∧
  length (take (Z.to_nat limit) (filter (MockUserRepo.mock_eligible teamID ex) (snd <$> it))) =
    (Z.to_nat limit `min`
       length (filter (MockUserRepo.mock_eligible teamID ex) (snd <$> map_to_list (MockUserRepo.Users m))))%nat.
Proof.
  intros Hwf Hit Hl. split_and!.
  - unfold MockUserRepo.FindActiveInTeamExcept. f_equal.
    rewrite find_loop_pos by (simpl; lia). simpl. by rewrite Nat.sub_0_r.
  - by apply (NoDup_ids_order m).
  - by rewrite Hit.
  - by rewrite length_take, Hit.
Qed.


(** ** The mock team repository *)

Lemma Create_team_inv m n : MockTeamRepo.team_inv m -> MockTeamRepo.team_inv (MockTeamRepo.Create m n).2.
Proof.
  unfold MockTeamRepo.Create. destruct (MockTeamRepo.TeamsByName m !! n) as [tm|] eqn:Hn; [done|].
  intros (Hsize & Hall & Hinj). unfold MockTeamRepo.team_inv. simpl. split_and!.
  - rewrite map_size_insert_None by done. lia.
  - apply map_Forall_insert_2; [simpl; split; [done|lia]|].
    eapply map_Forall_impl; [exact Hall|]. intros k t [? ?]. cbn. split; [done|lia].
  - intros n1 n2 t1 t2 H1 H2 Hid.
    rewrite lookup_insert in H1, H2.
    destruct (decide (n = n1)), (decide (n = n2)); simplify_eq/=; [done| | |by eapply Hinj].
    + destruct (Hall _ _ H2) as [_ ?]. lia.
    + destruct (Hall _ _ H1) as [_ ?]. lia.
Qed.

Lemma creates_snoc ns n :
  MockTeamRepo.creates (ns ++ [n])%list = (MockTeamRepo.Create (MockTeamRepo.creates ns) n).2.
Proof. unfold MockTeamRepo.creates. by rewrite foldl_app. Qed.

Lemma creates_dom ns : dom (MockTeamRepo.TeamsByName (MockTeamRepo.creates ns)) = list_to_set ns.
Proof.
  induction ns as [|n ns IH] using rev_ind; [done|].
  rewrite creates_snoc, list_to_set_app_L. simpl. unfold MockTeamRepo.Create.
  destruct (MockTeamRepo.TeamsByName (MockTeamRepo.creates ns) !! n) eqn:Hn; simpl.
  - apply elem_of_dom_2 in Hn. rewrite IH in Hn |- *. set_solver.
  - rewrite dom_insert_L, IH. set_solver.
Qed.

(** C39: The mock team repository after any sequence of
    [Create]s, from [NewMockTeamRepo]: ids are 1 to [nextID], distinct,
    each team stored under its own name; [nextID] is the number of
    distinct names, so a duplicate name does not use up an id (unlike
    the PostgreSQL sequence [TeamRepo.Create] advances); and
    [GetByName] finds exactly the names created. *)
Theorem mock_team_creates ns :
  MockTeamRepo.team_inv (MockTeamRepo.creates ns) ∧
  MockTeamRepo.nextID (MockTeamRepo.creates ns) = Z.of_nat (size (list_to_set ns : gset string)) ∧
  ∀ n, n ∈ ns <-> ∃ tm, MockTeamRepo.GetByName (MockTeamRepo.creates ns) n = Ok tm ∧ Team.Name tm = n.
Proof.
  assert (Hinv : MockTeamRepo.team_inv (MockTeamRepo.creates ns)).
  { induction ns as [|n ns IH] using rev_ind.
    - split_and!; [done|apply map_Forall_empty|by intros ? ? ? ?].
    - rewrite creates_snoc. by apply Create_team_inv. }
  split_and!; [done| |].
  - destruct Hinv as [-> _]. by rewrite <-creates_dom, size_dom.
  - intros n. rewrite <-(elem_of_list_to_set (C:=gset string)), <-creates_dom, elem_of_dom.
    unfold MockTeamRepo.GetByName. destruct Hinv as (_ & Hall & _).
    split.
    + intros [tm Htm]. rewrite Htm. exists tm. split; [done|]. by destruct (Hall _ _ Htm).
    + intros (tm & Htm & _). destruct (_ !! n); [by eexists|done].
Qed.

(** ** [UpsertTeamMembers] and [ListByTeam] *)

Section upsert.
Context (teamID : Z).

Lemma upsert_cons m u ms :
  MockUserRepo.UpsertTeamMembers m teamID (u :: ms) =
  MockUserRepo.UpsertTeamMembers
    (MockUserRepo.set_users m (<[User.ID u := MockUserRepo.with_team teamID u]> (MockUserRepo.Users m)))
    teamID ms.
Proof. done. Qed.

Lemma upsert_lookup_notin m ms k :
  k ∉ User.ID <$> ms ->
  MockUserRepo.Users (MockUserRepo.UpsertTeamMembers m teamID ms) !! k = MockUserRepo.Users m !! k.
Proof.
  revert m. induction ms as [|u ms IH]; intros m Hk; [done|].
  rewrite fmap_cons, elem_of_cons in Hk. rewrite upsert_cons, IH by naive_solver.
  simpl. rewrite lookup_insert_ne; naive_solver.
Qed.

Lemma upsert_lookup_in m ms u :
  NoDup (User.ID <$> ms) -> u ∈ ms ->
  MockUserRepo.Users (MockUserRepo.UpsertTeamMembers m teamID ms) !! User.ID u =
  Some (MockUserRepo.with_team teamID u).
Proof.
  revert m. induction ms as [|v ms IH]; intros m Hnd Hu; [by apply not_elem_of_nil in Hu|].
  rewrite fmap_cons in Hnd. apply NoDup_cons in Hnd as [Hv Hnd]. rewrite upsert_cons.
  apply elem_of_cons in Hu as [->|Hu]; [|by apply IH].
  rewrite upsert_lookup_notin by done. simpl. by rewrite lookup_insert_eq.
Qed.

Lemma upsert_wf m ms : MockUserRepo.users_wf m -> MockUserRepo.users_wf (MockUserRepo.UpsertTeamMembers m teamID ms).
Proof.
  revert m. induction ms as [|u ms IH]; intros m Hwf; [done|]. rewrite upsert_cons. apply IH.
  unfold MockUserRepo.users_wf. simpl. by apply map_Forall_insert_2.
Qed.

End upsert.

(** C40: The mock's [UpsertTeamMembers] and [ListByTeam]
    round-trip: after upserting members with distinct ids into team
    [teamID], which had no other member, listing the team in any
    visiting order gives back the members, moved into the team, up to
    order; and every user is still stored under its own id. *)
Theorem mock_upsert_list m teamID members it :
  MockUserRepo.users_wf m -> NoDup (User.ID <$> members) ->
  (∀ k u, MockUserRepo.Users m !! k = Some u -> User.TeamID u = teamID -> k ∈ User.ID <$> members) ->
  it ≡ₚ map_to_list (MockUserRepo.Users (MockUserRepo.UpsertTeamMembers m teamID members)) ->
  MockUserRepo.users_wf (MockUserRepo.UpsertTeamMembers m teamID members) ∧
  ∃ L, MockUserRepo.ListByTeam it teamID = Ok L ∧ L ≡ₚ MockUserRepo.with_team teamID <$> members.
Proof.
  intros Hwf Hnd Hold Hit. pose proof (upsert_wf teamID m members Hwf) as Hwf'.
  split; [done|]. eexists. split; [reflexivity|].
  apply NoDup_Permutation.
  - eapply NoDup_fmap_1, (NoDup_ids_order _ it); [exact Hwf'|exact Hit].
  - apply (NoDup_fmap_1 User.ID). by rewrite <-list_fmap_compose.
  - intros x. rewrite list_elem_of_filter, Hit, list_elem_of_fmap. split.
    + intros [Hx ([k x'] & -> & Hin)]. apply elem_of_map_to_list in Hin. simpl in *.
      destruct (decide (k ∈ User.ID <$> members)) as [Hk|Hk].
      * apply list_elem_of_fmap in Hk as (u & -> & Hu).
        rewrite upsert_lookup_in in Hin by done. injection Hin as <-. by apply list_elem_of_fmap_2.
      * rewrite upsert_lookup_notin in Hin by done. by destruct (Hk (Hold _ _ Hin Hx)).
    + intros (u & -> & Hu)%list_elem_of_fmap. split; [done|]. exists (User.ID u, MockUserRepo.with_team teamID u).
      split; [done|]. apply elem_of_map_to_list. by apply upsert_lookup_in.
Qed.

(** ** The mock PR repository *)

Lemma swap_reviewer_notin o n (revs : list string) : o ∉ revs -> swap_reviewer o n <$> revs = revs.
Proof.
  induction revs as [|r revs IH]; intros Hn; [done|]. rewrite not_elem_of_cons in Hn.
  rewrite fmap_cons, IH by tauto. unfold swap_reviewer. by rewrite decide_False by naive_solver.
Qed.

Lemma replace_first_in o n (revs : list string) :
  NoDup revs -> o ∈ revs -> MockPrRepo.replace_first o n revs = Some (swap_reviewer o n <$> revs).
Proof.
  induction revs as [|r revs IH]; intros Hnd Hin; [by apply not_elem_of_nil in Hin|].
  apply NoDup_cons in Hnd as [Hr Hnd]. cbn [MockPrRepo.replace_first]. rewrite fmap_cons.
  case_bool_decide as Hro.
  - subst r. rewrite swap_reviewer_notin by done. unfold swap_reviewer. by rewrite decide_True.
  - apply elem_of_cons in Hin as [->|Hin]; [done|].
    rewrite IH by done. unfold swap_reviewer at 2. by rewrite decide_False.
Qed.

Lemma replace_first_notin o n (revs : list string) : o ∉ revs -> MockPrRepo.replace_first o n revs = None.
Proof.
  induction revs as [|r revs IH]; intros Hn; [done|]. rewrite not_elem_of_cons in Hn.
  cbn [MockPrRepo.replace_first]. case_bool_decide; [naive_solver|]. rewrite IH; [done|tauto].
Qed.

Lemma insert_with_lookup m pr ids :
  ids ≠ [] ->
  MockPrRepo.PRs (MockPrRepo.insert_with m pr ids) !! PullRequest.ID pr = Some pr ∧
  MockPrRepo.Reviewers (MockPrRepo.insert_with m pr ids) !! PullRequest.ID pr = Some ids.
Proof.
  intros Hne. unfold MockPrRepo.insert_with, MockPrRepo.AddReviewers, MockPrRepo.Insert.
  rewrite bool_decide_false by done. cbn. by rewrite !lookup_insert_eq.
Qed.

(** C37: The mock PR repository keeps what [Create] stores: after
    [Insert] and [AddReviewers] of a non-empty list of distinct
    reviewers, [GetWithReviewers] answers the PR and the list in its
    order; [ReplaceReviewer] of one of them succeeds and leaves the list
    with that one reviewer swapped in place, which is the effect of the
    PostgreSQL [UPDATE] on the PR's rows ([swap_reviewer]); and
    [ReplaceReviewer] of a user not in the list fails with
    [ErrReviewerNotSet] and changes nothing. *)
Theorem mock_pr_roundtrip m pr (ids : list string) o n :
  ids ≠ [] -> NoDup ids ->
  MockPrRepo.GetWithReviewers (MockPrRepo.insert_with m pr ids) (PullRequest.ID pr) = Ok (pr, ids) ∧
  (o ∈ ids -> ∃ m',
     MockPrRepo.ReplaceReviewer (MockPrRepo.insert_with m pr ids) (PullRequest.ID pr) o n = (Ok tt, m') ∧
     MockPrRepo.GetWithReviewers m' (PullRequest.ID pr) = Ok (pr, swap_reviewer o n <$> ids)) ∧
  (o ∉ ids ->
     MockPrRepo.ReplaceReviewer (MockPrRepo.insert_with m pr ids) (PullRequest.ID pr) o n =
       (Err ErrReviewerNotSet, MockPrRepo.insert_with m pr ids)).
Proof.
  intros Hne Hnd. destruct (insert_with_lookup m pr ids Hne) as [Hp Hr].
  unfold MockPrRepo.GetWithReviewers, MockPrRepo.ReplaceReviewer. rewrite Hp, Hr.
  split_and!; [done| |].
  - intros Hin. rewrite replace_first_in by done. eexists. split; [done|]. cbn.
    by rewrite Hp, lookup_insert_eq.
  - intros Hn. by rewrite replace_first_notin.
Qed.

(** C31: [SetMerged] of the mock: the PR is marked merged and its merge time
    is the first one; a second call keeps it.  The status name is left as
    it was, where the PostgreSQL repository reads it back as "MERGED";
    an unknown PR is [ErrPRNotFound] with nothing changed. *)
Theorem mock_SetMerged m prID pr t1 t2 :
  (MockPrRepo.PRs m !! prID = None ->
   MockPrRepo.SetMerged m prID t1 = (Err ErrPRNotFound, m)) ∧
  (MockPrRepo.PRs m !! prID = Some pr ->
   ∃ pr1 m1 pr2 m2,
     MockPrRepo.SetMerged m prID t1 = (Ok pr1, m1) ∧ MockPrRepo.SetMerged m1 prID t2 = (Ok pr2, m2) ∧
     PullRequest.StatusID pr2 = StatusMerged ∧
     PullRequest.MergedAt pr1 = Some (default t1 (PullRequest.MergedAt pr)) ∧
     PullRequest.MergedAt pr2 = PullRequest.MergedAt pr1 ∧
     PullRequest.StatusName pr2 = PullRequest.StatusName pr ∧
     MockPrRepo.PRs m2 !! prID = Some pr2 ∧ MockPrRepo.Reviewers m2 = MockPrRepo.Reviewers m).
Proof.
  unfold MockPrRepo.SetMerged. split; intros Hp; rewrite Hp; [done|].
  do 4 eexists. split; [reflexivity|]. cbn. rewrite lookup_insert_eq.
  split; [reflexivity|]. cbn. rewrite lookup_insert_eq.
  destruct (PullRequest.MergedAt pr); split_and!; done.
Qed.

(** ** The tables of the unit tests *)

(** [TestTeamService_TeamGet_ReturnsTeamWithMembers]: u1, u2 in team
    10, u3 in team 99. *)
Definition fx_mock_users : MockUserRepo.t :=
  MockUserRepo.set_users MockUserRepo.NewMockUserRepo
    (list_to_map [("u1", User.mk "u1" "Alina" 10 "" true); ("u2", User.mk "u2" "Roma" 10 "" false);
                  ("u3", User.mk "u3" "Gleb" 99 "" true)]).

(** The members of [TestTeamService_TeamAdd_CreatesTeamAndMembers]. *)
Definition fx_mock_members : list User.t :=
  [User.mk "u1" "Misha" 0 "" true; User.mk "u2" "Dima" 0 "" false].

#[local] Instance users_wf_dec m : Decision (MockUserRepo.users_wf m).
Proof. unfold MockUserRepo.users_wf. apply _. Defined.

Lemma mock_FindActive_witness :
  MockUserRepo.FindActiveInTeamExcept (map_to_list (MockUserRepo.Users fx_mock_users)) 10 "u9" 1 =
    Ok (take 1 (filter (MockUserRepo.mock_eligible 10 "u9")
                  (snd <$> map_to_list (MockUserRepo.Users fx_mock_users)))) ∧
  NoDup (User.ID <$> filter (MockUserRepo.mock_eligible 10 "u9")
                        (snd <$> map_to_list (MockUserRepo.Users fx_mock_users))) ∧
  filter (MockUserRepo.mock_eligible 10 "u9") (snd <$> map_to_list (MockUserRepo.Users fx_mock_users)) ≡ₚ
    filter (MockUserRepo.mock_eligible 10 "u9") (snd <$> map_to_list (MockUserRepo.Users fx_mock_users)) ∧
  length (take 1 (filter (MockUserRepo.mock_eligible 10 "u9")
                    (snd <$> map_to_list (MockUserRepo.Users fx_mock_users)))) =
    (1 `min` length (filter (MockUserRepo.mock_eligible 10 "u9")
                       (snd <$> map_to_list (MockUserRepo.Users fx_mock_users))))%nat.
Proof.
  apply (mock_FindActive fx_mock_users (map_to_list (MockUserRepo.Users fx_mock_users)) 10 "u9" 1);
    [by apply (bool_decide_unpack _); vm_compute|reflexivity|lia].
Defined.

Lemma mock_upsert_list_witness :
  MockUserRepo.users_wf (MockUserRepo.UpsertTeamMembers MockUserRepo.NewMockUserRepo 1 fx_mock_members) ∧
  ∃ L, MockUserRepo.ListByTeam
         (map_to_list (MockUserRepo.Users
            (MockUserRepo.UpsertTeamMembers MockUserRepo.NewMockUserRepo 1 fx_mock_members))) 1 = Ok L ∧
       L ≡ₚ MockUserRepo.with_team 1 <$> fx_mock_members.
Proof.
  apply mock_upsert_list.
  - by apply (bool_decide_unpack _); vm_compute.
  - by apply (bool_decide_unpack _); vm_compute.
  - intros k u Hk. simpl in Hk. by rewrite lookup_empty in Hk.
  - reflexivity.
Defined.

(** The PR of [TestPRService_Create_AssignsReviewersFromAuthorsTeam] in
    [tests/unittests], stored as [Create] stores it. *)
Definition fx_mock_pr : PullRequest.t := PullRequest.mk "pr-1" "Add search" "u1" 1 "" 0 None.

Lemma mock_pr_roundtrip_witness :
  MockPrRepo.GetWithReviewers (MockPrRepo.insert_with MockPrRepo.NewMockPrRepo fx_mock_pr ["u2"; "u3"])
    "pr-1" = Ok (fx_mock_pr, ["u2"; "u3"]) ∧
  ("u2" ∈ ["u2"; "u3"] -> ∃ m',
     MockPrRepo.ReplaceReviewer (MockPrRepo.insert_with MockPrRepo.NewMockPrRepo fx_mock_pr ["u2"; "u3"])
       "pr-1" "u2" "u4" = (Ok tt, m') ∧
     MockPrRepo.GetWithReviewers m' "pr-1" = Ok (fx_mock_pr, swap_reviewer "u2" "u4" <$> ["u2"; "u3"])) ∧
  ("u2" ∉ ["u2"; "u3"] ->
     MockPrRepo.ReplaceReviewer (MockPrRepo.insert_with MockPrRepo.NewMockPrRepo fx_mock_pr ["u2"; "u3"])
       "pr-1" "u2" "u4" =
       (Err ErrReviewerNotSet, MockPrRepo.insert_with MockPrRepo.NewMockPrRepo fx_mock_pr ["u2"; "u3"])).
Proof.
  apply (mock_pr_roundtrip MockPrRepo.NewMockPrRepo fx_mock_pr ["u2"; "u3"] "u2" "u4");
    [discriminate|by apply (bool_decide_unpack _); vm_compute].
Defined.

Lemma mock_SetMerged_witness :
  MockPrRepo.PRs (MockPrRepo.insert_with MockPrRepo.NewMockPrRepo fx_mock_pr ["u2"]) !! "pr-1" =
    Some fx_mock_pr ∧
  ∃ pr1 m1 pr2 m2,
    MockPrRepo.SetMerged (MockPrRepo.insert_with MockPrRepo.NewMockPrRepo fx_mock_pr ["u2"]) "pr-1" 5 =
      (Ok pr1, m1) ∧ MockPrRepo.SetMerged m1 "pr-1" 9 = (Ok pr2, m2) ∧
    PullRequest.StatusID pr2 = StatusMerged ∧
    PullRequest.MergedAt pr1 = Some (default 5%Z (PullRequest.MergedAt fx_mock_pr)) ∧
    PullRequest.MergedAt pr2 = PullRequest.MergedAt pr1 ∧
    PullRequest.StatusName pr2 = PullRequest.StatusName fx_mock_pr ∧
    MockPrRepo.PRs m2 !! "pr-1" = Some pr2 ∧
    MockPrRepo.Reviewers m2 =
      MockPrRepo.Reviewers (MockPrRepo.insert_with MockPrRepo.NewMockPrRepo fx_mock_pr ["u2"]).
Proof.
  assert (H : MockPrRepo.PRs (MockPrRepo.insert_with MockPrRepo.NewMockPrRepo fx_mock_pr ["u2"]) !! "pr-1" =
                Some fx_mock_pr) by reflexivity.
  split; [exact H|].
  exact (proj2 (mock_SetMerged _ "pr-1" fx_mock_pr 5 9) H).
Defined.
